(** * SWA-scraper: the page-scrape routine of [javascript modules/scraper.js]

    A shallow embedding of [pageScrape] and of the two record classes it
    fills ([FlightObj], [MetadataObj]).  The browser (Puppeteer, ghost-cursor)
    and the datastore (Supabase) are the routine's environment: they are an
    interface [Host] over an abstract world, every awaited call of which
    either resolves or rejects.  The routine itself is written in a small
    error monad that threads the world and emits the observable events of a
    run (host calls with their replies, console messages) in order. *)

From Stdlib Require Import List String Ascii ZArith Lia Bool Arith.
From Stdlib Require Import DecimalString DecimalNat.
Import ListNotations.

Set Implicit Arguments.
Open Scope string_scope.
Open Scope list_scope.

(** ** JavaScript values that land in a record *)

#[local] Unset Elimination Schemes.
Inductive JsVal : Type :=
| JNull
| JBool (b : bool)
| JNum (n : Z)
| JStr (s : string)
| JArr (l : list JsVal).
#[local] Set Elimination Schemes.

(** What a rejected promise or a [throw] carries.  [TypeErrorUndefined] is
    the error of reading [textContent] off [undefined]. *)
Inductive Err : Type :=
| TypeErrorUndefined
| HostError (msg : string).

Inductive Res (A : Type) : Type :=
| Ok (a : A)
| Throw (e : Err).
Arguments Ok {A} a.
Arguments Throw {A} e.

(** ** Flight data models (scraper.js, lines 64-93) *)

Record MetadataObj : Type := mkMetadataObj {
  flightNums : JsVal;
  numStops : JsVal;
  planeChange : JsVal;
  deptTime : string;
  arrTime : string;
  duration : string;
  prices : list string;
  seatsLeft : list JsVal
}.

Record FlightObj : Type := mkFlightObj {
  departurePort : string;
  arrivalPort : string;
  date : string;
  metadata : MetadataObj
}.

(** ** Structural queries

    Every XPath the routine sends is one of these, indexed by the row [i]
    and, for fares, by the tier [j]. *)

Inductive Selector : Type :=
| SelFlightNum (i : nat)
| SelNumStops (i : nat)
| SelPlaneChange (i : nat)
| SelDeptTime (i : nat)
| SelDeptAmPm (i : nat)
| SelArrTime (i : nat)
| SelArrAmPm (i : nat)
| SelDuration (i : nat)
| SelPrice (i j : nat)
| SelSeats (i j : nat).

Definition dq : string := String (ascii_of_nat 34) EmptyString.

(** The template substitution [${i}] of a non-negative integer. *)
Definition num (n : nat) : string := NilEmpty.string_of_uint (Nat.to_uint n).

Definition rowPath (i : nat) : string :=
  ("//*[@id=" ++ dq ++ "air-booking-product-0" ++ dq
   ++ "]/div[6]/span/span/ul/li[" ++ num i ++ "]")%string.

Definition farePath (i j : nat) : string :=
  ("//*[@id=" ++ dq ++ "air-booking-fares-0-" ++ num i ++ dq
   ++ "]/div[" ++ num j ++ "]/button/span/span/span")%string.

Definition xpath_of (s : Selector) : string :=
  (match s with
  | SelFlightNum i => rowPath i ++ "/div[1]/div/div/button/span[1]"
  | SelNumStops i => rowPath i ++ "/div[4]/div/button/span[1]/div"
  | SelPlaneChange i => rowPath i ++ "/div[4]/div[2]"
  | SelDeptTime i => rowPath i ++ "/div[2]/span/text()"
  | SelDeptAmPm i => rowPath i ++ "/div[2]/span/span[2]"
  | SelArrTime i => rowPath i ++ "/div[3]/span/text()"
  | SelArrAmPm i => rowPath i ++ "/div[3]/span/span[2]"
  | SelDuration i => rowPath i ++ "/div[5]"
  | SelPrice i j => farePath i j ++ "/span/span[2]/span[2]"
  | SelSeats i j => farePath i j ++ "/div/span"
  end)%string.

Definition searchButtonXPath : string :=
  ("//*[@id=" ++ dq ++ "form-mixin--submit-button" ++ dq ++ "]")%string.

Definition rowSelector : string := ".air-booking-select-detail".

Definition flightsTable : string := "Flights".

(** ** Observable events of a run *)

Inductive Call : Type :=
| CLaunch
| CNewPage
| CRandomPagePoint
| CInstallMouseHelper
| CGoto (url : string) (timeout : Z)
| CWaitForXPath (xpath : string) (timeout : Z)
| CClick (waitForClick paddingPercentage : Z)
| CWaitForTimeout (ms : Z)
| CScrollBy (x y : Z)
| CCountRows (css : string)
| CQuery (s : Selector)
| CTextContent
| CClose
| CInsert (table : string) (rows : list FlightObj).

Inductive Reply : Type :=
| RDone
| RThrew (e : Err)
| RCount (n : nat)
| RText (s : string)
| RInsert (data : JsVal) (error : option Err).

Inductive LogMsg : Type :=
| MsgStart (dept arr dateStr : string)
| MsgLaunchError (e : Err)
| MsgRedirect
| MsgNoSearchButton
| MsgNoFlightData
| MsgRowError (i : nat) (e : Err)
| MsgFlights (flights : list FlightObj)
| MsgInsertError (e : Err)
| MsgInserted (data : JsVal)
| MsgFatal (e : Err).

Inductive Level : Type := LvlLog | LvlWarn | LvlError.

Definition level (m : LogMsg) : Level :=
  match m with
  | MsgStart _ _ _ | MsgRedirect | MsgFlights _ | MsgInserted _ => LvlLog
  | MsgNoSearchButton | MsgNoFlightData => LvlWarn
  | MsgLaunchError _ | MsgRowError _ _ | MsgInsertError _ | MsgFatal _ => LvlError
  end.

Inductive Event : Type :=
| EvCall (c : Call) (r : Reply)
| EvLog (m : LogMsg).

(** ** The environment *)

Record InsertResult : Type := mkInsertResult {
  data : JsVal;
  error : option Err
}.

(** An awaited host call: resolves or rejects, and moves the world. *)
Definition Op (W A : Type) : Type := W -> Res A * W.

(** The browser-automation and datastore boundary.  [insert] follows the
    datastore client's contract: it resolves to [{ data, error }] and reports
    a failed insert in [error]. *)
Record Host (W Elem : Type) : Type := mkHost {
  launch : Op W unit;
  newPage : Op W unit;
  getRandomPagePoint : Op W unit;
  installMouseHelper : Op W unit;
  goto : string -> Z -> Op W unit;
  page_url : W -> string;
  waitForXPath : string -> Z -> Op W Elem;
  cursor_click : Elem -> Z -> Z -> Op W unit;
  waitForTimeout : Z -> Op W unit;
  scrollBy : Z -> Z -> Op W unit;
  countRows : string -> Op W nat;
  xpath : string -> Op W (list Elem);
  textContent : Elem -> Op W string;
  close : Op W unit;
  insert : string -> list FlightObj -> W -> InsertResult * W;
  processFlightNums : string -> Res JsVal;
  processNumStops : string -> Res JsVal;
  processSeatsLeft : string -> Res JsVal;
  processPlaneChange : string -> Res JsVal
}.

(** ** The monad of the routine *)

Section Monad.

Variable W : Type.

(** A computation runs from a world to a result, the world it leaves and
    the events it emitted, oldest first. *)
Definition M (A : Type) : Type := W -> Res A * W * list Event.

Definition ret {A} (a : A) : M A := fun w => (Ok a, w, []).

Definition bind {A B} (m : M A) (k : A -> M B) : M B :=
  fun w =>
    match m w with
    | (Ok a, w1, t1) => let '(r, w2, t2) := k a w1 in (r, w2, t1 ++ t2)
    | (Throw e, w1, t1) => (Throw e, w1, t1)
    end.

(** [try { m } catch (error) { handler error }] *)
Definition try_catch {A} (m : M A) (handler : Err -> M A) : M A :=
  fun w =>
    match m w with
    | (Ok a, w1, t1) => (Ok a, w1, t1)
    | (Throw e, w1, t1) => let '(r, w2, t2) := handler e w1 in (r, w2, t1 ++ t2)
    end.

Definition reply_of {A} (rep : A -> Reply) (r : Res A) : Reply :=
  match r with
  | Ok a => rep a
  | Throw e => RThrew e
  end.

(** [await] of a host call, recorded with its reply. *)
Definition call {A} (c : Call) (rep : A -> Reply) (op : Op W A) : M A :=
  fun w => let '(r, w1) := op w in (r, w1, [EvCall c (reply_of rep r)]).

Definition done {A} (_ : A) : Reply := RDone.

Definition log (m : LogMsg) : M unit := fun w => (Ok tt, w, [EvLog m]).

(** A processing function of [./processing]: pure, no host call. *)
Definition pure_res {A} (r : Res A) : M A := fun w => (r, w, []).

End Monad.

Arguments ret {W A} a.
Arguments log {W} m.
Arguments pure_res {W A} r.

Declare Scope scrape_scope.
Delimit Scope scrape_scope with scrape.
Notation "x <- m ;; k" := (bind m (fun x => k))
  (at level 61, m at next level, right associativity) : scrape_scope.
Notation "m ;; k" := (bind m (fun _ => k))
  (at level 61, right associativity) : scrape_scope.
Open Scope scrape_scope.

(** How an invocation of the routine ends: the promise resolves to the
    flights array or to [null], it rejects, or the process exits. *)
Inductive Outcome : Type :=
| Returned (flights : option (list FlightObj))
| Rejected (e : Err)
| ProcessExit (code : Z).

(** ** The routine (scraper.js, lines 95-289) *)

Section Scraper.

Variables W Elem : Type.
Variable H : Host W Elem.

Definition query (s : Selector) : M W (list Elem) :=
  call (CQuery s) (fun els => RCount (List.length els)) (xpath H (xpath_of s)).

(** [page.evaluate((el) => el.textContent, els[0])]: with no match [els[0]]
    is [undefined] and the property read throws in the page. *)
Definition textOf (el : option Elem) : M W string :=
  match el with
  | Some e => call CTextContent RText (textContent H e)
  | None => fun w => (Throw TypeErrorUndefined, w,
                      [EvCall CTextContent (RThrew TypeErrorUndefined)])
  end.

Definition nonEmpty {A} (els : list A) : bool := (0 <? List.length els)%nat.

(** [els[0]] *)
Definition firstMatch {A} (els : list A) : option A := hd_error els.

(** Lines 108-124. *)
Definition handleRedirect (url : string) : M W unit :=
  fun w =>
    if String.eqb (page_url H w) url then ret tt w
    else
      (log MsgRedirect ;;
       try_catch
         (search <- call (CWaitForXPath searchButtonXPath 5000) done
                      (waitForXPath H searchButtonXPath 5000) ;;
          call (CClick 2500 25) done (cursor_click H search 2500 25) ;;
          call (CWaitForTimeout 5000) done (waitForTimeout H 5000))
         (fun _ => log MsgNoSearchButton)) w.

(** Lines 103-127.  [createCursor] only builds the cursor object around the
    page and the random point; the point is the awaited call. *)
Definition openPage (url : string) : M W unit :=
  call CNewPage done (newPage H) ;;
  call CRandomPagePoint done (getRandomPagePoint H) ;;
  call CInstallMouseHelper done (installMouseHelper H) ;;
  call (CGoto url 90000) done (goto H url 90000) ;;
  handleRedirect url ;;
  call (CScrollBy 0 450) done (scrollBy H 0 450) ;;
  call (CWaitForTimeout 3000) done (waitForTimeout H 3000).

(** Lines 130-133. *)
Definition countFlights : M W nat :=
  call (CCountRows rowSelector) RCount (countRows H rowSelector).

(** Lines 230-253: the tiers [j], [j+1], ... of row [i], pushed in order. *)
Fixpoint fareLoop (i : nat) (js : list nat)
    (prices0 : list string) (seatsLeft0 : list JsVal)
    : M W (list string * list JsVal) :=
  match js with
  | [] => ret (prices0, seatsLeft0)
  | j :: js' =>
      priceElement <- query (SelPrice i j) ;;
      price <- (if nonEmpty priceElement then textOf (firstMatch priceElement)
                else ret "Unavailable") ;;
      seatsLeftElement <- query (SelSeats i j) ;;
      seats <- (if nonEmpty seatsLeftElement
                then (txt <- textOf (firstMatch seatsLeftElement) ;;
                      pure_res (processSeatsLeft H txt))
                else ret JNull) ;;
      fareLoop i js' (prices0 ++ [price]) (seatsLeft0 ++ [seats])
  end.

(** Lines 154-266: the body of the per-row [try], up to the new record. *)
Definition scrapeRow (dept arr dateStr : string) (i : nat) : M W FlightObj :=
  flightNumElement <- query (SelFlightNum i) ;;
  flightNums_ <- (if nonEmpty flightNumElement
                  then (txt <- textOf (firstMatch flightNumElement) ;;
                        pure_res (processFlightNums H txt))
                  else ret (JArr [])) ;;
  numStopsElement <- query (SelNumStops i) ;;
  numStops_ <- (if nonEmpty numStopsElement
                then (txt <- textOf (firstMatch numStopsElement) ;;
                      pure_res (processNumStops H txt))
                else ret (JStr "Nonstop")) ;;
  planeChangeElement <- query (SelPlaneChange i) ;;
  planeChange_ <- (if nonEmpty planeChangeElement
                   then (txt <- textOf (firstMatch planeChangeElement) ;;
                         pure_res (processPlaneChange H txt))
                   else ret JNull) ;;
  deptTimeElement <- query (SelDeptTime i) ;;
  deptTimeAmPmElement <- query (SelDeptAmPm i) ;;
  deptText <- textOf (firstMatch deptTimeElement) ;;
  deptAmPm <- textOf (firstMatch deptTimeAmPmElement) ;;
  arrTimeElement <- query (SelArrTime i) ;;
  arrTimeAmPmElement <- query (SelArrAmPm i) ;;
  arrText <- textOf (firstMatch arrTimeElement) ;;
  arrAmPm <- textOf (firstMatch arrTimeAmPmElement) ;;
  durationElement <- query (SelDuration i) ;;
  duration_ <- textOf (firstMatch durationElement) ;;
  fares <- fareLoop i [1; 2; 3] [] [] ;;
  ret (mkFlightObj dept arr dateStr
         (mkMetadataObj flightNums_ numStops_ planeChange_
            (deptText ++ " " ++ deptAmPm)%string
            (arrText ++ " " ++ arrAmPm)%string
            duration_ (fst fares) (snd fares))).

(** Lines 143-270: rows [i], [i+1], ..., [n] of them, each in its own
    [try]/[catch]. *)
Fixpoint rowLoop (dept arr dateStr : string) (n i : nat)
    (flights : list FlightObj) : M W (list FlightObj) :=
  match n with
  | O => ret flights
  | S n' =>
      flights' <- try_catch
                    (flight <- scrapeRow dept arr dateStr i ;;
                     ret (flights ++ [flight]))
                    (fun e => log (MsgRowError i e) ;; ret flights) ;;
      rowLoop dept arr dateStr n' (S i) flights'
  end.

(** Lines 274-279: one insert and its console line. *)
Definition insertFlight (flight : FlightObj) : M W unit :=
  fun w =>
    let '(res, w1) := insert H flightsTable [flight] w in
    (Ok tt, w1,
     [EvCall (CInsert flightsTable [flight]) (RInsert (data res) (error res));
      EvLog (match error res with
             | Some e => MsgInsertError e
             | None => MsgInserted (data res)
             end)]).

(** Lines 273-280. *)
Fixpoint persist (flights : list FlightObj) : M W unit :=
  match flights with
  | [] => ret tt
  | flight :: rest => insertFlight flight ;; persist rest
  end.

Definition closeBrowser : M W unit := call CClose done (close H).

(** Lines 103-283: the body of the outer [try]. *)
Definition scrapeBody (dept arr dateStr url : string)
    : M W (option (list FlightObj)) :=
  openPage url ;;
  count <- countFlights ;;
  if (count =? 0)%nat then
    log MsgNoFlightData ;;
    closeBrowser ;;
    ret None
  else
    flights <- rowLoop dept arr dateStr count 1 [] ;;
    log (MsgFlights flights) ;;
    persist flights ;;
    closeBrowser ;;
    ret (Some flights).

(** Lines 284-288. *)
Definition fatalHandler (e : Err) : M W (option (list FlightObj)) :=
  log (MsgFatal e) ;;
  closeBrowser ;;
  ret None.

(** Lines 95-289.  [getBrowser] (lines 42-61) ends the process when the
    launch fails; past it everything runs inside the outer [try].  The
    stealth plugin registration of line 96 is configuration and emits
    nothing. *)
Definition pageScrape (dept arr dateStr url : string)
    : W -> Outcome * W * list Event :=
  fun w =>
    match launch H w with
    | (Throw e, w1) =>
        (ProcessExit 1, w1,
         [EvLog (MsgStart dept arr dateStr);
          EvCall CLaunch (RThrew e);
          EvLog (MsgLaunchError e)])
    | (Ok _, w1) =>
        let '(r, w2, t) :=
          try_catch (scrapeBody dept arr dateStr url) fatalHandler w1 in
        (match r with
         | Ok flights => Returned flights
         | Throw e => Rejected e
         end, w2,
         EvLog (MsgStart dept arr dateStr) :: EvCall CLaunch RDone :: t)
    end.

End Scraper.

Arguments pageScrape {W Elem} H dept arr dateStr url w.
Arguments scrapeRow {W Elem} H dept arr dateStr i w.
Arguments rowLoop {W Elem} H dept arr dateStr n i flights w.
Arguments persist {W Elem} H flights w.
Arguments handleRedirect {W Elem} H url w.

(** ** Reading a run *)

Definition outcome {W} (run : Outcome * W * list Event) : Outcome :=
  fst (fst run).

Definition events {W} (run : Outcome * W * list Event) : list Event :=
  snd run.

(** The replies of the [browser.close()] calls of a run, in order. *)
Fixpoint closeReplies (t : list Event) : list Reply :=
  match t with
  | [] => []
  | EvCall CClose r :: t' => r :: closeReplies t'
  | _ :: t' => closeReplies t'
  end.

(** The insert calls of a run, in order: table and rows sent. *)
Fixpoint insertCalls (t : list Event) : list (string * list FlightObj) :=
  match t with
  | [] => []
  | EvCall (CInsert table rows) _ :: t' => (table, rows) :: insertCalls t'
  | _ :: t' => insertCalls t'
  end.

(** The rows whose [catch] ran, in order. *)
Fixpoint failedRows (t : list Event) : list nat :=
  match t with
  | [] => []
  | EvLog (MsgRowError i _) :: t' => i :: failedRows t'
  | _ :: t' => failedRows t'
  end.

Definition isQuery (ev : Event) : bool :=
  match ev with EvCall (CQuery _) _ => true | _ => false end.

Definition isTextContent (ev : Event) : bool :=
  match ev with EvCall CTextContent _ => true | _ => false end.

Definition isCount (ev : Event) : bool :=
  match ev with EvCall (CCountRows _) _ => true | _ => false end.

Definition isInsert (ev : Event) : bool :=
  match ev with EvCall (CInsert _ _) _ => true | _ => false end.

Definition isClose (ev : Event) : bool :=
  match ev with EvCall CClose _ => true | _ => false end.

Definition isRowError (ev : Event) : bool :=
  match ev with EvLog (MsgRowError _ _) => true | _ => false end.

(** Events of the navigation stage (lines 103-127). *)
Definition isNav (ev : Event) : bool :=
  match ev with
  | EvCall CNewPage _ | EvCall CRandomPagePoint _
  | EvCall CInstallMouseHelper _ | EvCall (CGoto _ _) _
  | EvCall (CWaitForXPath _ _) _ | EvCall (CClick _ _) _
  | EvCall (CWaitForTimeout _) _ | EvCall (CScrollBy _ _) _
  | EvLog MsgRedirect | EvLog MsgNoSearchButton => true
  | _ => false
  end.

(** Events of the extraction stage (lines 143-270). *)
Definition isExtract (ev : Event) : bool :=
  isQuery ev || isTextContent ev || isRowError ev.

(** Events of the persistence stage (lines 273-280). *)
Definition isPersist (ev : Event) : bool :=
  match ev with
  | EvCall (CInsert _ _) _ | EvLog (MsgInsertError _) | EvLog (MsgInserted _) => true
  | _ => false
  end.

(** What the persistence sweep emits for [flights] when the datastore
    answers [results], record by record. *)
Fixpoint persistEvents (flights : list FlightObj) (results : list InsertResult)
    : list Event :=
  match flights, results with
  | flight :: flights', res :: results' =>
      EvCall (CInsert flightsTable [flight]) (RInsert (data res) (error res))
      :: EvLog (match error res with
                | Some e => MsgInsertError e
                | None => MsgInserted (data res)
                end)
      :: persistEvents flights' results'
  | _, _ => []
  end.

(** All the events of [t] satisfy [Q]. *)
Definition only (Q : Event -> bool) (t : list Event) : Prop :=
  forallb Q t = true.

(** Every event a computation emits, from any world, satisfies [Q]. *)
Definition Emits {W A} (Q : Event -> bool) (m : M W A) : Prop :=
  forall w, only Q (snd (m w)).

(** Whenever the computation resolves, its value and its events satisfy
    [P]. *)
Definition Spec {W A} (m : M W A) (P : A -> list Event -> Prop) : Prop :=
  forall w a w' t, m w = (Ok a, w', t) -> P a t.

(** Events of the redirect handling (lines 109-124). *)
Definition isRedirect (ev : Event) : bool :=
  match ev with
  | EvCall (CWaitForXPath _ _) _ | EvCall (CClick _ _) _
  | EvCall (CWaitForTimeout _) _
  | EvLog MsgRedirect | EvLog MsgNoSearchButton => true
  | _ => false
  end.

Definition isGoto (ev : Event) : bool :=
  match ev with EvCall (CGoto _ _) _ => true | _ => false end.

(** Fare queries of the tiers [js] or a text read. *)
Definition isFareOf (js : list nat) (ev : Event) : bool :=
  match ev with
  | EvCall (CQuery (SelPrice _ j)) _ | EvCall (CQuery (SelSeats _ j)) _ =>
      existsb (Nat.eqb j) js
  | EvCall CTextContent _ => true
  | _ => false
  end.

Definition isFareQuery (ev : Event) : bool :=
  match ev with
  | EvCall (CQuery (SelPrice _ _)) _ | EvCall (CQuery (SelSeats _ _)) _ => true
  | _ => false
  end.

(** What the extraction of rows [i], ..., [i+n-1] leaves: the records
    [before] grown to [after], one record or one logged failure per row,
    every row entered. *)
Definition ExtractRun (i n : nat) (before after : list FlightObj)
    (te : list Event) : Prop :=
  only isExtract te /\
  (exists added, after = before ++ added
                 /\ List.length added + List.length (failedRows te) = n) /\
  NoDup (failedRows te) /\
  (forall k, In k (failedRows te) -> i <= k < i + n) /\
  (forall k, i <= k < i + n ->
             exists r, In (EvCall (CQuery (SelFlightNum k)) r) te).

(** What a row's record says about its fare slots, given the row's events. *)
Definition fareSlots (i : nat) (f : FlightObj) (t : list Event) : Prop :=
  List.length (prices (metadata f)) = 3 /\
  List.length (seatsLeft (metadata f)) = 3 /\
  forall j, In j [1; 2; 3] ->
    (In (EvCall (CQuery (SelPrice i j)) (RCount 0)) t ->
     nth_error (prices (metadata f)) (j - 1) = Some "Unavailable") /\
    (In (EvCall (CQuery (SelSeats i j)) (RCount 0)) t ->
     nth_error (seatsLeft (metadata f)) (j - 1) = Some JNull).

(** What [browser.close()] leaves of a pending result. *)
Definition closing {A} (cr : Res unit) (v : A) : Res A :=
  match cr with
  | Ok _ => Ok v
  | Throw e => Throw e
  end.

Definition closeEvent (cr : Res unit) : Event :=
  EvCall CClose (reply_of done cr).

Definition countEvent (r : Reply) : Event :=
  EvCall (CCountRows rowSelector) r.

(** Events past the navigation stage. *)
Definition isBodyRest (ev : Event) : bool :=
  match ev with
  | EvLog MsgNoFlightData | EvLog (MsgFlights _) => true
  | _ => isCount ev || isExtract ev || isPersist ev || isClose ev
  end.

(** The four ways the body of the outer [try] can run: navigation throws,
    the row count throws, no row, some rows. *)
Inductive BodyShape : Res (option (list FlightObj)) -> list Event -> Prop :=
| BodyNavFailed e tn :
    only isNav tn ->
    BodyShape (Throw e) tn
| BodyCountFailed e tn :
    only isNav tn ->
    BodyShape (Throw e) (tn ++ [countEvent (RThrew e)])
| BodyEmpty tn cr :
    only isNav tn ->
    BodyShape (closing cr None)
      (tn ++ [countEvent (RCount 0); EvLog MsgNoFlightData; closeEvent cr])
| BodyRows n tn te flights results cr :
    0 < n ->
    only isNav tn ->
    ExtractRun 1 n [] flights te ->
    List.length results = List.length flights ->
    BodyShape (closing cr (Some flights))
      (tn ++ countEvent (RCount n) :: te
          ++ EvLog (MsgFlights flights) :: persistEvents flights results
          ++ [closeEvent cr]).

(** The ways an invocation can run: the launch fails, the body resolves,
    the body throws into the fatal handler. *)
Inductive RunShape (dept arr dateStr : string)
    : Outcome -> list Event -> Prop :=
| RunExit e :
    RunShape dept arr dateStr (ProcessExit 1)
      [EvLog (MsgStart dept arr dateStr); EvCall CLaunch (RThrew e);
       EvLog (MsgLaunchError e)]
| RunDone v t :
    BodyShape (Ok v) t ->
    RunShape dept arr dateStr (Returned v)
      (EvLog (MsgStart dept arr dateStr) :: EvCall CLaunch RDone :: t)
| RunFatal e t cr :
    BodyShape (Throw e) t ->
    RunShape dept arr dateStr
      (match cr with Ok _ => Returned None | Throw e2 => Rejected e2 end)
      (EvLog (MsgStart dept arr dateStr) :: EvCall CLaunch RDone
         :: t ++ [EvLog (MsgFatal e); closeEvent cr]).

(** ** What a row reads

    On a page whose nodes are [els], the text of the first one. *)

Definition firstText {Elem} (text : Elem -> string) (els : list Elem)
    : option string :=
  match els with
  | [] => None
  | el :: _ => Some (text el)
  end.

(** The value a guarded field takes: the default [d] when nothing matched,
    what the processing function [g] makes of the first text otherwise. *)
Definition fieldFrom (g : string -> Res JsVal) (d : JsVal)
    (txt : option string) (v : JsVal) : Prop :=
  match txt with
  | None => v = d
  | Some s => g s = Ok v
  end.

Definition priceFrom (txt : option string) : string :=
  match txt with
  | None => "Unavailable"
  | Some s => s
  end.

Definition fareSelectors (i : nat) (js : list nat) : list Selector :=
  flat_map (fun j => [SelPrice i j; SelSeats i j]) js.

(** The queries of one row, in the order of the source. *)
Definition rowSelectors (i : nat) : list Selector :=
  [SelFlightNum i; SelNumStops i; SelPlaneChange i;
   SelDeptTime i; SelDeptAmPm i; SelArrTime i; SelArrAmPm i; SelDuration i]
  ++ fareSelectors i [1; 2; 3].

(** The characters [num] writes. *)
Definition digits : list ascii :=
  ["0"; "1"; "2"; "3"; "4"; "5"; "6"; "7"; "8"; "9"]%char.

(** The XPath queries of a run, in order, whatever they answered. *)
Fixpoint queriesOf (t : list Event) : list Selector :=
  match t with
  | [] => []
  | EvCall (CQuery sel) _ :: t' => sel :: queriesOf t'
  | _ :: t' => queriesOf t'
  end.

(** The rows whose extraction was entered: those whose flight-number query
    was sent, in order. *)
Fixpoint rowsEntered (t : list Event) : list nat :=
  match t with
  | [] => []
  | EvCall (CQuery (SelFlightNum i)) _ :: t' => i :: rowsEntered t'
  | _ :: t' => rowsEntered t'
  end.

(** The queries a computation sends are [l], in order, when it resolves,
    and the first few of [l] when it throws. *)
Definition QueriesIn {W A} (l : list Selector) (m : M W A) : Prop :=
  forall w,
    match fst (fst (m w)) with
    | Ok _ => queriesOf (snd (m w)) = l
    | Throw _ => exists k, queriesOf (snd (m w)) = firstn k l
    end.

(** A computation emits at most [k] events of the kind [p]. *)
Definition AtMost {W A} (p : Event -> bool) (k : nat) (m : M W A) : Prop :=
  forall w, List.length (filter p (snd (m w))) <= k.

(** Events before the row count: the start line, the launch, navigation. *)
Definition isBefore (ev : Event) : bool :=
  match ev with
  | EvLog (MsgStart _ _ _) | EvCall CLaunch _ => true
  | _ => isNav ev
  end.

(** Events after the extraction: the tail of the body, the fatal handler. *)
Definition isAfter (ev : Event) : bool :=
  match ev with
  | EvLog MsgNoFlightData | EvLog (MsgFlights _) | EvLog (MsgFatal _) => true
  | _ => isPersist ev || isClose ev
  end.

(** The flight-number query, the first step of a row. *)
Definition isEnter (ev : Event) : bool :=
  match ev with EvCall (CQuery (SelFlightNum _)) _ => true | _ => false end.

Definition isLaunch (ev : Event) : bool :=
  match ev with EvCall CLaunch _ => true | _ => false end.

Definition isFatal (ev : Event) : bool :=
  match ev with EvLog (MsgFatal _) => true | _ => false end.

(** What follows the body of the outer [try] when it throws. *)
Definition isHandler (ev : Event) : bool := isFatal ev || isClose ev.

(** Events past the extraction inside the outer [try]. *)
Definition isTail (ev : Event) : bool :=
  match ev with
  | EvLog MsgNoFlightData | EvLog (MsgFlights _) => true
  | _ => isPersist ev || isClose ev
  end.

(** ** A scripted host: fixture pages

    The page is a table from XPath to the text of the matched nodes; the
    datastore answers inserts from a script, one entry per call. *)

Record Fixture : Type := mkFixture {
  fxLanded : string;
  fxLoads : bool;
  fxButton : bool;
  fxRows : nat;
  fxNodes : list (string * list string);
  fxInserts : list (option Err);
  fxCloses : list bool
}.

Fixpoint lookupNodes (x : string) (nodes : list (string * list string))
    : list string :=
  match nodes with
  | [] => []
  | (k, v) :: nodes' => if String.eqb k x then v else lookupNodes x nodes'
  end.

Definition timeoutError : Err := HostError "TimeoutError".

Definition fixtureHost : Host Fixture string := {|
  launch := fun w => (Ok tt, w);
  newPage := fun w => (Ok tt, w);
  getRandomPagePoint := fun w => (Ok tt, w);
  installMouseHelper := fun w => (Ok tt, w);
  goto := fun _ _ w => (if fxLoads w then Ok tt else Throw timeoutError, w);
  page_url := fxLanded;
  waitForXPath := fun _ _ w =>
    (if fxButton w then Ok "Search" else Throw timeoutError, w);
  cursor_click := fun _ _ _ w => (Ok tt, w);
  waitForTimeout := fun _ w => (Ok tt, w);
  scrollBy := fun _ _ w => (Ok tt, w);
  countRows := fun _ w => (Ok (fxRows w), w);
  xpath := fun x w => (Ok (lookupNodes x (fxNodes w)), w);
  textContent := fun el w => (Ok el, w);
  close := fun w =>
    match fxCloses w with
    | false :: rest =>
        (Throw (HostError "Target closed"),
         mkFixture (fxLanded w) (fxLoads w) (fxButton w) (fxRows w)
           (fxNodes w) (fxInserts w) rest)
    | _ => (Ok tt, w)
    end;
  insert := fun _ _ w =>
    match fxInserts w with
    | r :: rest =>
        (mkInsertResult JNull r,
         mkFixture (fxLanded w) (fxLoads w) (fxButton w) (fxRows w)
           (fxNodes w) rest (fxCloses w))
    | [] => (mkInsertResult JNull None, w)
    end;
  processFlightNums := fun s => Ok (JArr [JStr s]);
  processNumStops := fun s => Ok (JStr s);
  processSeatsLeft := fun s => Ok (JStr s);
  processPlaneChange := fun s => Ok (JBool true)
|}.

(** The nodes of one result row: its schedule fields and its fares, a
    fare being a price and a seats note. *)
Definition scheduleNodes (i : nat) (dur : list string)
    : list (string * list string) :=
  [ (xpath_of (SelFlightNum i), ["# 1234"]);
    (xpath_of (SelNumStops i), ["1 stop"]);
    (xpath_of (SelDeptTime i), ["6:00"]);
    (xpath_of (SelDeptAmPm i), ["AM"]);
    (xpath_of (SelArrTime i), ["9:35"]);
    (xpath_of (SelArrAmPm i), ["AM"]);
    (xpath_of (SelDuration i), dur) ].

Definition fareNodes (i j : nat) (price seats : string)
    : list (string * list string) :=
  [ (xpath_of (SelPrice i j), [price]);
    (xpath_of (SelSeats i j), [seats]) ].

Definition searchUrl : string := "https://www.southwest.com/air/booking/select.html".

(** Two rows: row 1 with three fares, row 2 with none. *)
Definition twoRowPage : Fixture :=
  mkFixture searchUrl true true 2
    (scheduleNodes 1 ["3h 35m"] ++ fareNodes 1 1 "129" "2 left"
     ++ fareNodes 1 2 "159" "5 left" ++ fareNodes 1 3 "199" "1 left"
     ++ scheduleNodes 2 ["4h 10m"])
    [Some (HostError "row violates policy"); None] [].

(** Two rows, the duration cell of row 1 not rendered. *)
Definition noDurationPage : Fixture :=
  mkFixture searchUrl true true 2
    (scheduleNodes 1 [] ++ fareNodes 1 1 "129" "2 left"
     ++ scheduleNodes 2 ["4h 10m"])
    [] [].

(** Rows are counted, none of them has a readable schedule. *)
Definition brokenRowsPage : Fixture :=
  mkFixture searchUrl true true 3 [] [] [].

Definition emptyPage : Fixture :=
  mkFixture searchUrl true true 0 [] [] [].

(** The site answers with its search form and no submit control. *)
Definition redirectedPage : Fixture :=
  mkFixture "https://www.southwest.com/air/booking/" true false 0 [] [] [].

Definition stalledPage : Fixture :=
  mkFixture searchUrl false true 2 (scheduleNodes 1 ["3h 35m"]) [] [].

(** The scripted host with a browser that does not start. *)
Definition deadBrowserHost : Host Fixture string := {|
  launch := fun w => (Throw (HostError "Failed to launch the browser process"), w);
  newPage := newPage fixtureHost;
  getRandomPagePoint := getRandomPagePoint fixtureHost;
  installMouseHelper := installMouseHelper fixtureHost;
  goto := goto fixtureHost;
  page_url := page_url fixtureHost;
  waitForXPath := waitForXPath fixtureHost;
  cursor_click := cursor_click fixtureHost;
  waitForTimeout := waitForTimeout fixtureHost;
  scrollBy := scrollBy fixtureHost;
  countRows := countRows fixtureHost;
  xpath := xpath fixtureHost;
  textContent := textContent fixtureHost;
  close := close fixtureHost;
  insert := insert fixtureHost;
  processFlightNums := processFlightNums fixtureHost;
  processNumStops := processNumStops fixtureHost;
  processSeatsLeft := processSeatsLeft fixtureHost;
  processPlaneChange := processPlaneChange fixtureHost
|}.

(** Two full rows, and a session whose first [close] rejects. *)
Definition lateClosePage : Fixture :=
  mkFixture searchUrl true true 2
    (scheduleNodes 1 ["3h 35m"] ++ fareNodes 1 1 "129" "2 left"
     ++ scheduleNodes 2 ["4h 10m"])
    [] [false].

(** The search form with its submit control. *)
Definition searchFormPage : Fixture :=
  mkFixture "https://www.southwest.com/air/booking/" true true 1
    (scheduleNodes 1 ["3h 35m"]) [] [].

(** No rows, and a session whose [close] rejects twice. *)
Definition closeTwicePage : Fixture :=
  mkFixture searchUrl true true 0 [] [] [false; false].

(** The load times out and the handler's [close] rejects. *)
Definition stalledClosePage : Fixture :=
  mkFixture searchUrl false true 2 (scheduleNodes 1 ["3h 35m"]) [] [false].

(** Three rows that all throw, and a first [close] that rejects. *)
Definition brokenRowsClosePage : Fixture :=
  mkFixture searchUrl true true 3 [] [] [false].

(** One row whose queries match two nodes each, of different texts, with
    fares in tiers 1 and 3 only. *)
Definition crowdedPage : Fixture :=
  mkFixture searchUrl true true 1
    [ (xpath_of (SelFlightNum 1), ["# 1234"; "# 77"]);
      (xpath_of (SelNumStops 1), ["1 stop"; "2 stops"]);
      (xpath_of (SelDeptTime 1), ["6:00"; "7:15"]);
      (xpath_of (SelDeptAmPm 1), ["AM"; "PM"]);
      (xpath_of (SelArrTime 1), ["1:35"; "11:05"]);
      (xpath_of (SelArrAmPm 1), ["PM"; "AM"]);
      (xpath_of (SelDuration 1), ["7h 35m"; "40m"]);
      (xpath_of (SelPrice 1 1), ["129"; "999"]);
      (xpath_of (SelSeats 1 1), ["2 left"; "9 left"]);
      (xpath_of (SelPrice 1 3), ["199"; "1"]) ]
    [] [].

(** The nodes of that page, as a function of the XPath. *)
Definition crowdedNodes (x : string) : list string :=
  lookupNodes x (fxNodes crowdedPage).

(** An invocation for Dallas to Houston on a fixture page. *)
Definition runOn (page : Fixture) : Outcome * Fixture * list Event :=
  pageScrape fixtureHost "DAL" "HOU" "2025-03-01" searchUrl page.

Definition flightsOf (run : Outcome * Fixture * list Event) : list FlightObj :=
  match outcome run with
  | Returned (Some flights) => flights
  | _ => []
  end.

Definition twoRowFlights : list FlightObj :=
  Eval vm_compute in flightsOf (runOn twoRowPage).

Definition secondRow : Res FlightObj * Fixture * list Event :=
  Eval vm_compute in scrapeRow fixtureHost "DAL" "HOU" "2025-03-01" 2 twoRowPage.

Definition failedFirstRow : Res FlightObj * Fixture * list Event :=
  Eval vm_compute in
    scrapeRow fixtureHost "DAL" "HOU" "2025-03-01" 1 noDurationPage.

Definition crowdedRow : Res FlightObj * Fixture * list Event :=
  Eval vm_compute in
    scrapeRow fixtureHost "DAL" "HOU" "2025-03-01" 1 crowdedPage.

Definition crowdedFlight : FlightObj :=
  Eval vm_compute in
    match crowdedRow with
    | (Ok f, _, _) => f
    | _ => mkFlightObj EmptyString EmptyString EmptyString
             (mkMetadataObj JNull JNull JNull EmptyString EmptyString
                EmptyString [] [])
    end.

Definition secondRowFlight : FlightObj :=
  Eval vm_compute in nth 1 twoRowFlights
    (mkFlightObj EmptyString EmptyString EmptyString
       (mkMetadataObj JNull JNull JNull EmptyString EmptyString EmptyString
          [] [])).

(** ** Reasoning about runs *)

Lemma only_nil Q : only Q [].
Proof. reflexivity. Qed.

Lemma only_cons Q ev t : Q ev = true -> only Q t -> only Q (ev :: t).
Proof. unfold only; simpl; intros -> ->; reflexivity. Qed.

Lemma only_app Q t1 t2 : only Q t1 -> only Q t2 -> only Q (t1 ++ t2).
Proof. unfold only; intros H1 H2; rewrite forallb_app, H1, H2; reflexivity. Qed.

Lemma only_app_l Q t1 t2 : only Q (t1 ++ t2) -> only Q t1.
Proof. unfold only; rewrite forallb_app; intros Ht; apply andb_prop in Ht; tauto. Qed.

Lemma only_In Q t ev : only Q t -> In ev t -> Q ev = true.
Proof. unfold only; rewrite forallb_forall; auto. Qed.

Lemma only_weaken (Q Q' : Event -> bool) t :
  (forall ev, Q ev = true -> Q' ev = true) -> only Q t -> only Q' t.
Proof.
  unfold only; rewrite !forallb_forall; auto.
Qed.

Lemma closeReplies_app t1 t2 :
  closeReplies (t1 ++ t2) = closeReplies t1 ++ closeReplies t2.
Proof.
  induction t1 as [|[[] r|m] t1 IH]; simpl; rewrite ?IH; reflexivity.
Qed.

Lemma insertCalls_app t1 t2 :
  insertCalls (t1 ++ t2) = insertCalls t1 ++ insertCalls t2.
Proof.
  induction t1 as [|[[] r|m] t1 IH]; simpl; rewrite ?IH; reflexivity.
Qed.

Lemma failedRows_app t1 t2 :
  failedRows (t1 ++ t2) = failedRows t1 ++ failedRows t2.
Proof.
  induction t1 as [|[c r|[]] t1 IH]; simpl; rewrite ?IH; reflexivity.
Qed.

Lemma closeReplies_none t :
  only (fun ev => negb (isClose ev)) t -> closeReplies t = [].
Proof.
  unfold only; induction t as [|[[] r|m] t IH]; simpl; intros Ht;
    try discriminate; auto.
Qed.

Lemma insertCalls_none t :
  only (fun ev => negb (isInsert ev)) t -> insertCalls t = [].
Proof.
  unfold only; induction t as [|[[] r|m] t IH]; simpl; intros Ht;
    try discriminate; auto.
Qed.

Lemma failedRows_none t :
  only (fun ev => negb (isRowError ev)) t -> failedRows t = [].
Proof.
  unfold only; induction t as [|[c r|[]] t IH]; simpl; intros Ht;
    try discriminate; auto.
Qed.

Section Properties.

Variables W Elem : Type.
Variable H : Host W Elem.

Lemma bind_inv {A B} (m : M W A) (k : A -> M W B) w r w' t :
  bind m k w = (r, w', t) ->
  (exists e, m w = (Throw e, w', t) /\ r = Throw e) \/
  (exists a w1 t1 t2,
      m w = (Ok a, w1, t1) /\ k a w1 = (r, w', t2) /\ t = t1 ++ t2).
Proof.
  unfold bind. destruct (m w) as [[[a|e] w1] t1].
  - destruct (k a w1) as [[r2 w2] t2] eqn:Ek. intros E; inversion E; subst.
    right. exists a, w1, t1, t2. auto.
  - intros E; inversion E; subst. left. exists e. auto.
Qed.

Lemma Emits_ret {A} Q (a : A) : Emits Q (@ret W A a).
Proof. intros w. apply only_nil. Qed.

Lemma Emits_pure {A} Q (r : Res A) : Emits Q (@pure_res W A r).
Proof. intros w. apply only_nil. Qed.

Lemma Emits_log Q m : Q (EvLog m) = true -> Emits Q (@log W m).
Proof. intros HQ w. apply only_cons; [exact HQ | apply only_nil]. Qed.

Lemma Emits_call {A} Q c (rep : A -> Reply) (op : Op W A) :
  (forall r, Q (EvCall c r) = true) -> Emits Q (call c rep op).
Proof.
  intros HQ w. unfold call. destruct (op w) as [r w1]. simpl.
  apply only_cons; [apply HQ | apply only_nil].
Qed.

Lemma Emits_bind {A B} Q (m : M W A) (k : A -> M W B) :
  Emits Q m -> (forall a, Emits Q (k a)) -> Emits Q (bind m k).
Proof.
  intros Hm Hk w. unfold bind. specialize (Hm w).
  destruct (m w) as [[[a|e] w1] t1]; simpl in *; auto.
  specialize (Hk a w1). destruct (k a w1) as [[r2 w2] t2]; simpl in *.
  apply only_app; assumption.
Qed.

Lemma Emits_try {A} Q (m : M W A) (h : Err -> M W A) :
  Emits Q m -> (forall e, Emits Q (h e)) -> Emits Q (try_catch m h).
Proof.
  intros Hm Hh w. unfold try_catch. specialize (Hm w).
  destruct (m w) as [[[a|e] w1] t1]; simpl in *; auto.
  specialize (Hh e w1). destruct (h e w1) as [[r2 w2] t2]; simpl in *.
  apply only_app; assumption.
Qed.

Lemma Emits_if {A} Q (b : bool) (m1 m2 : M W A) :
  Emits Q m1 -> Emits Q m2 -> Emits Q (if b then m1 else m2).
Proof. destruct b; auto. Qed.

Lemma Emits_weaken {A} (Q Q' : Event -> bool) (m : M W A) :
  (forall ev, Q ev = true -> Q' ev = true) -> Emits Q m -> Emits Q' m.
Proof. intros HQ Hm w. eapply only_weaken; eauto. Qed.

Lemma Emits_query Q s :
  (forall r, Q (EvCall (CQuery s) r) = true) -> Emits Q (query H s).
Proof. intros HQ. apply Emits_call, HQ. Qed.

Lemma Emits_textOf Q el :
  (forall r, Q (EvCall CTextContent r) = true) -> Emits Q (textOf H el).
Proof.
  intros HQ. destruct el as [e|]; simpl.
  - apply Emits_call, HQ.
  - intros w. simpl. apply only_cons; [apply HQ | apply only_nil].
Qed.

Ltac emits :=
  repeat first
    [ apply Emits_ret
    | apply Emits_pure
    | apply Emits_bind; [|intro]
    | apply Emits_try; [|intro]
    | apply Emits_if
    | apply Emits_log; reflexivity
    | apply Emits_call; intro; reflexivity
    | apply Emits_query; intro; reflexivity
    | apply Emits_textOf; intro; reflexivity ].

(** Side conditions [forall ev, Q ev = true -> Q' ev = true] between two
    classifiers of events. *)
Ltac classify :=
  let ev := fresh "ev" in
  intros ev; destruct ev as [[] ?|[]]; simpl; intros; 
  try reflexivity; try discriminate; try assumption.

Lemma Emits_handleRedirect url : Emits isRedirect (handleRedirect H url).
Proof.
  intros w. unfold handleRedirect.
  destruct (String.eqb (page_url H w) url); [apply only_nil|].
  revert w. change (Emits isRedirect
    (log MsgRedirect ;;
     try_catch
       (search <- call (CWaitForXPath searchButtonXPath 5000) done
                    (waitForXPath H searchButtonXPath 5000) ;;
        call (CClick 2500 25) done (cursor_click H search 2500 25) ;;
        call (CWaitForTimeout 5000) done (waitForTimeout H 5000))
       (fun _ => log MsgNoSearchButton))).
  emits.
Qed.

Lemma Emits_openPage url : Emits isNav (openPage H url).
Proof.
  unfold openPage. emits.
  eapply Emits_weaken; [|apply Emits_handleRedirect]. classify.
Qed.

Lemma isFareOf_cons j js ev :
  isFareOf js ev = true -> isFareOf (j :: js) ev = true.
Proof.
  destruct ev as [[] ?|?]; simpl; auto.
  all: destruct s; simpl; auto; intros ->; apply orb_true_r.
Qed.

Lemma Emits_fareLoop i js p0 s0 :
  Emits (isFareOf js) (fareLoop H i js p0 s0).
Proof.
  revert p0 s0. induction js as [|j js IH]; intros p0 s0; simpl.
  - apply Emits_ret.
  - assert (Hj : forall b, (Nat.eqb j j || b)%bool = true)
      by (intros b; rewrite Nat.eqb_refl; reflexivity).
    apply Emits_bind; [apply Emits_query; intro; simpl; apply Hj | intro].
    apply Emits_bind; [emits | intro].
    apply Emits_bind; [apply Emits_query; intro; simpl; apply Hj | intro].
    apply Emits_bind; [emits | intro].
    eapply Emits_weaken; [|apply IH]. intros ev. apply isFareOf_cons.
Qed.

Lemma Emits_scrapeRow dept arr dateStr i :
  Emits (fun ev => isQuery ev || isTextContent ev)%bool
        (scrapeRow H dept arr dateStr i).
Proof.
  unfold scrapeRow.
  do 16 (apply Emits_bind; [emits | intro]).
  apply Emits_bind; [|intro; apply Emits_ret].
  eapply Emits_weaken; [|apply Emits_fareLoop].
  intros [[] ?|?]; simpl; try discriminate; auto.
Qed.

Lemma Emits_rowLoop dept arr dateStr n i flights :
  Emits isExtract (rowLoop H dept arr dateStr n i flights).
Proof.
  revert i flights. induction n as [|n IH]; intros i flights; simpl.
  - apply Emits_ret.
  - apply Emits_bind; [|intro; apply IH].
    apply Emits_try; [|intro; emits].
    apply Emits_bind; [|intro; apply Emits_ret].
    eapply Emits_weaken; [|apply Emits_scrapeRow].
    intros ev Hev. unfold isExtract. rewrite Hev. reflexivity.
Qed.

Lemma Emits_insertFlight flight : Emits isPersist (insertFlight H flight).
Proof.
  intros w. unfold insertFlight.
  destruct (insert H flightsTable [flight] w) as [res w1]. simpl.
  unfold only. simpl. destruct (error res); reflexivity.
Qed.

Lemma Emits_persist flights : Emits isPersist (persist H flights).
Proof.
  induction flights as [|f fs IH]; simpl.
  - apply Emits_ret.
  - apply Emits_bind; [apply Emits_insertFlight | intro; apply IH].
Qed.

(** *** Resolved runs, step by step *)

Lemma bind_ok_inv {A B} (m : M W A) (k : A -> M W B) w b w' t :
  bind m k w = (Ok b, w', t) ->
  exists a w1 t1 t2,
    m w = (Ok a, w1, t1) /\ k a w1 = (Ok b, w', t2) /\ t = t1 ++ t2.
Proof.
  intros Hb. apply bind_inv in Hb as [(e & _ & He)|Hb]; [discriminate|].
  exact Hb.
Qed.

Lemma call_inv {A} c (rep : A -> Reply) (op : Op W A) w r w' t :
  call c rep op w = (r, w', t) ->
  op w = (r, w') /\ t = [EvCall c (reply_of rep r)].
Proof.
  unfold call. destruct (op w) as [r1 w1]. intros E; inversion E; subst. auto.
Qed.

Lemma Spec_ret {A} (a : A) (P : A -> list Event -> Prop) :
  P a [] -> Spec (@ret W A a) P.
Proof. intros HP w a' w' t E. inversion E; subst. exact HP. Qed.

Lemma Spec_bind {A B} (m : M W A) (k : A -> M W B) P1 P :
  Spec m P1 ->
  (forall a, Spec (k a) (fun b t2 => forall t1, P1 a t1 -> P b (t1 ++ t2))) ->
  Spec (bind m k) P.
Proof.
  intros Hm Hk w b w' t Hb.
  apply bind_ok_inv in Hb as (a & w1 & t1 & t2 & Ha & Hkb & ->).
  eapply Hk; eauto.
Qed.

Lemma Spec_of_Emits {A} Q (m : M W A) : Emits Q m -> Spec m (fun _ t => only Q t).
Proof. intros Hm w a w' t E. specialize (Hm w). rewrite E in Hm. exact Hm. Qed.

(** A step whose events [Q] cannot touch what [P] says about the rest. *)
Lemma Spec_bind_skip {A B} Q (m : M W A) (k : A -> M W B) P :
  Emits Q m ->
  (forall b t1 t2, only Q t1 -> P b t2 -> P b (t1 ++ t2)) ->
  (forall a, Spec (k a) P) ->
  Spec (bind m k) P.
Proof.
  intros Hm HP Hk. eapply Spec_bind; [apply Spec_of_Emits, Hm|].
  intros a w b w' t E t1 Ht1. apply HP; [exact Ht1|]. eapply Hk; eauto.
Qed.

(** A property of the value alone passes through any step. *)
Lemma Spec_bind_value {A B} (m : M W A) (k : A -> M W B) (P : B -> Prop) :
  (forall a, Spec (k a) (fun b _ => P b)) -> Spec (bind m k) (fun b _ => P b).
Proof.
  intros Hk w b w' t Hb.
  apply bind_ok_inv in Hb as (a & w1 & t1 & t2 & Ha & Hkb & ->).
  eapply Hk; eauto.
Qed.

Lemma nonEmpty_length {A} (els : list A) :
  List.length els = 0 -> nonEmpty els = false.
Proof. destruct els; [reflexivity | discriminate]. Qed.

(** One fare slot: what a miss leaves, and what the slot emits. *)
Lemma price_slot els w price w' t :
  (if nonEmpty els then textOf H (firstMatch els) else ret "Unavailable") w
  = (Ok price, w', t) ->
  only isTextContent t /\ (List.length els = 0 -> price = "Unavailable").
Proof.
  intros E. split.
  - assert (Hm : Emits isTextContent
              (if nonEmpty els then textOf H (firstMatch els)
               else ret "Unavailable")) by emits.
    specialize (Hm w). rewrite E in Hm. exact Hm.
  - intros Hl. rewrite (nonEmpty_length _ Hl) in E. inversion E. reflexivity.
Qed.

Lemma seats_slot els w seats w' t :
  (if nonEmpty els
   then (txt <- textOf H (firstMatch els) ;; pure_res (processSeatsLeft H txt))
   else ret JNull) w = (Ok seats, w', t) ->
  only isTextContent t /\ (List.length els = 0 -> seats = JNull).
Proof.
  intros E. split.
  - assert (Hm : Emits isTextContent
              (if nonEmpty els
               then (txt <- textOf H (firstMatch els) ;;
                     pure_res (processSeatsLeft H txt))
               else ret JNull)) by emits.
    specialize (Hm w). rewrite E in Hm. exact Hm.
  - intros Hl. rewrite (nonEmpty_length _ Hl) in E. inversion E. reflexivity.
Qed.

Lemma isFareOf_tier i j js r :
  isFareOf js (EvCall (CQuery (SelPrice i j)) r) = true -> In j js.
Proof.
  simpl. rewrite existsb_exists. intros (x & Hx & E).
  apply Nat.eqb_eq in E. subst. exact Hx.
Qed.

Lemma isFareOf_tier_seats i j js r :
  isFareOf js (EvCall (CQuery (SelSeats i j)) r) = true -> In j js.
Proof.
  simpl. rewrite existsb_exists. intros (x & Hx & E).
  apply Nat.eqb_eq in E. subst. exact Hx.
Qed.

(** The fare loop pushes one price and one seats entry per tier, in tier
    order, and a tier whose query matched nothing gets the sentinel. *)
Lemma fareLoop_spec i js :
  NoDup js ->
  forall p0 s0 w ps ss w' t,
    fareLoop H i js p0 s0 w = (Ok (ps, ss), w', t) ->
    exists pn sn,
      ps = p0 ++ pn /\ ss = s0 ++ sn /\
      List.length pn = List.length js /\ List.length sn = List.length js /\
      forall k j, nth_error js k = Some j ->
        (In (EvCall (CQuery (SelPrice i j)) (RCount 0)) t ->
         nth_error pn k = Some "Unavailable") /\
        (In (EvCall (CQuery (SelSeats i j)) (RCount 0)) t ->
         nth_error sn k = Some JNull).
Proof.
  induction 1 as [|j js Hnotin Hnd IH]; intros p0 s0 w ps ss w' t Hrun.
  - inversion Hrun; subst. exists [], []. rewrite !app_nil_r.
    repeat split; auto; destruct k; discriminate.
  - simpl in Hrun.
    apply bind_ok_inv in Hrun as (pe & w1 & t1 & r1 & Hqp & Hrun & ->).
    apply call_inv in Hqp as [_ ->].
    apply bind_ok_inv in Hrun as (price & w2 & t2 & r2 & Hp & Hrun & ->).
    apply price_slot in Hp as [Ht2 Hprice].
    apply bind_ok_inv in Hrun as (se & w3 & t3 & r3 & Hqs & Hrun & ->).
    apply call_inv in Hqs as [_ ->].
    apply bind_ok_inv in Hrun as (seats & w4 & t4 & r4 & Hs & Hrun & ->).
    apply seats_slot in Hs as [Ht4 Hseats].
    pose proof (Emits_fareLoop i js (p0 ++ [price]) (s0 ++ [seats]) w4) as Ht5.
    rewrite Hrun in Ht5. simpl in Ht5.
    apply IH in Hrun as (pn & sn & -> & -> & Hlp & Hls & Hslots).
    exists (price :: pn), (seats :: sn). rewrite <- !app_assoc. simpl.
    split; [reflexivity|]. split; [reflexivity|].
    split; [congruence|]. split; [congruence|].
    intros k j0 Hk. split.
    + intros Hin. destruct Hin as [E|Hin].
      { inversion E; subst. destruct k as [|k]; simpl in *.
        - rewrite Hprice; auto.
        - exfalso. apply Hnotin. eapply nth_error_In; eauto. }
      apply in_app_or in Hin as [Hin|Hin];
        [apply (only_In _ Ht2) in Hin; discriminate|].
      destruct Hin as [E|Hin]; [discriminate|].
      apply in_app_or in Hin as [Hin|Hin];
        [apply (only_In _ Ht4) in Hin; discriminate|].
      destruct k as [|k]; simpl in *.
      * inversion Hk; subst. exfalso. apply Hnotin.
        eapply isFareOf_tier, (only_In _ Ht5), Hin.
      * apply (Hslots k j0); auto.
    + intros Hin. destruct Hin as [E|Hin]; [discriminate|].
      apply in_app_or in Hin as [Hin|Hin];
        [apply (only_In _ Ht2) in Hin; discriminate|].
      destruct Hin as [E|Hin].
      { inversion E; subst. destruct k as [|k]; simpl in *.
        - rewrite Hseats; auto.
        - exfalso. apply Hnotin. eapply nth_error_In; eauto. }
      apply in_app_or in Hin as [Hin|Hin];
        [apply (only_In _ Ht4) in Hin; discriminate|].
      destruct k as [|k]; simpl in *.
      * inversion Hk; subst. exfalso. apply Hnotin.
        eapply isFareOf_tier_seats, (only_In _ Ht5), Hin.
      * apply (Hslots k j0); auto.
Qed.

Lemma fareSlots_prefix i f t1 t2 :
  only (fun ev => negb (isFareQuery ev)) t1 ->
  fareSlots i f t2 -> fareSlots i f (t1 ++ t2).
Proof.
  intros Ht1 (Hp & Hs & Hslots). split; [exact Hp|]. split; [exact Hs|].
  intros j Hj. destruct (Hslots j Hj) as [Hprice Hseats].
  split; intros Hin; apply in_app_or in Hin as [Hin|Hin]; auto;
    apply (only_In _ Ht1) in Hin; discriminate.
Qed.

Lemma scrapeRow_fares dept arr dateStr i :
  Spec (scrapeRow H dept arr dateStr i) (fareSlots i).
Proof.
  unfold scrapeRow.
  do 16 (apply Spec_bind_skip with (Q := fun ev => negb (isFareQuery ev));
         [emits | intros; apply fareSlots_prefix; assumption | intro]).
  intros w f w' t Hrun.
  apply bind_ok_inv in Hrun as ([ps ss] & w1 & t1 & t2 & Hf & Hr & ->).
  inversion Hr; subst. rewrite app_nil_r.
  apply fareLoop_spec in Hf as (pn & sn & -> & -> & Hlp & Hls & Hslots).
  2: { repeat constructor; simpl; intuition discriminate. }
  unfold fareSlots. simpl. split; [exact Hlp|]. split; [exact Hls|].
  intros j Hj. simpl in Hj.
  destruct Hj as [<-|[<-|[<-|[]]]].
  - apply (Hslots 0 1). reflexivity.
  - apply (Hslots 1 2). reflexivity.
  - apply (Hslots 2 3). reflexivity.
Qed.

Lemma scrapeRow_ports dept arr dateStr i :
  Spec (scrapeRow H dept arr dateStr i)
       (fun f _ => departurePort f = dept /\ arrivalPort f = arr
                   /\ date f = dateStr).
Proof.
  unfold scrapeRow.
  do 17 (apply Spec_bind_value; intro).
  apply Spec_ret. simpl. auto.
Qed.

(** *** The schedule fields of a row *)

Lemma query_inv sel w els w' t :
  query H sel w = (Ok els, w', t) ->
  t = [EvCall (CQuery sel) (RCount (List.length els))].
Proof. unfold query. intros E. apply call_inv in E as [_ ->]. reflexivity. Qed.

(** A guarded field: the text of the first match through its processing
    function, or the default when nothing matched. *)
Lemma guarded_field (g : string -> Res JsVal) (d : JsVal) els w v w' t :
  (if nonEmpty els
   then (txt <- textOf H (firstMatch els) ;; pure_res (g txt))
   else ret d) w = (Ok v, w', t) ->
  only isTextContent t /\ (List.length els = 0 -> v = d).
Proof.
  intros E. split.
  - assert (Hm : Emits isTextContent
              (if nonEmpty els
               then (txt <- textOf H (firstMatch els) ;; pure_res (g txt))
               else ret d)) by emits.
    specialize (Hm w). rewrite E in Hm. exact Hm.
  - intros Hl. rewrite (nonEmpty_length _ Hl) in E. inversion E. reflexivity.
Qed.

(** An unguarded field: the read resolves only if something matched. *)
Lemma unguarded_field (els : list Elem) w v w' t :
  textOf H (firstMatch els) w = (Ok v, w', t) ->
  only isTextContent t /\ List.length els <> 0.
Proof.
  intros E. split.
  - assert (Hm : Emits isTextContent (textOf H (firstMatch els))) by emits.
    specialize (Hm w). rewrite E in Hm. exact Hm.
  - destruct els; [discriminate | simpl; lia].
Qed.

Ltac in_cases Hin :=
  repeat match type of Hin with
         | In _ (_ ++ _) => apply in_app_or in Hin as [Hin|Hin]
         | In _ (_ :: _) => destruct Hin as [Hin|Hin]
         | In _ [] => destruct Hin
         | _ \/ _ => destruct Hin as [Hin|Hin]
         | False => destruct Hin
         end.

Ltac off_stage Hin :=
  try discriminate Hin;
  try match goal with
      | Ht : only _ ?t |- _ =>
          match type of Hin with
          | In _ t => apply (only_In _ Ht) in Hin; discriminate Hin
          end
      end.

(** In the record of a resolved row, a flight-number, stops or plane-change
    query that matched nothing left the field's default; the two time
    queries, the two meridiem queries and the duration query all matched
    something, for a miss of any of them throws out of the row. *)
Lemma scrapeRow_schedule dept arr dateStr i w f w' t :
  scrapeRow H dept arr dateStr i w = (Ok f, w', t) ->
  (In (EvCall (CQuery (SelFlightNum i)) (RCount 0)) t ->
   flightNums (metadata f) = JArr [])
  /\ (In (EvCall (CQuery (SelNumStops i)) (RCount 0)) t ->
      numStops (metadata f) = JStr "Nonstop")
  /\ (In (EvCall (CQuery (SelPlaneChange i)) (RCount 0)) t ->
      planeChange (metadata f) = JNull)
  /\ ~ In (EvCall (CQuery (SelDeptTime i)) (RCount 0)) t
  /\ ~ In (EvCall (CQuery (SelDeptAmPm i)) (RCount 0)) t
  /\ ~ In (EvCall (CQuery (SelArrTime i)) (RCount 0)) t
  /\ ~ In (EvCall (CQuery (SelArrAmPm i)) (RCount 0)) t
  /\ ~ In (EvCall (CQuery (SelDuration i)) (RCount 0)) t.
Proof.
  unfold scrapeRow. intros Hrun.
  apply bind_ok_inv in Hrun as (e1 & w1 & t1 & r1 & Hq1 & Hrun & ->).
  apply query_inv in Hq1 as ->.
  apply bind_ok_inv in Hrun as (v2 & w2 & t2 & r2 & Hf2 & Hrun & ->).
  apply guarded_field in Hf2 as [Ht2 Hd2].
  apply bind_ok_inv in Hrun as (e3 & w3 & t3 & r3 & Hq3 & Hrun & ->).
  apply query_inv in Hq3 as ->.
  apply bind_ok_inv in Hrun as (v4 & w4 & t4 & r4 & Hf4 & Hrun & ->).
  apply guarded_field in Hf4 as [Ht4 Hd4].
  apply bind_ok_inv in Hrun as (e5 & w5 & t5 & r5 & Hq5 & Hrun & ->).
  apply query_inv in Hq5 as ->.
  apply bind_ok_inv in Hrun as (v6 & w6 & t6 & r6 & Hf6 & Hrun & ->).
  apply guarded_field in Hf6 as [Ht6 Hd6].
  apply bind_ok_inv in Hrun as (e7 & w7 & t7 & r7 & Hq7 & Hrun & ->).
  apply query_inv in Hq7 as ->.
  apply bind_ok_inv in Hrun as (e8 & w8 & t8 & r8 & Hq8 & Hrun & ->).
  apply query_inv in Hq8 as ->.
  apply bind_ok_inv in Hrun as (v9 & w9 & t9 & r9 & Hf9 & Hrun & ->).
  apply unguarded_field in Hf9 as [Ht9 Hn9].
  apply bind_ok_inv in Hrun as (v10 & w10 & t10 & r10 & Hf10 & Hrun & ->).
  apply unguarded_field in Hf10 as [Ht10 Hn10].
  apply bind_ok_inv in Hrun as (e11 & w11 & t11 & r11 & Hq11 & Hrun & ->).
  apply query_inv in Hq11 as ->.
  apply bind_ok_inv in Hrun as (e12 & w12 & t12 & r12 & Hq12 & Hrun & ->).
  apply query_inv in Hq12 as ->.
  apply bind_ok_inv in Hrun as (v13 & w13 & t13 & r13 & Hf13 & Hrun & ->).
  apply unguarded_field in Hf13 as [Ht13 Hn13].
  apply bind_ok_inv in Hrun as (v14 & w14 & t14 & r14 & Hf14 & Hrun & ->).
  apply unguarded_field in Hf14 as [Ht14 Hn14].
  apply bind_ok_inv in Hrun as (e15 & w15 & t15 & r15 & Hq15 & Hrun & ->).
  apply query_inv in Hq15 as ->.
  apply bind_ok_inv in Hrun as (v16 & w16 & t16 & r16 & Hf16 & Hrun & ->).
  apply unguarded_field in Hf16 as [Ht16 Hn16].
  apply bind_ok_inv in Hrun as (fares & w17 & t17 & r17 & Hfares & Hrun & ->).
  pose proof (Emits_fareLoop i [1; 2; 3] [] [] w16) as Ht17.
  rewrite Hfares in Ht17. simpl in Ht17.
  inversion Hrun; subst. clear Hrun. simpl.
  repeat split; intros Hin; in_cases Hin; off_stage Hin;
    inversion Hin; auto; congruence.
Qed.

(** *** The row loop *)

Lemma bind_call_first {A B} c (rep : A -> Reply) (op : Op W A)
    (k : A -> M W B) w :
  exists r t', snd (bind (call c rep op) k w) = EvCall c r :: t'.
Proof.
  unfold bind, call. destruct (op w) as [[a|e] w1].
  - destruct (k a w1) as [[r2 w2] t2]. simpl. eauto.
  - simpl. eauto.
Qed.

Lemma scrapeRow_first dept arr dateStr i w :
  exists r t',
    snd (scrapeRow H dept arr dateStr i w)
    = EvCall (CQuery (SelFlightNum i)) r :: t'.
Proof. unfold scrapeRow, query. apply bind_call_first. Qed.

Lemma scrapeRow_no_failedRows dept arr dateStr i w :
  failedRows (snd (scrapeRow H dept arr dateStr i w)) = [].
Proof.
  apply failedRows_none.
  eapply only_weaken; [|apply Emits_scrapeRow].
  intros [[] ?|[]]; simpl; auto.
Qed.

Lemma scrapeRow_isExtract dept arr dateStr i w :
  only isExtract (snd (scrapeRow H dept arr dateStr i w)).
Proof.
  eapply only_weaken; [|apply Emits_scrapeRow].
  intros ev Hev. unfold isExtract. rewrite Hev. reflexivity.
Qed.

(** One turn of the loop, when the row's extraction resolves. *)
Lemma rowLoop_step_ok dept arr dateStr n i flights w f w1 t1 :
  scrapeRow H dept arr dateStr i w = (Ok f, w1, t1) ->
  rowLoop H dept arr dateStr (S n) i flights w
  = (let '(r, w2, t2) := rowLoop H dept arr dateStr n (S i) (flights ++ [f]) w1
     in (r, w2, t1 ++ t2)).
Proof.
  intros Erow. cbn [rowLoop]. unfold bind at 1. unfold try_catch.
  unfold bind at 1. rewrite Erow. cbn [ret log bind app].
  rewrite ?app_nil_r. reflexivity.
Qed.

(** One turn of the loop, when the row's extraction throws. *)
Lemma rowLoop_step_throw dept arr dateStr n i flights w e w1 t1 :
  scrapeRow H dept arr dateStr i w = (Throw e, w1, t1) ->
  rowLoop H dept arr dateStr (S n) i flights w
  = (let '(r, w2, t2) := rowLoop H dept arr dateStr n (S i) flights w1
     in (r, w2, (t1 ++ [EvLog (MsgRowError i e)]) ++ t2)).
Proof.
  intros Erow. cbn [rowLoop]. unfold bind at 1. unfold try_catch.
  unfold bind at 1. rewrite Erow. cbn [ret log bind app].
  rewrite ?app_nil_r. reflexivity.
Qed.

Lemma rowLoop_run dept arr dateStr n :
  forall i flights w,
  exists flights' w' te,
    rowLoop H dept arr dateStr n i flights w = (Ok flights', w', te)
    /\ ExtractRun i n flights flights' te.
Proof.
  induction n as [|n IH]; intros i flights w.
  - exists flights, w, []. split; [reflexivity|].
    unfold ExtractRun. simpl. split; [apply only_nil|].
    split; [exists []; rewrite app_nil_r; auto|].
    split; [constructor|]. split; [intros k []|]. intros k Hk. lia.
  - destruct (scrapeRow H dept arr dateStr i w) as [[[f|e] w1] t1] eqn:Erow.
    + rewrite rowLoop_step_ok with (1 := Erow).
      destruct (IH (S i) (flights ++ [f]) w1)
        as (fl' & w' & t2 & -> & Hext & (added & -> & Hlen) & Hnd & Hrange & Hatt).
      exists ((flights ++ [f]) ++ added), w', (t1 ++ t2). split; [reflexivity|].
      pose proof (scrapeRow_no_failedRows dept arr dateStr i w) as Hnf.
      pose proof (scrapeRow_isExtract dept arr dateStr i w) as Hex.
      pose proof (scrapeRow_first dept arr dateStr i w) as (r0 & t0 & Hfirst).
      rewrite Erow in Hnf, Hex, Hfirst. simpl in Hnf, Hex, Hfirst.
      unfold ExtractRun. rewrite failedRows_app, Hnf. simpl.
      split; [apply only_app; assumption|].
      split; [exists (f :: added); rewrite <- app_assoc; simpl; split; auto|].
      split; [exact Hnd|].
      split; [intros k Hk; apply Hrange in Hk; lia|].
      intros k Hk. destruct (Nat.eq_dec k i) as [->|Hne].
      * exists r0. apply in_or_app. left. rewrite Hfirst. left. reflexivity.
      * destruct (Hatt k) as (r & Hr); [lia|]. exists r.
        apply in_or_app. right. exact Hr.
    + rewrite rowLoop_step_throw with (1 := Erow).
      destruct (IH (S i) flights w1)
        as (fl' & w' & t2 & -> & Hext & (added & -> & Hlen) & Hnd & Hrange & Hatt).
      exists (flights ++ added), w', ((t1 ++ [EvLog (MsgRowError i e)]) ++ t2).
      split; [reflexivity|].
      pose proof (scrapeRow_no_failedRows dept arr dateStr i w) as Hnf.
      pose proof (scrapeRow_isExtract dept arr dateStr i w) as Hex.
      pose proof (scrapeRow_first dept arr dateStr i w) as (r0 & t0 & Hfirst).
      rewrite Erow in Hnf, Hex, Hfirst. simpl in Hnf, Hex, Hfirst.
      unfold ExtractRun. rewrite !failedRows_app, Hnf. simpl.
      split; [apply only_app; [apply only_app; [assumption|reflexivity]|assumption]|].
      split; [exists added; split; [reflexivity|lia]|].
      split; [constructor; [intros Hin; apply Hrange in Hin; lia|exact Hnd]|].
      split; [intros k [<-|Hk]; [lia|apply Hrange in Hk; lia]|].
      intros k Hk. destruct (Nat.eq_dec k i) as [->|Hne].
      * exists r0. apply in_or_app. left. apply in_or_app. left.
        rewrite Hfirst. left. reflexivity.
      * destruct (Hatt k) as (r & Hr); [lia|]. exists r.
        apply in_or_app. right. exact Hr.
Qed.

(** Every record the loop adds comes out of a resolved [scrapeRow]. *)
Lemma rowLoop_records dept arr dateStr (P : FlightObj -> Prop) n :
  (forall i, Spec (scrapeRow H dept arr dateStr i) (fun f _ => P f)) ->
  forall i flights w flights' w' t,
    Forall P flights ->
    rowLoop H dept arr dateStr n i flights w = (Ok flights', w', t) ->
    Forall P flights'.
Proof.
  intros HP. induction n as [|n IH]; intros i flights w flights' w' t Hfl Hrun.
  - inversion Hrun; subst. exact Hfl.
  - destruct (scrapeRow H dept arr dateStr i w) as [[[f|e] w1] t1] eqn:Erow.
    + rewrite rowLoop_step_ok with (1 := Erow) in Hrun.
      destruct (rowLoop H dept arr dateStr n (S i) (flights ++ [f]) w1)
        as [[r2 w2] t2] eqn:Erest.
      inversion Hrun; subst.
      eapply IH; [|exact Erest].
      apply Forall_app. split; [exact Hfl|].
      constructor; [|constructor]. eapply HP; eauto.
    + rewrite rowLoop_step_throw with (1 := Erow) in Hrun.
      destruct (rowLoop H dept arr dateStr n (S i) flights w1)
        as [[r2 w2] t2] eqn:Erest.
      inversion Hrun; subst.
      eapply IH; [|exact Erest]. exact Hfl.
Qed.

(** *** The persistence sweep *)

Lemma persist_run flights :
  forall w, exists results w',
    persist H flights w = (Ok tt, w', persistEvents flights results)
    /\ List.length results = List.length flights.
Proof.
  induction flights as [|f fs IH]; intros w.
  - exists [], w. split; reflexivity.
  - cbn [persist]. unfold bind, insertFlight.
    destruct (insert H flightsTable [f] w) as [res w1].
    destruct (IH w1) as (results & w' & -> & Hlen).
    exists (res :: results), w'. split; [reflexivity|]. simpl. congruence.
Qed.

Lemma insertCalls_persistEvents flights :
  forall results,
    List.length results = List.length flights ->
    insertCalls (persistEvents flights results)
    = map (fun f => (flightsTable, [f])) flights.
Proof.
  induction flights as [|f fs IH]; intros [|res results] Hlen;
    try discriminate; simpl; [reflexivity|].
  rewrite IH by (simpl in Hlen; congruence). reflexivity.
Qed.

Lemma only_persistEvents flights results :
  only isPersist (persistEvents flights results).
Proof.
  revert results. induction flights as [|f fs IH]; intros [|res results];
    try apply only_nil.
  simpl. apply only_cons; [reflexivity|].
  apply only_cons; [destruct (error res); reflexivity | apply IH].
Qed.

(** *** The shape of a run *)

Lemma closeBrowser_run w :
  exists cr w', closeBrowser H w = (cr, w', [closeEvent cr]).
Proof.
  unfold closeBrowser, call, closeEvent.
  destruct (close H w) as [cr w']. exists cr, w'. reflexivity.
Qed.

Lemma scrapeBody_shape dept arr dateStr url w r w' t :
  scrapeBody H dept arr dateStr url w = (r, w', t) -> BodyShape r t.
Proof.
  unfold scrapeBody. intros Hrun.
  apply bind_inv in Hrun as [(e & Hopen & ->)|(u & w1 & tn & t2 & Hopen & Hrun & ->)].
  { apply BodyNavFailed.
    pose proof (Emits_openPage url w) as Hn. rewrite Hopen in Hn. exact Hn. }
  assert (Hnav : only isNav tn).
  { pose proof (Emits_openPage url w) as Hn. rewrite Hopen in Hn. exact Hn. }
  apply bind_inv in Hrun as [(e & Hcount & ->)|(n & w2 & tc & t3 & Hcount & Hrun & ->)].
  { apply call_inv in Hcount as [_ ->]. apply BodyCountFailed. exact Hnav. }
  apply call_inv in Hcount as [_ ->]. simpl reply_of.
  destruct n as [|n]; cbn [Nat.eqb] in Hrun.
  - unfold bind, log, ret in Hrun.
    destruct (closeBrowser_run w2) as (cr & w3 & Hclose).
    rewrite Hclose in Hrun. destruct cr as [[]|e]; inversion Hrun; subst.
    + apply (BodyEmpty (Ok tt) Hnav).
    + apply (BodyEmpty (Throw e) Hnav).
  - unfold bind at 1 in Hrun.
    destruct (rowLoop_run dept arr dateStr (S n) 1 [] w2)
      as (fs & w3 & te & Hrows & Hext).
    rewrite Hrows in Hrun. unfold bind, log, ret in Hrun.
    destruct (persist_run fs w3) as (results & w4 & Hpers & Hlen).
    rewrite Hpers in Hrun.
    destruct (closeBrowser_run w4) as (cr & w5 & Hclose).
    rewrite Hclose in Hrun.
    assert (Hn : 0 < S n) by lia.
    destruct cr as [[]|e]; inversion Hrun; subst.
    + simpl.
      change (BodyShape (closing (Ok tt) (Some fs))
                (tn ++ countEvent (RCount (S n)) :: te
                    ++ EvLog (MsgFlights fs) :: persistEvents fs results
                    ++ [closeEvent (Ok tt)])).
      apply BodyRows; assumption.
    + simpl.
      change (BodyShape (closing (Throw e) (Some fs))
                (tn ++ countEvent (RCount (S n)) :: te
                    ++ EvLog (MsgFlights fs) :: persistEvents fs results
                    ++ [closeEvent (Throw e)])).
      apply BodyRows; assumption.
Qed.

Lemma pageScrape_shape dept arr dateStr url w :
  RunShape dept arr dateStr
    (outcome (pageScrape H dept arr dateStr url w))
    (events (pageScrape H dept arr dateStr url w)).
Proof.
  unfold pageScrape, outcome, events.
  destruct (launch H w) as [[[]|e] w1]; [|apply RunExit].
  unfold try_catch.
  destruct (scrapeBody H dept arr dateStr url w1) as [[[v|e] w2] t] eqn:Hbody;
    apply scrapeBody_shape in Hbody.
  - simpl. apply RunDone. exact Hbody.
  - unfold fatalHandler. unfold bind, log, ret.
    destruct (closeBrowser_run w2) as (cr & w3 & Hclose). rewrite Hclose.
    destruct cr as [[]|e2]; simpl.
    + apply (@RunFatal dept arr dateStr e t (Ok tt) Hbody).
    + apply (@RunFatal dept arr dateStr e t (Throw e2) Hbody).
Qed.

(** *** Stage by stage: which events a stage cannot emit *)

Ltac absent lem :=
  apply lem; eapply only_weaken; [|eassumption]; classify.

Lemma nav_no_close t : only isNav t -> closeReplies t = [].
Proof. intros Ht. absent closeReplies_none. Qed.

Lemma nav_no_insert t : only isNav t -> insertCalls t = [].
Proof. intros Ht. absent insertCalls_none. Qed.

Lemma nav_no_failedRows t : only isNav t -> failedRows t = [].
Proof. intros Ht. absent failedRows_none. Qed.

Lemma extract_no_close t : only isExtract t -> closeReplies t = [].
Proof.
  intros Ht. apply closeReplies_none. eapply only_weaken; [|exact Ht].
  intros [[] ?|[]]; simpl; auto.
Qed.

Lemma extract_no_insert t : only isExtract t -> insertCalls t = [].
Proof.
  intros Ht. apply insertCalls_none. eapply only_weaken; [|exact Ht].
  intros [[] ?|[]]; simpl; auto.
Qed.

Lemma persist_no_close t : only isPersist t -> closeReplies t = [].
Proof. intros Ht. absent closeReplies_none. Qed.

Lemma persist_no_failedRows t : only isPersist t -> failedRows t = [].
Proof. intros Ht. absent failedRows_none. Qed.

Ltac trace_norm :=
  repeat (rewrite ?closeReplies_app, ?insertCalls_app, ?failedRows_app;
          cbn [closeReplies insertCalls failedRows countEvent closeEvent
               reply_of done app]).

Lemma body_closeReplies r t :
  BodyShape r t ->
  match r with
  | Ok _ => closeReplies t = [RDone] /\ exists t0, t = t0 ++ [EvCall CClose RDone]
  | Throw e =>
      closeReplies t = [] \/
      (closeReplies t = [RThrew e] /\
       exists t0, t = t0 ++ [EvCall CClose (RThrew e)])
  end.
Proof.
  intros Hs. destruct Hs as [e tn Hn|e tn Hn|tn cr Hn|n tn te fs results cr Hpos Hn Hext Hlen].
  - left. apply nav_no_close, Hn.
  - left. trace_norm. rewrite (nav_no_close Hn). reflexivity.
  - destruct cr as [[]|e]; simpl closing.
    + split.
      * trace_norm. rewrite (nav_no_close Hn). reflexivity.
      * exists (tn ++ [countEvent (RCount 0); EvLog MsgNoFlightData]).
        rewrite <- app_assoc. reflexivity.
    + right. split.
      * trace_norm. rewrite (nav_no_close Hn). reflexivity.
      * exists (tn ++ [countEvent (RCount 0); EvLog MsgNoFlightData]).
        rewrite <- app_assoc. reflexivity.
  - destruct Hext as (Hex & _).
    assert (Hc : closeReplies
              (tn ++ countEvent (RCount n) :: te
                  ++ EvLog (MsgFlights fs) :: persistEvents fs results
                  ++ [closeEvent cr])
            = [reply_of done cr]).
    { trace_norm. rewrite (nav_no_close Hn), (extract_no_close Hex),
        (persist_no_close (only_persistEvents fs results)). reflexivity. }
    assert (Ht : exists t0,
              tn ++ countEvent (RCount n) :: te
                 ++ EvLog (MsgFlights fs) :: persistEvents fs results
                 ++ [closeEvent cr] = t0 ++ [closeEvent cr]).
    { exists (tn ++ countEvent (RCount n) :: te
                 ++ EvLog (MsgFlights fs) :: persistEvents fs results).
      rewrite <- !app_assoc. simpl. rewrite <- !app_assoc. reflexivity. }
    destruct cr as [[]|e]; simpl closing.
    + split; [exact Hc | exact Ht].
    + right. split; [exact Hc | exact Ht].
Qed.

(** A run that counted [n] rows took the branch of [n]. *)
Lemma body_count r t n :
  BodyShape r t ->
  In (countEvent (RCount n)) t ->
  (n = 0 /\ exists tn cr,
      only isNav tn /\ r = closing cr None /\
      t = tn ++ [countEvent (RCount 0); EvLog MsgNoFlightData; closeEvent cr])
  \/
  (0 < n /\ exists tn te flights results cr,
      only isNav tn /\ ExtractRun 1 n [] flights te /\
      List.length results = List.length flights /\
      r = closing cr (Some flights) /\
      t = tn ++ countEvent (RCount n) :: te
             ++ EvLog (MsgFlights flights) :: persistEvents flights results
             ++ [closeEvent cr]).
Proof.
  intros Hs Hin.
  destruct Hs as [e tn Hn|e tn Hn|tn cr Hn|m tn te fs results cr Hpos Hn Hext Hlen].
  - apply (only_In _ Hn) in Hin. discriminate.
  - apply in_app_or in Hin as [Hin|Hin].
    + apply (only_In _ Hn) in Hin. discriminate.
    + simpl in Hin. destruct Hin as [Hin|[]]. discriminate.
  - apply in_app_or in Hin as [Hin|Hin].
    + apply (only_In _ Hn) in Hin. discriminate.
    + simpl in Hin. destruct Hin as [Hin|[Hin|[Hin|[]]]]; try discriminate.
      inversion Hin; subst. left. split; [reflexivity|].
      exists tn, cr. auto.
  - apply in_app_or in Hin as [Hin|Hin].
    + apply (only_In _ Hn) in Hin. discriminate.
    + destruct Hin as [Hin|Hin].
      * inversion Hin; subst. right. split; [exact Hpos|].
        exists tn, te, fs, results, cr. auto.
      * exfalso. apply in_app_or in Hin as [Hin|Hin].
        { destruct Hext as (Hex & _). apply (only_In _ Hex) in Hin. discriminate. }
        destruct Hin as [Hin|Hin]; [discriminate|].
        apply in_app_or in Hin as [Hin|Hin].
        { apply (only_In _ (only_persistEvents fs results)) in Hin. discriminate. }
        simpl in Hin. destruct Hin as [Hin|[]]. discriminate.
Qed.

(** The same for a whole invocation: the body's result and events. *)
Lemma run_count dept arr dateStr url w n :
  In (countEvent (RCount n)) (events (pageScrape H dept arr dateStr url w)) ->
  exists r t,
    BodyShape r t /\ In (countEvent (RCount n)) t /\
    ((exists v, r = Ok v
                /\ outcome (pageScrape H dept arr dateStr url w) = Returned v
                /\ events (pageScrape H dept arr dateStr url w)
                   = EvLog (MsgStart dept arr dateStr)
                       :: EvCall CLaunch RDone :: t)
     \/
     (exists e cr, r = Throw e
                /\ outcome (pageScrape H dept arr dateStr url w)
                   = match cr with
                     | Ok _ => Returned None
                     | Throw e2 => Rejected e2
                     end
                /\ events (pageScrape H dept arr dateStr url w)
                   = EvLog (MsgStart dept arr dateStr)
                       :: EvCall CLaunch RDone
                       :: t ++ [EvLog (MsgFatal e); closeEvent cr])).
Proof.
  intros Hin. pose proof (pageScrape_shape dept arr dateStr url w) as Hs.
  destruct Hs as [e|v t Hb|e t cr Hb].
  - simpl in Hin. destruct Hin as [Hin|[Hin|[Hin|[]]]]; discriminate.
  - exists (Ok v), t. split; [exact Hb|].
    destruct Hin as [Hin|[Hin|Hin]]; try discriminate.
    split; [exact Hin|]. left. exists v. auto.
  - exists (Throw e), t. split; [exact Hb|].
    destruct Hin as [Hin|[Hin|Hin]]; try discriminate.
    apply in_app_or in Hin as [Hin|Hin].
    + split; [exact Hin|]. right. exists e, cr. auto.
    + exfalso. simpl in Hin. destruct Hin as [Hin|[Hin|[]]]; discriminate.
Qed.

Lemma closing_ok {A} cr (v v' : A) : closing cr v = Ok v' -> cr = Ok tt /\ v = v'.
Proof. destruct cr as [[]|e]; simpl; intros E; inversion E; auto. Qed.

Lemma closing_throw {A} cr (v : A) e : closing cr v = Throw e -> cr = Throw e.
Proof. destruct cr as [[]|e']; simpl; intros E; inversion E; auto. Qed.

(** What the events of the rows branch project to. *)
Lemma rows_failedRows tn n te flights results cr :
  only isNav tn ->
  failedRows (tn ++ countEvent (RCount n) :: te
                 ++ EvLog (MsgFlights flights) :: persistEvents flights results
                 ++ [closeEvent cr])
  = failedRows te.
Proof.
  intros Hn. trace_norm.
  rewrite (nav_no_failedRows Hn),
    (persist_no_failedRows (only_persistEvents flights results)).
  simpl. rewrite app_nil_r. reflexivity.
Qed.

Lemma rows_insertCalls tn n te flights results cr :
  only isNav tn -> only isExtract te ->
  List.length results = List.length flights ->
  insertCalls (tn ++ countEvent (RCount n) :: te
                  ++ EvLog (MsgFlights flights) :: persistEvents flights results
                  ++ [closeEvent cr])
  = map (fun f => (flightsTable, [f])) flights.
Proof.
  intros Hn He Hlen. trace_norm.
  rewrite (nav_no_insert Hn), (extract_no_insert He),
    (insertCalls_persistEvents _ _ Hlen).
  simpl. rewrite app_nil_r. reflexivity.
Qed.

Lemma rows_closeReplies tn n te flights results cr :
  only isNav tn -> only isExtract te ->
  closeReplies (tn ++ countEvent (RCount n) :: te
                   ++ EvLog (MsgFlights flights) :: persistEvents flights results
                   ++ [closeEvent cr])
  = [reply_of done cr].
Proof.
  intros Hn He. trace_norm.
  rewrite (nav_no_close Hn), (extract_no_close He),
    (persist_no_close (only_persistEvents flights results)).
  reflexivity.
Qed.

Lemma empty_closeReplies tn cr :
  only isNav tn ->
  closeReplies (tn ++ [countEvent (RCount 0); EvLog MsgNoFlightData; closeEvent cr])
  = [reply_of done cr].
Proof. intros Hn. trace_norm. rewrite (nav_no_close Hn). reflexivity. Qed.

Lemma failedRows_fatal t e cr :
  failedRows (t ++ [EvLog (MsgFatal e); closeEvent cr]) = failedRows t.
Proof. trace_norm. apply app_nil_r. Qed.

Lemma insertCalls_fatal t e cr :
  insertCalls (t ++ [EvLog (MsgFatal e); closeEvent cr]) = insertCalls t.
Proof. trace_norm. apply app_nil_r. Qed.

Lemma closeReplies_fatal t e cr :
  closeReplies (t ++ [EvLog (MsgFatal e); closeEvent cr])
  = closeReplies t ++ [reply_of done cr].
Proof. trace_norm. reflexivity. Qed.

(** C3 (amended). When the row count is 0 the invocation builds no record
    and persists nothing: no row query and no insert is sent.  It resolves
    to null, the no-result signal, never to a flights array, empty or not;
    it rejects only when [browser.close()] rejects both in the zero-row
    branch and in the fatal handler. *)
Theorem zero_rows_returns_null dept arr dateStr url w :
  let run := pageScrape H dept arr dateStr url w in
  In (countEvent (RCount 0)) (events run) ->
  insertCalls (events run) = [] /\
  only (fun ev => negb (isQuery ev)) (events run) /\
  (forall fs, outcome run <> Returned (Some fs)) /\
  (outcome run = Returned None \/
   exists e1 e2, outcome run = Rejected e2
                 /\ closeReplies (events run) = [RThrew e1; RThrew e2]).
Proof.
  intros run Hin. apply run_count in Hin as (r & t & Hb & Hin & Hrun).
  apply body_count with (1 := Hb) in Hin
    as [(_ & tn & cr & Hn & -> & ->)|(Hpos & _)]; [|lia].
  assert (Hq : only (fun ev => negb (isQuery ev)) tn)
    by (eapply only_weaken; [|exact Hn]; classify).
  fold run in Hrun.
  destruct Hrun as [(v & Hv & Ho & Ht)|(e & cr2 & Hv & Ho & Ht)];
    rewrite Ho, Ht.
  - apply closing_ok in Hv as [-> <-]. cbn [insertCalls]. trace_norm.
    rewrite (nav_no_insert Hn). split; [reflexivity|].
    split; [|split; [discriminate | left; reflexivity]].
    apply only_cons; [reflexivity|]. apply only_cons; [reflexivity|].
    apply only_app; [exact Hq | reflexivity].
  - apply closing_throw in Hv as ->. cbn [insertCalls closeReplies].
    trace_norm. rewrite (nav_no_insert Hn), (nav_no_close Hn).
    split; [reflexivity|]. split.
    { apply only_cons; [reflexivity|]. apply only_cons; [reflexivity|].
      apply only_app; [apply only_app; [exact Hq | reflexivity]|].
      destruct cr2 as [[]|?]; reflexivity. }
    destruct cr2 as [[]|e2]; simpl.
    + split; [discriminate | left; reflexivity].
    + split; [discriminate | right; exists e, e2; auto].
Qed.

(** The rows branch of an invocation, read off its events. *)
Lemma run_rows dept arr dateStr url w n :
  In (countEvent (RCount n)) (events (pageScrape H dept arr dateStr url w)) ->
  0 < n ->
  exists te flights,
    ExtractRun 1 n [] flights te /\
    failedRows (events (pageScrape H dept arr dateStr url w)) = failedRows te /\
    insertCalls (events (pageScrape H dept arr dateStr url w))
    = map (fun f => (flightsTable, [f])) flights /\
    (forall ev, In ev te ->
                In ev (events (pageScrape H dept arr dateStr url w))) /\
    ((outcome (pageScrape H dept arr dateStr url w) = Returned (Some flights)
      /\ closeReplies (events (pageScrape H dept arr dateStr url w)) = [RDone])
     \/
     (exists e (cr : Res unit),
        outcome (pageScrape H dept arr dateStr url w)
        = match cr with Ok _ => Returned None | Throw e2 => Rejected e2 end
        /\ closeReplies (events (pageScrape H dept arr dateStr url w))
           = [RThrew e; reply_of done cr])).
Proof.
  intros Hin Hpos. apply run_count in Hin as (r & t & Hb & Hin & Hrun).
  apply body_count with (1 := Hb) in Hin
    as [(-> & _)|(_ & tn & te & fs & results & cr & Hn & Hext & Hlen & -> & ->)];
    [lia|].
  pose proof Hext as (Hex & _).
  exists te, fs. split; [exact Hext|].
  destruct Hrun as [(v & Hv & Ho & Ht)|(e & cr2 & Hv & Ho & Ht)];
    rewrite Ho, Ht; cbn [failedRows insertCalls closeReplies];
    rewrite ?failedRows_fatal, ?insertCalls_fatal, ?closeReplies_fatal;
    rewrite rows_failedRows by assumption;
    rewrite rows_insertCalls by assumption;
    rewrite rows_closeReplies by assumption.
  - apply closing_ok in Hv as [-> <-].
    repeat split; auto.
    intros ev Hev. right. right. apply in_or_app. right. right.
    apply in_or_app. left. exact Hev.
  - apply closing_throw in Hv as ->.
    repeat split; auto.
    + intros ev Hev. right. right. apply in_or_app. left.
      apply in_or_app. right. right. apply in_or_app. left. exact Hev.
    + right. exists e, cr2. split; [reflexivity|].
      destruct cr2 as [[]|?]; reflexivity.
Qed.

(** C9 (amended). With a positive row count and every row's extraction
    failed, an invocation whose session release goes through at the first
    [browser.close()] resolves to the empty flights array, whereas with a
    row count of 0 it resolves to null. *)
Theorem all_rows_failed_returns_empty_array dept arr dateStr url w :
  let run := pageScrape H dept arr dateStr url w in
  closeReplies (events run) = [RDone] ->
  (forall n, In (countEvent (RCount n)) (events run) -> 0 < n ->
             (forall k, 1 <= k <= n -> In k (failedRows (events run))) ->
             outcome run = Returned (Some []))
  /\ (In (countEvent (RCount 0)) (events run) -> outcome run = Returned None).
Proof.
  intros run Hclose. split.
  - intros n Hin Hpos Hall.
    destruct (run_rows dept arr dateStr url w Hin Hpos)
      as (te & fs & Hext & Hf & _ & _ & Hout).
    fold run in Hf, Hout.
    destruct Hout as [[Ho _]|(e & cr & _ & Hc)];
      [|rewrite Hc in Hclose; discriminate].
    rewrite Ho. rewrite Hf in Hall.
    destruct Hext as (_ & (added & -> & Hlen) & _).
    assert (Hn : List.length (seq 1 n) <= List.length (failedRows te)).
    { apply NoDup_incl_length.
      - apply seq_NoDup.
      - intros k Hk. apply in_seq in Hk. apply Hall. lia. }
    rewrite length_seq in Hn.
    destruct added as [|f added]; [reflexivity|]. simpl in Hlen. lia.
  - intros Hin. apply run_count in Hin as (r & t & Hb & Hin & Hrun).
    apply body_count with (1 := Hb) in Hin
      as [(_ & tn & cr & Hn & -> & ->)|(Hpos & _)]; [|lia].
    fold run in Hrun.
    destruct Hrun as [(v & Hv & Ho & Ht)|(e & cr2 & Hv & Ho & Ht)].
    + apply closing_ok in Hv as [-> <-]. exact Ho.
    + exfalso. apply closing_throw in Hv as ->. rewrite Ht in Hclose.
      cbn [closeReplies] in Hclose. rewrite closeReplies_app in Hclose.
      rewrite (empty_closeReplies (Throw e) Hn) in Hclose.
      destruct cr2 as [[]|?]; discriminate.
Qed.

(** C4. An error thrown while extracting row [i] is caught and logged with
    the row's index, adds no record, and the loop goes on with row [i+1];
    the loop itself never throws.  So in an invocation that counted [n > 0]
    rows every row 1..n is entered, the failed rows are distinct rows among
    1..n, and the records inserted and returned number [n] minus the failed
    rows. *)
Theorem row_failure_isolated dept arr dateStr url :
  (forall n i flights w e w1 t1,
      scrapeRow H dept arr dateStr i w = (Throw e, w1, t1) ->
      rowLoop H dept arr dateStr (S n) i flights w
      = (let '(r, w2, t2) := rowLoop H dept arr dateStr n (S i) flights w1 in
         (r, w2, (t1 ++ [EvLog (MsgRowError i e)]) ++ t2)))
  /\ (forall n i flights w,
        exists flights' w' t,
          rowLoop H dept arr dateStr n i flights w = (Ok flights', w', t))
  /\ (forall w n,
        let run := pageScrape H dept arr dateStr url w in
        In (countEvent (RCount n)) (events run) -> 0 < n ->
        (forall k, 1 <= k <= n ->
                   exists r, In (EvCall (CQuery (SelFlightNum k)) r) (events run))
        /\ NoDup (failedRows (events run))
        /\ (forall k, In k (failedRows (events run)) -> 1 <= k <= n)
        /\ List.length (insertCalls (events run))
           = n - List.length (failedRows (events run))
        /\ (forall fs, outcome run = Returned (Some fs) ->
                       List.length fs = n - List.length (failedRows (events run)))).
Proof.
  split; [intros n i flights w e w1 t1 Erow;
          apply rowLoop_step_throw with (1 := Erow)|].
  split.
  { intros n i flights w.
    destruct (rowLoop_run dept arr dateStr n i flights w)
      as (fl' & w' & t & Hrun & _). eauto. }
  intros w n run Hin Hpos.
  destruct (run_rows dept arr dateStr url w Hin Hpos)
    as (te & fs & Hext & Hf & Hi & Hsub & Hout).
  fold run in Hf, Hi, Hsub, Hout. rewrite Hf, Hi, length_map.
  destruct Hext as (_ & (added & Hfs & Hlen) & Hnd & Hrange & Hatt).
  simpl in Hfs. subst fs.
  split.
  { intros k Hk. destruct (Hatt k) as (r & Hr); [lia|]. exists r.
    apply Hsub, Hr. }
  split; [exact Hnd|].
  split; [intros k Hk; apply Hrange in Hk; lia|].
  split; [lia|].
  intros fs Ho. destruct Hout as [[Ho' _]|(e & cr & Ho' & _)].
  - rewrite Ho' in Ho. inversion Ho; subst. lia.
  - rewrite Ho' in Ho. destruct cr; discriminate.
Qed.

(** An invocation that returns a flights array went through the rows
    branch and closed the browser at once. *)
Lemma run_returned_flights dept arr dateStr url w fs :
  outcome (pageScrape H dept arr dateStr url w) = Returned (Some fs) ->
  exists n tn te results,
    0 < n /\ only isNav tn /\ ExtractRun 1 n [] fs te /\
    List.length results = List.length fs /\
    events (pageScrape H dept arr dateStr url w)
    = EvLog (MsgStart dept arr dateStr) :: EvCall CLaunch RDone
        :: tn ++ countEvent (RCount n) :: te
        ++ EvLog (MsgFlights fs) :: persistEvents fs results
        ++ [closeEvent (Ok tt)].
Proof.
  intros Ho. pose proof (pageScrape_shape dept arr dateStr url w) as Hs.
  rewrite Ho in Hs.
  remember (Returned (Some fs)) as out eqn:Eo.
  remember (events (pageScrape H dept arr dateStr url w)) as t eqn:Et.
  clear Et Ho.
  destruct Hs as [e|v t Hb|e t cr Hb]; [discriminate| |destruct cr; discriminate].
  inversion Eo; subst v. clear Eo.
  remember (Ok (Some fs)) as r eqn:Er.
  destruct Hb as [e tn Hn|e tn Hn|tn cr Hn|n tn te fs' results cr Hpos Hn Hext Hlen];
    try discriminate.
  - apply closing_ok in Er as [_ Er]. discriminate.
  - apply closing_ok in Er as [-> Er]. inversion Er; subst fs'.
    exists n, tn, te, results. auto.
Qed.


(** Whatever holds of every record a resolved [scrapeRow] builds holds of
    every record an invocation returns. *)
Lemma pageScrape_records dept arr dateStr url (P : FlightObj -> Prop) :
  (forall i, Spec (scrapeRow H dept arr dateStr i) (fun f _ => P f)) ->
  forall w fs,
    outcome (pageScrape H dept arr dateStr url w) = Returned (Some fs) ->
    Forall P fs.
Proof.
  intros HP w fs. unfold pageScrape, outcome.
  destruct (launch H w) as [[[]|e] w1]; [|discriminate].
  unfold try_catch.
  destruct (scrapeBody H dept arr dateStr url w1) as [[[v|e] w2] t] eqn:Hb.
  - simpl. intros E. inversion E; subst v. clear E.
    unfold scrapeBody in Hb.
    apply bind_ok_inv in Hb as (u & w3 & t1 & t2 & _ & Hb & _).
    apply bind_ok_inv in Hb as (n & w4 & t3 & t4 & _ & Hb & _).
    destruct n as [|n]; cbn [Nat.eqb] in Hb.
    + apply bind_ok_inv in Hb as (u1 & w5 & t5 & t6 & _ & Hb & _).
      apply bind_ok_inv in Hb as (u2 & w6 & t7 & t8 & _ & Hb & _).
      discriminate.
    + apply bind_ok_inv in Hb as (fl & w5 & t5 & t6 & Hrows & Hb & _).
      apply bind_ok_inv in Hb as (u1 & w6 & t7 & t8 & _ & Hb & _).
      apply bind_ok_inv in Hb as (u2 & w7 & t9 & t10 & _ & Hb & _).
      apply bind_ok_inv in Hb as (u3 & w8 & t11 & t12 & _ & Hb & _).
      inversion Hb; subst fl.
      eapply rowLoop_records; [exact HP | constructor | exact Hrows].
  - unfold fatalHandler, bind, log, ret.
    destruct (closeBrowser_run w2) as (cr & w3 & Hclose). rewrite Hclose.
    destruct cr as [[]|e2]; simpl; discriminate.
Qed.

(** C1. Every record an invocation returns has exactly 3 prices and 3
    seats-left entries, whatever the fare queries matched; and in the record
    a resolved row extraction builds, tier [j] of 1..3 holds the price
    sentinel when its price query matched nothing and null when its seats
    query matched nothing. *)
Theorem fare_slots_always_three dept arr dateStr url :
  (forall w fs,
      outcome (pageScrape H dept arr dateStr url w) = Returned (Some fs) ->
      Forall (fun f => List.length (prices (metadata f)) = 3
                       /\ List.length (seatsLeft (metadata f)) = 3) fs)
  /\ (forall i w f w' t,
        scrapeRow H dept arr dateStr i w = (Ok f, w', t) ->
        forall j, In j [1; 2; 3] ->
          (In (EvCall (CQuery (SelPrice i j)) (RCount 0)) t ->
           nth_error (prices (metadata f)) (j - 1) = Some "Unavailable") /\
          (In (EvCall (CQuery (SelSeats i j)) (RCount 0)) t ->
           nth_error (seatsLeft (metadata f)) (j - 1) = Some JNull)).
Proof.
  split.
  - apply pageScrape_records. intros i w f w' t Hrow.
    apply scrapeRow_fares in Hrow as (Hp & Hs & _). auto.
  - intros i w f w' t Hrow. apply scrapeRow_fares in Hrow as (_ & _ & Hslots).
    exact Hslots.
Qed.

(** C10. Every record an invocation returns carries the invocation's own
    [dept], [arr] and [dateStr] as its departure port, arrival port and
    date. *)
Theorem records_carry_arguments dept arr dateStr url w fs :
  outcome (pageScrape H dept arr dateStr url w) = Returned (Some fs) ->
  Forall (fun f => departurePort f = dept /\ arrivalPort f = arr
                   /\ date f = dateStr) fs.
Proof.
  apply pageScrape_records. intros i. apply scrapeRow_ports.
Qed.

(** *** Navigation *)

Lemma Emits_bodyRest dept arr dateStr :
  Emits isBodyRest
    (count <- countFlights H ;;
     if (count =? 0)%nat then
       log MsgNoFlightData ;; closeBrowser H ;; ret None
     else
       flights <- rowLoop H dept arr dateStr count 1 [] ;;
       log (MsgFlights flights) ;;
       persist H flights ;;
       closeBrowser H ;;
       ret (Some flights)).
Proof.
  apply Emits_bind; [unfold countFlights; emits | intro n].
  apply Emits_if.
  - unfold closeBrowser. emits.
  - apply Emits_bind; [|intro fl].
    + eapply Emits_weaken; [|apply Emits_rowLoop].
      intros [[] ?|[]]; simpl; auto.
    + apply Emits_bind; [emits | intro].
      apply Emits_bind; [|intro; unfold closeBrowser; emits].
      eapply Emits_weaken; [|apply Emits_persist]. classify.
Qed.

Lemma openPage_goto url w r w' t e u z :
  openPage H url w = (r, w', t) ->
  In (EvCall (CGoto u z) (RThrew e)) t ->
  r = Throw e /\
  t = [EvCall CNewPage RDone; EvCall CRandomPagePoint RDone;
       EvCall CInstallMouseHelper RDone; EvCall (CGoto url 90000) (RThrew e)].
Proof.
  unfold openPage. intros Hrun Hin.
  apply bind_inv in Hrun as [(e1 & Hc & ->)|(a1 & w1 & t1 & r1 & Hc & Hrun & ->)];
    apply call_inv in Hc as [_ ->].
  { simpl in Hin. destruct Hin as [Hin|[]]. discriminate. }
  apply bind_inv in Hrun as [(e1 & Hc & ->)|(a2 & w2 & t2 & r2 & Hc & Hrun & ->)];
    apply call_inv in Hc as [_ ->].
  { simpl in Hin. destruct Hin as [Hin|[Hin|[]]]; discriminate. }
  apply bind_inv in Hrun as [(e1 & Hc & ->)|(a3 & w3 & t3 & r3 & Hc & Hrun & ->)];
    apply call_inv in Hc as [_ ->].
  { simpl in Hin. destruct Hin as [Hin|[Hin|[Hin|[]]]]; discriminate. }
  apply bind_inv in Hrun as [(e1 & Hc & ->)|(a4 & w4 & t4 & r4 & Hc & Hrun & ->)];
    apply call_inv in Hc as [_ ->].
  { simpl in Hin. destruct Hin as [Hin|[Hin|[Hin|[Hin|[]]]]]; try discriminate.
    inversion Hin; subst. auto. }
  exfalso.
  assert (Hrest : Emits (fun ev => negb (isGoto ev))
            (handleRedirect H url ;;
             call (CScrollBy 0 450) done (scrollBy H 0 450) ;;
             call (CWaitForTimeout 3000) done (waitForTimeout H 3000))).
  { apply Emits_bind; [|intro; emits].
    eapply Emits_weaken; [|apply Emits_handleRedirect]. classify. }
  specialize (Hrest w4). rewrite Hrun in Hrest. simpl in Hrest.
  simpl in Hin. destruct Hin as [Hin|[Hin|[Hin|[Hin|Hin]]]]; try discriminate.
  apply (only_In _ Hrest) in Hin. discriminate.
Qed.

Lemma scrapeBody_goto dept arr dateStr url w r w' t e u z :
  scrapeBody H dept arr dateStr url w = (r, w', t) ->
  In (EvCall (CGoto u z) (RThrew e)) t ->
  r = Throw e /\
  t = [EvCall CNewPage RDone; EvCall CRandomPagePoint RDone;
       EvCall CInstallMouseHelper RDone; EvCall (CGoto url 90000) (RThrew e)].
Proof.
  unfold scrapeBody. intros Hrun Hin.
  apply bind_inv in Hrun as [(e1 & Hopen & ->)|(a & w1 & t1 & t2 & Hopen & Hrun & ->)].
  { apply openPage_goto with (1 := Hopen) in Hin as [E ->].
    inversion E; subst. split; reflexivity. }
  apply in_app_or in Hin as [Hin|Hin].
  { apply openPage_goto with (1 := Hopen) in Hin as [E _]. discriminate. }
  exfalso. pose proof (Emits_bodyRest dept arr dateStr w1) as Hrest.
  rewrite Hrun in Hrest. simpl in Hrest.
  apply (only_In _ Hrest) in Hin. discriminate.
Qed.

(** C7 (amended). When the initial [page.goto] rejects (the load did not
    settle within its 90 s), nothing but the fatal handler follows: the
    error is logged, [browser.close()] is called once, and that is the end
    of the run, so no row is counted or queried and no record is inserted.
    When that close resolves, the session is released and the invocation
    resolves to null; when it rejects, the invocation rejects with the
    error of the close. *)
Theorem navigation_failure_is_fatal dept arr dateStr url w e :
  let run := pageScrape H dept arr dateStr url w in
  let aborted :=
    [EvLog (MsgStart dept arr dateStr); EvCall CLaunch RDone;
     EvCall CNewPage RDone; EvCall CRandomPagePoint RDone;
     EvCall CInstallMouseHelper RDone; EvCall (CGoto url 90000) (RThrew e);
     EvLog (MsgFatal e)] in
  In (EvCall (CGoto url 90000) (RThrew e)) (events run) ->
  insertCalls (events run) = []
  /\ only (fun ev => negb (isCount ev || isQuery ev)) (events run)
  /\ ((events run = aborted ++ [EvCall CClose RDone]
       /\ closeReplies (events run) = [RDone]
       /\ outcome run = Returned None)
      \/ (exists e2,
            events run = aborted ++ [EvCall CClose (RThrew e2)]
            /\ closeReplies (events run) = [RThrew e2]
            /\ outcome run = Rejected e2)).
Proof.
  intros run aborted. unfold run, aborted, pageScrape, outcome, events.
  destruct (launch H w) as [[[]|e0] w1].
  2: { simpl. intros [Hin|[Hin|[Hin|[]]]]; discriminate. }
  unfold try_catch.
  destruct (scrapeBody H dept arr dateStr url w1) as [[[v|e1] w2] t] eqn:Hb.
  - simpl. intros [Hin|[Hin|Hin]]; try discriminate.
    apply scrapeBody_goto with (1 := Hb) in Hin as [E _]. discriminate.
  - unfold fatalHandler, bind, log, ret.
    destruct (closeBrowser_run w2) as (cr & w3 & Hclose). rewrite Hclose.
    destruct cr as [[]|e2]; simpl.
    + intros [Hin|[Hin|Hin]]; try discriminate.
      apply in_app_or in Hin as [Hin|Hin].
      * apply scrapeBody_goto with (1 := Hb) in Hin as [E ->].
        inversion E; subst.
        split; [reflexivity|]. split; [reflexivity|].
        left. repeat split.
      * simpl in Hin. destruct Hin as [Hin|[Hin|[]]]; discriminate.
    + intros [Hin|[Hin|Hin]]; try discriminate.
      apply in_app_or in Hin as [Hin|Hin].
      * apply scrapeBody_goto with (1 := Hb) in Hin as [E ->].
        inversion E; subst.
        split; [reflexivity|]. split; [reflexivity|].
        right. exists e2. repeat split.
      * simpl in Hin. destruct Hin as [Hin|[Hin|[]]]; discriminate.
Qed.

Lemma handleRedirect_resolves url w :
  exists w' t, handleRedirect H url w = (Ok tt, w', t).
Proof.
  unfold handleRedirect.
  destruct (String.eqb (page_url H w) url); [exists w, []; reflexivity|].
  unfold bind, try_catch, call, log.
  destruct (waitForXPath H searchButtonXPath 5000 w) as [[search|e] w1];
    [|eauto].
  destruct (cursor_click H search 2500 25 w1) as [[[]|e] w2]; [|eauto].
  destruct (waitForTimeout H 5000 w2) as [[[]|e] w3]; eauto.
Qed.

(** C6 (amended). Past a successful launch [browser.close()] is called on
    every path, once or twice, and the last event of the run is a close.
    Whenever the invocation returns (the flights or null), exactly one
    [browser.close()] resolved, and it is that last event; the only call to
    [close] besides it is one that rejected and sent the run into the fatal
    handler.  The invocation rejects only with the error of a rejected
    [close], its last event, and then no [close] has resolved.  When the
    launch fails the process exits and there is no session to close. *)
Theorem session_released_once dept arr dateStr url w :
  let run := pageScrape H dept arr dateStr url w in
  match outcome run with
  | Returned _ =>
      (closeReplies (events run) = [RDone] \/
       exists e, closeReplies (events run) = [RThrew e; RDone]) /\
      exists t0, events run = t0 ++ [EvCall CClose RDone]
  | Rejected e =>
      (closeReplies (events run) = [RThrew e] \/
       exists e1, closeReplies (events run) = [RThrew e1; RThrew e]) /\
      exists t0, events run = t0 ++ [EvCall CClose (RThrew e)]
  | ProcessExit _ => closeReplies (events run) = []
  end.
Proof.
  intros run. pose proof (pageScrape_shape dept arr dateStr url w) as Hs.
  fold run in Hs. destruct Hs as [e|v t Hb|e t cr Hb].
  - reflexivity.
  - apply body_closeReplies in Hb as (Hc & t0 & ->). split.
    + left. simpl. exact Hc.
    + exists (EvLog (MsgStart dept arr dateStr) :: EvCall CLaunch RDone :: t0).
      reflexivity.
  - assert (Hlast : exists t0,
              EvLog (MsgStart dept arr dateStr) :: EvCall CLaunch RDone
                :: t ++ [EvLog (MsgFatal e); closeEvent cr]
              = t0 ++ [closeEvent cr]).
    { exists (EvLog (MsgStart dept arr dateStr) :: EvCall CLaunch RDone
                :: t ++ [EvLog (MsgFatal e)]).
      simpl. rewrite <- app_assoc. reflexivity. }
    apply body_closeReplies in Hb.
    cbn [closeReplies]. trace_norm.
    destruct Hb as [Hc|(Hc & _)]; rewrite Hc;
      destruct cr as [[]|e2]; simpl; (split; [eauto | exact Hlast]).
Qed.

(** *** The order of the queries *)

Lemma queriesOf_app t1 t2 : queriesOf (t1 ++ t2) = queriesOf t1 ++ queriesOf t2.
Proof.
  induction t1 as [|[[] r|m] t1 IH]; simpl; rewrite ?IH; reflexivity.
Qed.

Lemma queriesOf_none t :
  only (fun ev => negb (isQuery ev)) t -> queriesOf t = [].
Proof.
  unfold only; induction t as [|[[] r|m] t IH]; simpl; intros Ht;
    try discriminate; auto.
Qed.

Lemma firstn_prefix {A} k (l1 l2 : list A) :
  exists k', firstn k l1 = firstn k' (l1 ++ l2).
Proof.
  exists (Nat.min k (List.length l1)).
  rewrite firstn_app.
  replace (Nat.min k (List.length l1) - List.length l1) with 0 by lia.
  rewrite firstn_O, app_nil_r.
  destruct (Nat.le_ge_cases k (List.length l1)) as [Hle|Hge].
  - rewrite Nat.min_l by exact Hle. reflexivity.
  - rewrite Nat.min_r by exact Hge.
    rewrite firstn_all, firstn_all2 by exact Hge. reflexivity.
Qed.

Lemma QueriesIn_ret {A} (a : A) : QueriesIn [] (@ret W A a).
Proof. intros w. reflexivity. Qed.

Lemma QueriesIn_silent {A} (m : M W A) :
  Emits (fun ev => negb (isQuery ev)) m -> QueriesIn [] m.
Proof.
  intros Hm w. specialize (Hm w). apply queriesOf_none in Hm.
  destruct (fst (fst (m w))); [exact Hm | exists 0; exact Hm].
Qed.

Lemma QueriesIn_query sel : QueriesIn [sel] (query H sel).
Proof.
  intros w. unfold query, call.
  destruct (xpath H (xpath_of sel) w) as [[els|e] w1]; simpl;
    [reflexivity | exists 1; reflexivity].
Qed.

Lemma QueriesIn_bind {A B} l1 l2 (m : M W A) (k : A -> M W B) :
  QueriesIn l1 m -> (forall a, QueriesIn l2 (k a)) ->
  QueriesIn (l1 ++ l2) (bind m k).
Proof.
  intros Hm Hk w. unfold bind. specialize (Hm w).
  destruct (m w) as [[[a|e] w1] t1]; simpl in Hm.
  - specialize (Hk a w1). destruct (k a w1) as [[[b|e] w2] t2]; simpl in *.
    + rewrite queriesOf_app, Hm, Hk. reflexivity.
    + destruct Hk as (k2 & Hk). exists (List.length l1 + k2).
      rewrite queriesOf_app, Hm, Hk, firstn_app_2. reflexivity.
  - simpl. destruct Hm as (k1 & ->). apply firstn_prefix.
Qed.

Lemma QueriesIn_fareLoop i js :
  forall p0 s0, QueriesIn (fareSelectors i js) (fareLoop H i js p0 s0).
Proof.
  induction js as [|j js IH]; intros p0 s0; cbn [fareLoop fareSelectors flat_map].
  - apply QueriesIn_ret.
  - change ([SelPrice i j; SelSeats i j] ++ flat_map (fun j0 => [SelPrice i j0; SelSeats i j0]) js)
      with ([SelPrice i j] ++ [] ++ [SelSeats i j] ++ [] ++ fareSelectors i js).
    apply QueriesIn_bind; [apply QueriesIn_query | intro].
    apply QueriesIn_bind; [apply QueriesIn_silent; emits | intro].
    apply QueriesIn_bind; [apply QueriesIn_query | intro].
    apply QueriesIn_bind; [apply QueriesIn_silent; emits | intro].
    apply IH.
Qed.

Lemma QueriesIn_scrapeRow dept arr dateStr i :
  QueriesIn (rowSelectors i) (scrapeRow H dept arr dateStr i).
Proof.
  unfold scrapeRow.
  change (rowSelectors i)
    with ([SelFlightNum i] ++ [] ++ [SelNumStops i] ++ []
          ++ [SelPlaneChange i] ++ [] ++ [SelDeptTime i] ++ [SelDeptAmPm i]
          ++ [] ++ [] ++ [SelArrTime i] ++ [SelArrAmPm i] ++ [] ++ []
          ++ [SelDuration i] ++ [] ++ fareSelectors i [1; 2; 3] ++ []).
  repeat first
    [ apply QueriesIn_bind; [apply QueriesIn_query | intro]
    | apply QueriesIn_bind; [apply QueriesIn_silent; emits | intro]
    | apply QueriesIn_bind; [apply QueriesIn_fareLoop | intro]
    | apply QueriesIn_ret ].
Qed.

(** X3. The queries of a row go out in one fixed order: flight numbers,
    stops, plane change, departure time and meridiem, arrival time and
    meridiem, duration, then price and seats of tiers 1, 2, 3.  A row that
    resolves sent all fourteen; a row that throws sent the first few of them
    and none after the failure. *)
Theorem row_queries_in_source_order dept arr dateStr i w :
  match fst (fst (scrapeRow H dept arr dateStr i w)) with
  | Ok _ => queriesOf (snd (scrapeRow H dept arr dateStr i w)) = rowSelectors i
  | Throw _ =>
      exists k, 1 <= k /\
        queriesOf (snd (scrapeRow H dept arr dateStr i w))
        = firstn k (rowSelectors i)
  end.
Proof.
  pose proof (QueriesIn_scrapeRow dept arr dateStr i w) as Hq.
  destruct (fst (fst (scrapeRow H dept arr dateStr i w))); [exact Hq|].
  destruct Hq as (k & Hk).
  destruct (scrapeRow_first dept arr dateStr i w) as (r & t' & Hfirst).
  rewrite Hfirst in Hk. destruct k as [|k]; [discriminate|].
  exists (S k). split; [lia|]. rewrite Hfirst. exact Hk.
Qed.

(** *** An invocation, stage by stage *)

Lemma Emits_tail n (flights : list FlightObj) :
  Emits isTail
    (if (n =? 0)%nat then
       log MsgNoFlightData ;; closeBrowser H ;; ret None
     else
       log (MsgFlights flights) ;;
       persist H flights ;;
       closeBrowser H ;;
       ret (Some flights)).
Proof.
  apply Emits_if.
  - unfold closeBrowser. emits.
  - apply Emits_bind; [emits | intro].
    apply Emits_bind; [|intro; unfold closeBrowser; emits].
    eapply Emits_weaken; [|apply Emits_persist]. classify.
Qed.

(** The body of the outer [try]: navigation, then the count, then the
    extraction of the counted rows, then the tail. *)
Lemma scrapeBody_split dept arr dateStr url w r w' t :
  scrapeBody H dept arr dateStr url w = (r, w', t) ->
  (exists e, openPage H url w = (Throw e, w', t) /\ r = Throw e)
  \/
  (exists u w1 tn,
      openPage H url w = (Ok u, w1, tn) /\
      ((exists e, t = tn ++ [countEvent (RThrew e)] /\ r = Throw e)
       \/
       (exists n w2 fs w3 te tail,
           t = tn ++ countEvent (RCount n) :: te ++ tail
           /\ rowLoop H dept arr dateStr n 1 [] w2 = (Ok fs, w3, te)
           /\ only isTail tail))).
Proof.
  unfold scrapeBody. intros Hrun.
  apply bind_inv in Hrun
    as [(e & Hopen & ->)|(u & w1 & tn & t2 & Hopen & Hrun & ->)];
    [left; eauto|].
  right. exists u, w1, tn. split; [exact Hopen|].
  apply bind_inv in Hrun
    as [(e & Hcount & ->)|(n & w2 & tc & t3 & Hcount & Hrun & ->)];
    apply call_inv in Hcount as [_ ->];
    [left; exists e; split; reflexivity|].
  right. simpl reply_of.
  destruct n as [|n].
  - exists 0, w2, [], w2, [], t3. split; [reflexivity|].
    split; [reflexivity|].
    pose proof (Emits_tail 0 [] w2) as Ht.
    cbn [Nat.eqb] in Ht, Hrun. rewrite Hrun in Ht. exact Ht.
  - cbn [Nat.eqb] in Hrun.
    destruct (rowLoop_run dept arr dateStr (S n) 1 [] w2)
      as (fs & w3 & te & Hrows & _).
    unfold bind at 1 in Hrun. rewrite Hrows in Hrun.
    destruct ((log (MsgFlights fs) ;; persist H fs ;; closeBrowser H ;;
               ret (Some fs)) w3) as [[r4 w4] t4] eqn:Htail.
    inversion Hrun; subst.
    exists (S n), w2, fs, w3, te, t4. split; [reflexivity|].
    split; [exact Hrows|].
    pose proof (Emits_tail (S n) fs w3) as Ht.
    cbn [Nat.eqb] in Ht. rewrite Htail in Ht. exact Ht.
Qed.

(** An invocation: the launch, the body, and the fatal handler when the
    body throws. *)
Lemma run_split dept arr dateStr url w :
  (exists e,
      outcome (pageScrape H dept arr dateStr url w) = ProcessExit 1 /\
      events (pageScrape H dept arr dateStr url w)
      = [EvLog (MsgStart dept arr dateStr); EvCall CLaunch (RThrew e);
         EvLog (MsgLaunchError e)])
  \/
  (exists w1 r w2 t post,
      scrapeBody H dept arr dateStr url w1 = (r, w2, t)
      /\ events (pageScrape H dept arr dateStr url w)
         = EvLog (MsgStart dept arr dateStr) :: EvCall CLaunch RDone
             :: t ++ post
      /\ only isHandler post
      /\ (forall v, r = Ok v ->
             post = [] /\
             outcome (pageScrape H dept arr dateStr url w) = Returned v)
      /\ (forall e, r = Throw e ->
             exists cr, post = [EvLog (MsgFatal e); closeEvent cr] /\
               outcome (pageScrape H dept arr dateStr url w)
               = match cr with
                 | Ok _ => Returned None
                 | Throw e2 => Rejected e2
                 end)).
Proof.
  unfold pageScrape, outcome, events.
  destruct (launch H w) as [[[]|e] w1]; [|left; exists e; auto].
  right. unfold try_catch.
  destruct (scrapeBody H dept arr dateStr url w1) as [[[v|e] w2] t] eqn:Hb.
  - exists w1, (Ok v), w2, t, []. split; [exact Hb|].
    simpl. rewrite app_nil_r. split; [reflexivity|]. split; [apply only_nil|].
    split; [intros v' E; inversion E; auto | discriminate].
  - unfold fatalHandler. unfold bind, log, ret.
    destruct (closeBrowser_run w2) as (cr & w3 & Hclose). rewrite Hclose.
    exists w1, (Throw e), w2, t, [EvLog (MsgFatal e); closeEvent cr].
    split; [exact Hb|].
    split; [destruct cr as [[]|?]; reflexivity|].
    split; [destruct cr as [[]|?]; reflexivity|].
    split; [discriminate|].
    intros e' E. inversion E; subst. exists cr.
    split; [reflexivity|]. destruct cr as [[]|?]; reflexivity.
Qed.

Lemma openPage_ok_ends url w u w' t :
  openPage H url w = (Ok u, w', t) ->
  exists t0,
    t = t0 ++ [EvCall (CScrollBy 0 450) RDone;
               EvCall (CWaitForTimeout 3000) RDone].
Proof.
  unfold openPage. intros Hrun.
  apply bind_ok_inv in Hrun as (a1 & w1 & t1 & r1 & _ & Hrun & ->).
  apply bind_ok_inv in Hrun as (a2 & w2 & t2 & r2 & _ & Hrun & ->).
  apply bind_ok_inv in Hrun as (a3 & w3 & t3 & r3 & _ & Hrun & ->).
  apply bind_ok_inv in Hrun as (a4 & w4 & t4 & r4 & _ & Hrun & ->).
  apply bind_ok_inv in Hrun as (a5 & w5 & t5 & r5 & _ & Hrun & ->).
  apply bind_ok_inv in Hrun as (a6 & w6 & t6 & r6 & Hscroll & Hrun & ->).
  apply call_inv in Hscroll as [_ ->]. apply call_inv in Hrun as [_ ->].
  exists (t1 ++ t2 ++ t3 ++ t4 ++ t5). rewrite <- !app_assoc. reflexivity.
Qed.

(** An invocation that counted its rows, cut at the count: what came
    before ends with the scroll and the settle delay, the extraction of the
    counted rows follows, and the rest is the tail or the fatal handler. *)
Lemma run_stages dept arr dateStr url w n :
  In (countEvent (RCount n)) (events (pageScrape H dept arr dateStr url w)) ->
  exists pre w2 fs w3 te post,
    events (pageScrape H dept arr dateStr url w)
    = (pre ++ [EvCall (CScrollBy 0 450) RDone;
               EvCall (CWaitForTimeout 3000) RDone])
      ++ countEvent (RCount n) :: te ++ post
    /\ rowLoop H dept arr dateStr n 1 [] w2 = (Ok fs, w3, te)
    /\ only isBefore pre /\ only isAfter post.
Proof.
  intros Hin.
  destruct (run_split dept arr dateStr url w)
    as [(e & _ & Ht)|(w1 & r & w2 & t & post & Hb & Ht & Hpost & _)];
    rewrite Ht in Hin |- *.
  { exfalso. in_cases Hin; discriminate Hin. }
  destruct Hin as [Hin|[Hin|Hin]]; try discriminate Hin.
  apply in_app_or in Hin as [Hin|Hin];
    [|apply (only_In _ Hpost) in Hin; discriminate Hin].
  apply scrapeBody_split in Hb
    as [(e & Hopen & _)|(u & w3 & tn & Hopen & Hrest)].
  { exfalso. pose proof (Emits_openPage url w1) as Hn. rewrite Hopen in Hn.
    apply (only_In _ Hn) in Hin. discriminate Hin. }
  assert (Hn : only isNav tn).
  { pose proof (Emits_openPage url w1) as Hn. rewrite Hopen in Hn. exact Hn. }
  apply openPage_ok_ends in Hopen as (t0 & ->).
  apply only_app_l in Hn.
  destruct Hrest as [(e & -> & _)|(n' & w4 & fs & w5 & te & tail & -> & Hrows & Htail)].
  { exfalso. rewrite <- app_assoc in Hin. in_cases Hin; off_stage Hin. }
  assert (n' = n) as ->.
  { rewrite <- app_assoc in Hin.
    apply in_app_or in Hin as [Hin|Hin]; [apply (only_In _ Hn) in Hin; discriminate Hin|].
    destruct Hin as [Hin|[Hin|[Hin|Hin]]]; try discriminate Hin.
    - inversion Hin. reflexivity.
    - exfalso. apply in_app_or in Hin as [Hin|Hin].
      + pose proof (Emits_rowLoop dept arr dateStr n' 1 [] w4) as He.
        rewrite Hrows in He. apply (only_In _ He) in Hin. discriminate Hin.
      + apply (only_In _ Htail) in Hin. discriminate Hin. }
  exists (EvLog (MsgStart dept arr dateStr) :: EvCall CLaunch RDone :: t0),
    w4, fs, w5, te, (tail ++ post).
  split; [simpl; rewrite <- !app_assoc; simpl; rewrite <- !app_assoc; reflexivity|].
  split; [exact Hrows|]. split.
  - apply only_cons; [reflexivity|]. apply only_cons; [reflexivity|].
    eapply only_weaken; [|exact Hn]. classify.
  - apply only_app.
    + eapply only_weaken; [|exact Htail]. classify.
    + eapply only_weaken; [|exact Hpost]. classify.
Qed.

(** *** Rows, one after the other *)

Lemma rowsEntered_app t1 t2 :
  rowsEntered (t1 ++ t2) = rowsEntered t1 ++ rowsEntered t2.
Proof.
  induction t1 as [|[[] r|m] t1 IH]; simpl; rewrite ?IH; try reflexivity.
  destruct s; simpl; rewrite ?IH; reflexivity.
Qed.

Lemma rowsEntered_none t :
  only (fun ev => negb (isEnter ev)) t -> rowsEntered t = [].
Proof.
  unfold only; induction t as [|[[] r|m] t IH]; simpl; intros Ht; auto.
  destruct s; simpl in *; try discriminate; auto.
Qed.

Lemma rowsEntered_after_query {B} i (k : list Elem -> M W B) :
  (forall els, Emits (fun ev => negb (isEnter ev)) (k els)) ->
  forall w, rowsEntered (snd (bind (query H (SelFlightNum i)) k w)) = [i].
Proof.
  intros Hk w. unfold bind, query, call.
  destruct (xpath H (xpath_of (SelFlightNum i)) w) as [[els|e] w1];
    [|reflexivity].
  specialize (Hk els w1). apply rowsEntered_none in Hk.
  destruct (k els w1) as [[r2 w2] t2]. simpl in *. rewrite Hk. reflexivity.
Qed.

Lemma scrapeRow_rowsEntered dept arr dateStr i w :
  rowsEntered (snd (scrapeRow H dept arr dateStr i w)) = [i].
Proof.
  unfold scrapeRow. apply rowsEntered_after_query. intros els.
  do 15 (apply Emits_bind; [emits | intro]).
  apply Emits_bind; [|intro; apply Emits_ret].
  eapply Emits_weaken; [|apply Emits_fareLoop].
  intros [[] ?|?]; simpl; try discriminate; auto.
  destruct s; simpl; auto.
Qed.

Lemma rowLoop_rowsEntered dept arr dateStr n :
  forall i flights w,
    rowsEntered (snd (rowLoop H dept arr dateStr n i flights w)) = seq i n.
Proof.
  induction n as [|n IH]; intros i flights w; [reflexivity|].
  pose proof (scrapeRow_rowsEntered dept arr dateStr i w) as Hrow.
  destruct (scrapeRow H dept arr dateStr i w) as [[[f|e] w1] t1] eqn:Erow.
  - rewrite rowLoop_step_ok with (1 := Erow).
    specialize (IH (S i) (flights ++ [f]) w1).
    destruct (rowLoop H dept arr dateStr n (S i) (flights ++ [f]) w1)
      as [[r2 w2] t2].
    simpl in *. rewrite rowsEntered_app, Hrow, IH. reflexivity.
  - rewrite rowLoop_step_throw with (1 := Erow).
    specialize (IH (S i) flights w1).
    destruct (rowLoop H dept arr dateStr n (S i) flights w1) as [[r2 w2] t2].
    simpl in *. rewrite !rowsEntered_app, Hrow, IH. reflexivity.
Qed.

(** X4. Rows are processed strictly in index order, each once: in an
    invocation that counted [n] rows, the rows whose extraction was entered
    are exactly 1, 2, ..., n in that order, whichever of them failed. *)
Theorem rows_entered_in_order dept arr dateStr url w n :
  In (countEvent (RCount n)) (events (pageScrape H dept arr dateStr url w)) ->
  rowsEntered (events (pageScrape H dept arr dateStr url w)) = seq 1 n.
Proof.
  intros Hin.
  apply run_stages in Hin
    as (pre & w2 & fs & w3 & te & post & -> & Hrows & Hpre & Hpost).
  pose proof (rowLoop_rowsEntered dept arr dateStr n 1 [] w2) as Hte.
  rewrite Hrows in Hte. simpl in Hte.
  rewrite !rowsEntered_app. cbn [rowsEntered countEvent app].
  rewrite rowsEntered_app, Hte.
  rewrite (rowsEntered_none (t := pre)), (rowsEntered_none (t := post)).
  - simpl. apply app_nil_r.
  - eapply only_weaken; [|exact Hpost]. classify.
  - eapply only_weaken; [|exact Hpre]. classify.
Qed.

(** X5. The rows are counted only on a settled page: whenever rows were
    counted, the count comes right after a resolved scroll by (0, 450) and a
    resolved wait of 3000 ms. *)
Theorem count_follows_scroll_and_settle dept arr dateStr url w n :
  In (countEvent (RCount n)) (events (pageScrape H dept arr dateStr url w)) ->
  exists t1 t2,
    events (pageScrape H dept arr dateStr url w)
    = t1 ++ EvCall (CScrollBy 0 450) RDone
         :: EvCall (CWaitForTimeout 3000) RDone
         :: countEvent (RCount n) :: t2.
Proof.
  intros Hin.
  apply run_stages in Hin
    as (pre & w2 & fs & w3 & te & post & -> & _).
  exists pre, (te ++ post). rewrite <- app_assoc. reflexivity.
Qed.

(** X11. Extraction is over before persistence starts: once an insert has
    been sent, no page query and no row count follows. *)
Theorem no_query_after_insert dept arr dateStr url w t1 ev t2 :
  events (pageScrape H dept arr dateStr url w) = t1 ++ ev :: t2 ->
  isInsert ev = true ->
  only (fun e => negb (isQuery e || isCount e)) t2.
Proof.
  intros Hsplit Hev.
  assert (Hin : In ev (events (pageScrape H dept arr dateStr url w)))
    by (rewrite Hsplit; apply in_or_app; right; left; reflexivity).
  destruct (run_split dept arr dateStr url w)
    as [(e & _ & Ht)|(w1 & r & w2 & t & post & Hb & Ht & Hpost & _)].
  { exfalso. rewrite Ht in Hin. in_cases Hin; subst ev; discriminate Hev. }
  apply scrapeBody_split in Hb
    as [(e & Hopen & _)|(u & w3 & tn & Hopen & Hrest)].
  { exfalso. pose proof (Emits_openPage url w1) as Hn. rewrite Hopen in Hn.
    rewrite Ht in Hin. destruct Hin as [Hin|[Hin|Hin]];
      try (subst ev; discriminate Hev).
    apply in_app_or in Hin as [Hin|Hin].
    - apply (only_In _ Hn) in Hin. destruct ev as [[] ?|?]; discriminate.
    - apply (only_In _ Hpost) in Hin. destruct ev as [[] ?|?]; discriminate. }
  assert (Hn : only isNav tn).
  { pose proof (Emits_openPage url w1) as Hn. rewrite Hopen in Hn. exact Hn. }
  destruct Hrest as [(e & -> & _)|(n & w4 & fs & w5 & te & tail & -> & Hrows & Htail)].
  { exfalso. rewrite Ht in Hin. destruct Hin as [Hin|[Hin|Hin]];
      try (subst ev; discriminate Hev).
    apply in_app_or in Hin as [Hin|Hin];
      [apply in_app_or in Hin as [Hin|Hin]|].
    - apply (only_In _ Hn) in Hin. destruct ev as [[] ?|?]; discriminate.
    - destruct Hin as [<-|[]]. discriminate Hev.
    - apply (only_In _ Hpost) in Hin. destruct ev as [[] ?|?]; discriminate. }
  assert (He : only isExtract te).
  { pose proof (Emits_rowLoop dept arr dateStr n 1 [] w4) as He.
    rewrite Hrows in He. exact He. }
  set (before := EvLog (MsgStart dept arr dateStr) :: EvCall CLaunch RDone
                   :: tn ++ countEvent (RCount n) :: te) in *.
  assert (Hbefore : only (fun e => negb (isInsert e)) before).
  { apply only_cons; [reflexivity|]. apply only_cons; [reflexivity|].
    apply only_app; [eapply only_weaken; [|exact Hn]; classify|].
    apply only_cons; [reflexivity|].
    eapply only_weaken; [|exact He]. intros [[] ?|[]]; simpl; auto. }
  assert (Hafter : only (fun e => negb (isQuery e || isCount e)) (tail ++ post)).
  { apply only_app; [eapply only_weaken; [|exact Htail]; classify
                    |eapply only_weaken; [|exact Hpost]; classify]. }
  assert (Hevents : events (pageScrape H dept arr dateStr url w)
                    = before ++ (tail ++ post)).
  { rewrite Ht. unfold before. simpl. rewrite <- !app_assoc. simpl.
    rewrite <- !app_assoc. reflexivity. }
  rewrite Hevents in Hsplit. clear - Hsplit Hev Hbefore Hafter.
  revert t1 Hsplit. induction before as [|b before IH]; intros t1 Hsplit.
  - simpl in Hsplit. revert t1 Hsplit Hafter.
    generalize (tail ++ post) as l. induction l as [|x l IHl]; intros t1 Hsplit Hl.
    + destruct t1; discriminate.
    + unfold only in Hl. simpl in Hl. apply andb_prop in Hl as [Hx Hl].
      destruct t1 as [|y t1]; simpl in Hsplit; inversion Hsplit; subst.
      * exact Hl.
      * eapply IHl; eauto.
  - unfold only in Hbefore. simpl in Hbefore.
    apply andb_prop in Hbefore as [Hb Hbefore].
    destruct t1 as [|y t1]; simpl in Hsplit; inversion Hsplit; subst.
    + rewrite Hev in Hb. discriminate.
    + eapply IH; eauto.
Qed.

(** *** No retry *)

Lemma filter_none (p : Event -> bool) t :
  only (fun ev => negb (p ev)) t -> filter p t = [].
Proof.
  unfold only. induction t as [|ev t IH]; simpl; [reflexivity|].
  intros Ht. apply andb_prop in Ht as [Hev Ht].
  destruct (p ev); [discriminate | auto].
Qed.

Lemma AtMost_silent {A} p (m : M W A) :
  Emits (fun ev => negb (p ev)) m -> AtMost p 0 m.
Proof. intros Hm w. rewrite (filter_none _ (Hm w)). simpl. lia. Qed.

Lemma AtMost_call {A} p c (rep : A -> Reply) (op : Op W A) :
  AtMost p 1 (call c rep op).
Proof.
  intros w. unfold call. destruct (op w) as [r w1]. simpl.
  destruct (p _); simpl; lia.
Qed.

Lemma AtMost_bind {A B} p k1 k2 (m : M W A) (k : A -> M W B) :
  AtMost p k1 m -> (forall a, AtMost p k2 (k a)) ->
  AtMost p (k1 + k2) (bind m k).
Proof.
  intros Hm Hk w. unfold bind. specialize (Hm w).
  destruct (m w) as [[[a|e] w1] t1]; simpl in *; [|lia].
  specialize (Hk a w1). destruct (k a w1) as [[r2 w2] t2]; simpl in *.
  rewrite filter_app, length_app. lia.
Qed.

Lemma AtMost_openPage_goto url : AtMost isGoto 1 (openPage H url).
Proof.
  unfold openPage.
  apply (AtMost_bind (k1 := 0) (k2 := 1)); [apply AtMost_silent; emits | intro].
  apply (AtMost_bind (k1 := 0) (k2 := 1)); [apply AtMost_silent; emits | intro].
  apply (AtMost_bind (k1 := 0) (k2 := 1)); [apply AtMost_silent; emits | intro].
  apply (AtMost_bind (k1 := 1) (k2 := 0)); [apply AtMost_call | intro].
  apply AtMost_silent.
  apply Emits_bind; [|intro; emits].
  eapply Emits_weaken; [|apply Emits_handleRedirect]. classify.
Qed.

Lemma Emits_scrapeBody dept arr dateStr url :
  Emits (fun ev => isNav ev || isBodyRest ev)%bool
        (scrapeBody H dept arr dateStr url).
Proof.
  unfold scrapeBody. apply Emits_bind; [|intro].
  - eapply Emits_weaken; [|apply Emits_openPage].
    intros ev ->. reflexivity.
  - eapply Emits_weaken; [|apply Emits_bodyRest].
    intros ev ->. apply orb_true_r.
Qed.

(** X6. Nothing is retried: an invocation launches the browser once, loads
    the page at most once and counts the rows at most once. *)
Theorem no_retry dept arr dateStr url w :
  let t := events (pageScrape H dept arr dateStr url w) in
  List.length (filter isLaunch t) = 1
  /\ List.length (filter isGoto t) <= 1
  /\ List.length (filter isCount t) <= 1.
Proof.
  intros t. unfold t.
  destruct (run_split dept arr dateStr url w)
    as [(e & _ & ->)|(w1 & r & w2 & tb & post & Hb & -> & Hpost & _)].
  { simpl. repeat split; lia. }
  pose proof (Emits_scrapeBody dept arr dateStr url w1) as Hbody.
  rewrite Hb in Hbody. simpl in Hbody.
  cbn [filter isLaunch isGoto isCount List.length]. rewrite !filter_app, !length_app.
  rewrite (filter_none isLaunch (t := tb)), (filter_none isLaunch (t := post)),
    (filter_none isGoto (t := post)), (filter_none isCount (t := post));
    try (eapply only_weaken; [|exact Hpost]; classify);
    try (eapply only_weaken; [|exact Hbody]; classify).
  simpl. split; [reflexivity|]. rewrite !Nat.add_0_r.
  apply scrapeBody_split in Hb
    as [(e & Hopen & _)|(u & w3 & tn & Hopen & Hrest)].
  - pose proof (AtMost_openPage_goto url w1) as Hg.
    pose proof (Emits_openPage url w1) as Hn.
    rewrite Hopen in Hg, Hn. simpl in Hg, Hn.
    split; [exact Hg|].
    rewrite (filter_none isCount (t := tb)); [simpl; lia|].
    eapply only_weaken; [|exact Hn]. classify.
  - pose proof (AtMost_openPage_goto url w1) as Hg.
    pose proof (Emits_openPage url w1) as Hn.
    rewrite Hopen in Hg, Hn. simpl in Hg, Hn.
    assert (Hnc : filter isCount tn = [])
      by (apply filter_none; eapply only_weaken; [|exact Hn]; classify).
    destruct Hrest as [(e & -> & _)|(n & w4 & fs & w5 & te & tail & -> & Hrows & Htail)].
    + rewrite !filter_app, !length_app, Hnc. simpl. lia.
    + pose proof (Emits_rowLoop dept arr dateStr n 1 [] w4) as He.
      rewrite Hrows in He. simpl in He.
      rewrite !filter_app, !length_app. cbn [filter isGoto isCount countEvent].
      rewrite !filter_app, !length_app, Hnc.
      rewrite (filter_none isGoto (t := te)), (filter_none isGoto (t := tail)),
        (filter_none isCount (t := te)), (filter_none isCount (t := tail));
        try (eapply only_weaken; [|exact Htail]; classify);
        try (eapply only_weaken; [|exact He];
             intros [[] ?|[]]; simpl; auto).
      simpl. lia.
Qed.

(** X7. A failed launch ends the process with code 1 after its error line,
    before any page is opened; and the process exits in no other case. *)
Theorem launch_failure_exits dept arr dateStr url w :
  (forall e,
      In (EvCall CLaunch (RThrew e))
         (events (pageScrape H dept arr dateStr url w)) ->
      outcome (pageScrape H dept arr dateStr url w) = ProcessExit 1
      /\ events (pageScrape H dept arr dateStr url w)
         = [EvLog (MsgStart dept arr dateStr); EvCall CLaunch (RThrew e);
            EvLog (MsgLaunchError e)])
  /\ (forall code,
        outcome (pageScrape H dept arr dateStr url w) = ProcessExit code ->
        code = 1%Z /\
        exists e,
          events (pageScrape H dept arr dateStr url w)
          = [EvLog (MsgStart dept arr dateStr); EvCall CLaunch (RThrew e);
             EvLog (MsgLaunchError e)]).
Proof.
  destruct (run_split dept arr dateStr url w)
    as [(e0 & Ho & Ht)|(w1 & r & w2 & tb & post & Hb & Ht & Hpost & Hok & Hthrow)].
  - split.
    + intros e Hin. rewrite Ht in Hin.
      destruct Hin as [Hin|[Hin|[Hin|[]]]]; try discriminate Hin.
      inversion Hin; subst. auto.
    + intros code Hc. rewrite Ho in Hc. inversion Hc; subst. eauto.
  - split.
    + intros e Hin. exfalso. rewrite Ht in Hin.
      destruct Hin as [Hin|[Hin|Hin]]; try discriminate Hin.
      pose proof (Emits_scrapeBody dept arr dateStr url w1) as Hbody.
      rewrite Hb in Hbody. simpl in Hbody.
      apply in_app_or in Hin as [Hin|Hin].
      * apply (only_In _ Hbody) in Hin. discriminate Hin.
      * apply (only_In _ Hpost) in Hin. discriminate Hin.
    + intros code Hc. exfalso. destruct r as [v|e].
      * destruct (Hok v eq_refl) as [_ Ho]. rewrite Ho in Hc. discriminate.
      * destruct (Hthrow e eq_refl) as (cr & _ & Ho). rewrite Ho in Hc.
        destruct cr; discriminate.
Qed.

(** *** Fatal errors and what the result tells *)

(** X8. Any failure before the rows are counted is fatal, not only a
    failed page load: when the browser was launched and no row count came
    back, no page query and no insert is sent, the error is logged by the
    fatal handler, [browser.close()] is called exactly once, and the
    invocation resolves to null when that close resolves. *)
Theorem failure_before_count_is_fatal dept arr dateStr url w :
  let run := pageScrape H dept arr dateStr url w in
  In (EvCall CLaunch RDone) (events run) ->
  (forall n, ~ In (countEvent (RCount n)) (events run)) ->
  queriesOf (events run) = []
  /\ insertCalls (events run) = []
  /\ exists e (cr : Res unit),
       In (EvLog (MsgFatal e)) (events run)
       /\ closeReplies (events run) = [reply_of done cr]
       /\ outcome run
          = match cr with Ok _ => Returned None | Throw e2 => Rejected e2 end.
Proof.
  intros run Hlaunch Hnocount. unfold run in *.
  destruct (run_split dept arr dateStr url w)
    as [(e0 & _ & Ht)|(w1 & r & w2 & tb & post & Hb & Ht & Hpost & Hok & Hthrow)].
  { exfalso. rewrite Ht in Hlaunch. in_cases Hlaunch; discriminate Hlaunch. }
  assert (Hcase : exists e, r = Throw e /\
            only (fun ev => isNav ev || isCount ev)%bool tb).
  { apply scrapeBody_split in Hb
      as [(e & Hopen & ->)|(u & w3 & tn & Hopen & Hrest)].
    - exists e. split; [reflexivity|].
      pose proof (Emits_openPage url w1) as Hn. rewrite Hopen in Hn.
      eapply only_weaken; [|exact Hn]. intros ev ->. reflexivity.
    - pose proof (Emits_openPage url w1) as Hn. rewrite Hopen in Hn.
      simpl in Hn.
      destruct Hrest as [(e & -> & ->)|(n & w4 & fs & w5 & te & tail & -> & _)].
      + exists e. split; [reflexivity|].
        apply only_app; [|reflexivity].
        eapply only_weaken; [|exact Hn]. intros ev ->. reflexivity.
      + exfalso. apply (Hnocount n). rewrite Ht.
        right. right. apply in_or_app. left. apply in_or_app. right.
        left. reflexivity. }
  destruct Hcase as (e & -> & Htb).
  destruct (Hthrow e eq_refl) as (cr & -> & Ho).
  rewrite Ht, Ho. cbn [queriesOf insertCalls closeReplies].
  rewrite queriesOf_app, insertCalls_app, closeReplies_app.
  rewrite (queriesOf_none (t := tb)), (insertCalls_none (t := tb)),
    (closeReplies_none (t := tb));
    try (eapply only_weaken; [|exact Htb]; classify).
  split; [destruct cr as [[]|?]; reflexivity|].
  split; [destruct cr as [[]|?]; reflexivity|].
  exists e, cr. split.
  - right. right. apply in_or_app. right. left. reflexivity.
  - split; [destruct cr as [[]|?]; reflexivity | reflexivity].
Qed.

(** X9. A rejected [browser.close()] costs the caller the result: whenever
    a close call rejects, the invocation does not return a flights array,
    even when every row was extracted and inserted before. *)
Theorem close_rejection_loses_flights dept arr dateStr url w e :
  In (EvCall CClose (RThrew e)) (events (pageScrape H dept arr dateStr url w)) ->
  forall fs, outcome (pageScrape H dept arr dateStr url w) <> Returned (Some fs).
Proof.
  intros Hin fs Ho.
  apply run_returned_flights in Ho
    as (n & tn & te & results & _ & Hn & (He & _) & _ & Ht).
  rewrite Ht in Hin.
  pose proof (only_persistEvents fs results) as Hp.
  in_cases Hin; off_stage Hin.
Qed.

(** X10. What the result tells the caller.  A flights array means that a
    positive number [n] of rows was counted, that the array is the one
    logged before persistence and has at most [n] records, that the fatal
    handler did not run and that the one close call resolved.  Null means
    either that 0 rows were counted or that the fatal handler ran. *)
Theorem outcome_decoding dept arr dateStr url w :
  let run := pageScrape H dept arr dateStr url w in
  (forall fs,
      outcome run = Returned (Some fs) ->
      exists n,
        0 < n /\ In (countEvent (RCount n)) (events run)
        /\ In (EvLog (MsgFlights fs)) (events run)
        /\ List.length fs <= n
        /\ filter isFatal (events run) = []
        /\ closeReplies (events run) = [RDone])
  /\ (outcome run = Returned None ->
      In (countEvent (RCount 0)) (events run)
      \/ exists e, In (EvLog (MsgFatal e)) (events run)).
Proof.
  intros run. unfold run. split.
  - intros fs Ho.
    apply run_returned_flights in Ho
      as (n & tn & te & results & Hpos & Hn & Hext & Hlen & Ht).
    pose proof Hext as (He & (added & Hfs & Hadd) & _).
    exists n. rewrite Ht. split; [exact Hpos|].
    split; [right; right; apply in_or_app; right; left; reflexivity|].
    split.
    { right. right. apply in_or_app. right. right. apply in_or_app. right.
      left. reflexivity. }
    split; [simpl in Hfs; subst fs; lia|].
    split.
    + apply filter_none.
      apply only_cons; [reflexivity|]. apply only_cons; [reflexivity|].
      apply only_app; [eapply only_weaken; [|exact Hn]; classify|].
      apply only_cons; [reflexivity|].
      apply only_app;
        [eapply only_weaken; [|exact He]; intros [[] ?|[]]; simpl; auto|].
      apply only_cons; [reflexivity|].
      apply only_app; [|reflexivity].
      eapply only_weaken; [|apply only_persistEvents]. classify.
    + cbn [closeReplies]. apply rows_closeReplies; assumption.
  - intros Ho.
    destruct (run_split dept arr dateStr url w)
      as [(e0 & Ho' & _)|(w1 & r & w2 & tb & post & Hb & Ht & Hpost & Hok & Hthrow)].
    { rewrite Ho' in Ho. discriminate. }
    destruct r as [v|e].
    + destruct (Hok v eq_refl) as [-> Ho']. rewrite Ho' in Ho.
      inversion Ho; subst v. left. rewrite Ht, app_nil_r.
      apply scrapeBody_shape in Hb.
      remember (Ok None) as r eqn:Er.
      destruct Hb as [e tn Hn|e tn Hn|tn cr Hn|n tn te fs results cr Hpos Hn Hext Hlen];
        try discriminate.
      * right. right. apply in_or_app. right. left. reflexivity.
      * apply closing_ok in Er as [_ Er]. discriminate.
    + destruct (Hthrow e eq_refl) as (cr & -> & _). right. exists e.
      rewrite Ht. right. right. apply in_or_app. right. left. reflexivity.
Qed.

(** *** The redirect handling inside navigation *)

Lemma openPage_after_goto url w r w' t u z :
  openPage H url w = (r, w', t) ->
  In (EvCall (CGoto u z) RDone) t ->
  exists rs, In (EvCall (CScrollBy 0 450) rs) t.
Proof.
  unfold openPage. intros Hrun Hin.
  apply bind_inv in Hrun as [(e1 & Hc & ->)|(a1 & w1 & t1 & r1 & Hc & Hrun & ->)];
    apply call_inv in Hc as [_ ->].
  { exfalso. in_cases Hin; discriminate Hin. }
  apply bind_inv in Hrun as [(e1 & Hc & ->)|(a2 & w2 & t2 & r2 & Hc & Hrun & ->)];
    apply call_inv in Hc as [_ ->].
  { exfalso. in_cases Hin; discriminate Hin. }
  apply bind_inv in Hrun as [(e1 & Hc & ->)|(a3 & w3 & t3 & r3 & Hc & Hrun & ->)];
    apply call_inv in Hc as [_ ->].
  { exfalso. in_cases Hin; discriminate Hin. }
  apply bind_inv in Hrun as [(e1 & Hc & ->)|(a4 & w4 & t4 & r4 & Hc & Hrun & ->)];
    apply call_inv in Hc as [_ ->].
  { exfalso. in_cases Hin; discriminate Hin. }
  clear Hin.
  destruct (handleRedirect_resolves url w4) as (w5 & t5 & Hred).
  unfold bind at 1 in Hrun. rewrite Hred in Hrun.
  destruct (bind_call_first (CScrollBy 0 450) done (scrollBy H 0 450)
              (fun _ => call (CWaitForTimeout 3000) done
                          (waitForTimeout H 3000)) w5)
    as (rs & t' & Hfirst).
  destruct ((call (CScrollBy 0 450) done (scrollBy H 0 450) ;;
             call (CWaitForTimeout 3000) done (waitForTimeout H 3000)) w5)
    as [[r6 w6] t6] eqn:Hrest.
  simpl in Hfirst. subst t6. inversion Hrun; subst.
  exists rs. do 4 (apply in_or_app; right). apply in_or_app. right.
  left. reflexivity.
Qed.

(** X13. The redirect handling never aborts navigation: once the page load
    has resolved, the scroll is issued, whatever the wait for the submit
    control, the click and the delay after it did. *)
Theorem scroll_follows_page_load dept arr dateStr url w u z :
  In (EvCall (CGoto u z) RDone) (events (pageScrape H dept arr dateStr url w)) ->
  exists rs,
    In (EvCall (CScrollBy 0 450) rs)
       (events (pageScrape H dept arr dateStr url w)).
Proof.
  intros Hin.
  destruct (run_split dept arr dateStr url w)
    as [(e0 & _ & Ht)|(w1 & r & w2 & tb & post & Hb & Ht & Hpost & _)];
    rewrite Ht in Hin |- *.
  { exfalso. in_cases Hin; discriminate Hin. }
  destruct Hin as [Hin|[Hin|Hin]]; try discriminate Hin.
  apply in_app_or in Hin as [Hin|Hin];
    [|apply (only_In _ Hpost) in Hin; discriminate Hin].
  assert (Hscroll : exists rs, In (EvCall (CScrollBy 0 450) rs) tb).
  { apply scrapeBody_split in Hb
      as [(e & Hopen & _)|(u0 & w3 & tn & Hopen & Hrest)].
    - eapply openPage_after_goto; eauto.
    - assert (Hin' : In (EvCall (CGoto u z) RDone) tn).
      { destruct Hrest as [(e & -> & _)|(n & w4 & fs & w5 & te & tail & -> & Hrows & Htail)].
        - apply in_app_or in Hin as [Hin|Hin]; [exact Hin|].
          in_cases Hin; discriminate Hin.
        - apply in_app_or in Hin as [Hin|Hin]; [exact Hin|].
          exfalso. destruct Hin as [Hin|Hin]; [discriminate Hin|].
          apply in_app_or in Hin as [Hin|Hin].
          + pose proof (Emits_rowLoop dept arr dateStr n 1 [] w4) as He.
            rewrite Hrows in He. apply (only_In _ He) in Hin. discriminate Hin.
          + apply (only_In _ Htail) in Hin. discriminate Hin. }
      apply openPage_after_goto with (1 := Hopen) in Hin' as (rs & Hrs).
      exists rs.
      destruct Hrest as [(e & -> & _)|(n & w4 & fs & w5 & te & tail & -> & _)];
        apply in_or_app; left; exact Hrs. }
  destruct Hscroll as (rs & Hrs). exists rs.
  right. right. apply in_or_app. left. exact Hrs.
Qed.

(** *** The redirect handling, in the invocation *)

Lemma handleRedirect_branches url w w' tr :
  handleRedirect H url w = (Ok tt, w', tr) ->
  (page_url H w = url -> w' = w /\ tr = [])
  /\ (page_url H w <> url ->
      match waitForXPath H searchButtonXPath 5000 w with
      | (Throw e, w1) =>
          w' = w1 /\
          tr = [EvLog MsgRedirect;
                EvCall (CWaitForXPath searchButtonXPath 5000) (RThrew e);
                EvLog MsgNoSearchButton]
      | (Ok search, w1) =>
          match cursor_click H search 2500 25 w1 with
          | (Throw e, w2) =>
              w' = w2 /\
              tr = [EvLog MsgRedirect;
                    EvCall (CWaitForXPath searchButtonXPath 5000) RDone;
                    EvCall (CClick 2500 25) (RThrew e);
                    EvLog MsgNoSearchButton]
          | (Ok _, w2) =>
              match waitForTimeout H 5000 w2 with
              | (Ok _, w3) =>
                  w' = w3 /\
                  tr = [EvLog MsgRedirect;
                        EvCall (CWaitForXPath searchButtonXPath 5000) RDone;
                        EvCall (CClick 2500 25) RDone;
                        EvCall (CWaitForTimeout 5000) RDone]
              | (Throw e, w3) =>
                  w' = w3 /\
                  tr = [EvLog MsgRedirect;
                        EvCall (CWaitForXPath searchButtonXPath 5000) RDone;
                        EvCall (CClick 2500 25) RDone;
                        EvCall (CWaitForTimeout 5000) (RThrew e);
                        EvLog MsgNoSearchButton]
              end
          end
      end).
Proof.
  intros E. split; intros Hurl.
  - apply String.eqb_eq in Hurl. unfold handleRedirect in E.
    rewrite Hurl in E. inversion E. auto.
  - apply String.eqb_neq in Hurl. unfold handleRedirect in E.
    rewrite Hurl in E. unfold bind, try_catch, call, log in E.
    destruct (waitForXPath H searchButtonXPath 5000 w) as [[search|e] w1];
      [|inversion E; auto].
    destruct (cursor_click H search 2500 25 w1) as [[[]|e] w2];
      [|inversion E; auto].
    destruct (waitForTimeout H 5000 w2) as [[[]|e] w3]; inversion E; auto.
Qed.

(** Navigation past a resolved load: the redirect handling runs in the
    world the load left, and the scroll is issued in the world it leaves. *)
Lemma openPage_redirect url w0 r w' t u z :
  openPage H url w0 = (r, w', t) ->
  In (EvCall (CGoto u z) RDone) t ->
  exists w1 w2 w3 w4 w5 tr trest,
    newPage H w0 = (Ok tt, w1)
    /\ getRandomPagePoint H w1 = (Ok tt, w2)
    /\ installMouseHelper H w2 = (Ok tt, w3)
    /\ goto H url 90000 w3 = (Ok tt, w4)
    /\ handleRedirect H url w4 = (Ok tt, w5, tr)
    /\ t = [EvCall CNewPage RDone; EvCall CRandomPagePoint RDone;
            EvCall CInstallMouseHelper RDone; EvCall (CGoto url 90000) RDone]
           ++ tr
           ++ EvCall (CScrollBy 0 450)
                (reply_of done (fst (scrollBy H 0 450 w5))) :: trest.
Proof.
  unfold openPage. intros Hrun Hin.
  apply bind_inv in Hrun as [(e1 & Hc & ->)|(a1 & w1 & t1 & r1 & Hc & Hrun & ->)];
    apply call_inv in Hc as [H1 ->].
  { exfalso. in_cases Hin; discriminate Hin. }
  apply bind_inv in Hrun as [(e1 & Hc & ->)|(a2 & w2 & t2 & r2 & Hc & Hrun & ->)];
    apply call_inv in Hc as [H2 ->].
  { exfalso. in_cases Hin; discriminate Hin. }
  apply bind_inv in Hrun as [(e1 & Hc & ->)|(a3 & w3 & t3 & r3 & Hc & Hrun & ->)];
    apply call_inv in Hc as [H3 ->].
  { exfalso. in_cases Hin; discriminate Hin. }
  apply bind_inv in Hrun as [(e1 & Hc & ->)|(a4 & w4 & t4 & r4 & Hc & Hrun & ->)];
    apply call_inv in Hc as [H4 ->].
  { exfalso. in_cases Hin; discriminate Hin. }
  clear Hin. destruct a1, a2, a3, a4.
  destruct (handleRedirect_resolves url w4) as (w5 & t5 & Hred).
  unfold bind at 1 in Hrun. rewrite Hred in Hrun.
  unfold bind, call in Hrun.
  exists w1, w2, w3, w4, w5, t5.
  destruct (scrollBy H 0 450 w5) as [[[]|e] w6].
  - destruct (waitForTimeout H 3000 w6) as [rw w7].
    inversion Hrun; subst. eexists. repeat (split; [eassumption|]).
    simpl. reflexivity.
  - inversion Hrun; subst. eexists. repeat (split; [eassumption|]).
    simpl. reflexivity.
Qed.

(** Past a successful launch the invocation is the body, run in the world
    the launch left, and what the fatal handler adds. *)
Lemma run_launched dept arr dateStr url w w0 :
  launch H w = (Ok tt, w0) ->
  exists r w2 t post,
    scrapeBody H dept arr dateStr url w0 = (r, w2, t)
    /\ events (pageScrape H dept arr dateStr url w)
       = EvLog (MsgStart dept arr dateStr) :: EvCall CLaunch RDone
           :: t ++ post
    /\ only isHandler post.
Proof.
  intros Hl. unfold pageScrape, events. rewrite Hl. unfold try_catch.
  destruct (scrapeBody H dept arr dateStr url w0) as [[[v|e] w2] t] eqn:Hb.
  - exists (Ok v), w2, t, []. split; [reflexivity|].
    simpl. rewrite app_nil_r. split; [reflexivity | apply only_nil].
  - unfold fatalHandler. unfold bind, log, ret.
    destruct (closeBrowser_run w2) as (cr & w3 & Hclose). rewrite Hclose.
    exists (Throw e), w2, t, [EvLog (MsgFatal e); closeEvent cr].
    split; [reflexivity|].
    split; destruct cr as [[]|?]; reflexivity.
Qed.

Lemma run_redirect dept arr dateStr url w u z :
  In (EvCall (CGoto u z) RDone) (events (pageScrape H dept arr dateStr url w)) ->
  exists w0 w1 w2 w3 w4 w5 tr t2,
    launch H w = (Ok tt, w0)
    /\ newPage H w0 = (Ok tt, w1)
    /\ getRandomPagePoint H w1 = (Ok tt, w2)
    /\ installMouseHelper H w2 = (Ok tt, w3)
    /\ goto H url 90000 w3 = (Ok tt, w4)
    /\ handleRedirect H url w4 = (Ok tt, w5, tr)
    /\ events (pageScrape H dept arr dateStr url w)
       = [EvLog (MsgStart dept arr dateStr); EvCall CLaunch RDone;
          EvCall CNewPage RDone; EvCall CRandomPagePoint RDone;
          EvCall CInstallMouseHelper RDone; EvCall (CGoto url 90000) RDone]
         ++ tr
         ++ EvCall (CScrollBy 0 450)
              (reply_of done (fst (scrollBy H 0 450 w5))) :: t2.
Proof.
  intros Hin.
  destruct (launch H w) as [[[]|e0] w0] eqn:Hl.
  2: { exfalso. unfold pageScrape, events in Hin. rewrite Hl in Hin.
       simpl in Hin. in_cases Hin; discriminate Hin. }
  destruct (run_launched dept arr dateStr url w Hl)
    as (rb & wb & tb & post & Hb & Ht & Hpost).
  rewrite Ht in Hin |- *.
  destruct Hin as [Hin|[Hin|Hin]]; try discriminate Hin.
  apply in_app_or in Hin as [Hin|Hin];
    [|apply (only_In _ Hpost) in Hin; discriminate Hin].
  apply scrapeBody_split in Hb
    as [(e & Hopen & _)|(u0 & wn & tn & Hopen & Hrest)].
  - destruct (@openPage_redirect _ _ _ _ _ _ _ Hopen Hin)
      as (w1 & w2 & w3 & w4 & w5 & tr & trest
          & Enp & Erp & Emh & Egoto & Hred & Etb).
    exists w0, w1, w2, w3, w4, w5, tr, (trest ++ post).
    repeat (split; [first [reflexivity | eassumption]|]).
    rewrite Etb. simpl. repeat (rewrite <- app_assoc; simpl). reflexivity.
  - assert (Hin' : In (EvCall (CGoto u z) RDone) tn).
    { destruct Hrest
        as [(e & Etb & _)|(n & wr & fs & wt & te & tail & Etb & Hrows & Htail)];
        rewrite Etb in Hin.
      - apply in_app_or in Hin as [Hin|Hin]; [exact Hin|].
        in_cases Hin; discriminate Hin.
      - apply in_app_or in Hin as [Hin|Hin]; [exact Hin|].
        exfalso. destruct Hin as [Hin|Hin]; [discriminate Hin|].
        apply in_app_or in Hin as [Hin|Hin].
        + pose proof (Emits_rowLoop dept arr dateStr n 1 [] wr) as He.
          rewrite Hrows in He. apply (only_In _ He) in Hin. discriminate Hin.
        + apply (only_In _ Htail) in Hin. discriminate Hin. }
    destruct (@openPage_redirect _ _ _ _ _ _ _ Hopen Hin')
      as (w1 & w2 & w3 & w4 & w5 & tr & trest
          & Enp & Erp & Emh & Egoto & Hred & Etn).
    destruct Hrest
      as [(e & Etb & _)|(n & wr & fs & wt & te & tail & Etb & _)];
      rewrite Etb, Etn.
    + exists w0, w1, w2, w3, w4, w5, tr,
        ((trest ++ [countEvent (RThrew e)]) ++ post).
      repeat (split; [first [reflexivity | eassumption]|]).
      simpl. repeat (rewrite <- app_assoc; simpl). reflexivity.
    + exists w0, w1, w2, w3, w4, w5, tr,
        ((trest ++ countEvent (RCount n) :: te ++ tail) ++ post).
      repeat (split; [first [reflexivity | eassumption]|]).
      simpl. repeat (rewrite <- app_assoc; simpl). reflexivity.
Qed.

(** C8. In an invocation whose page load resolved, the redirect handling
    comes right after the load and right before the scroll.  With [w4] the
    world in which the load left the page and [tr] the events between the
    load and the scroll: when the page's address equals the requested [url],
    nothing is done (no wait, no click); when it differs, the submit control
    is awaited for 5000 ms and, once found, clicked through the cursor
    (click budget 2500 ms, padding 25 percent), and a fixed 5000 ms delay
    follows; when the control is not found (or the click or the delay
    rejects) a message of level warning is logged.  In every case the
    invocation goes on to the scroll, in the world [w5] the handling left. *)
Theorem redirect_handling dept arr dateStr url w :
  let run := pageScrape H dept arr dateStr url w in
  In (EvCall (CGoto url 90000) RDone) (events run) ->
  exists w0 w1 w2 w3 w4 w5 tr t2,
    launch H w = (Ok tt, w0)
    /\ newPage H w0 = (Ok tt, w1)
    /\ getRandomPagePoint H w1 = (Ok tt, w2)
    /\ installMouseHelper H w2 = (Ok tt, w3)
    /\ goto H url 90000 w3 = (Ok tt, w4)
    /\ events run
       = [EvLog (MsgStart dept arr dateStr); EvCall CLaunch RDone;
          EvCall CNewPage RDone; EvCall CRandomPagePoint RDone;
          EvCall CInstallMouseHelper RDone; EvCall (CGoto url 90000) RDone]
         ++ tr
         ++ EvCall (CScrollBy 0 450)
              (reply_of done (fst (scrollBy H 0 450 w5))) :: t2
    /\ (page_url H w4 = url -> w5 = w4 /\ tr = [])
    /\ (page_url H w4 <> url ->
        match waitForXPath H searchButtonXPath 5000 w4 with
        | (Throw e, wa) =>
            w5 = wa /\
            tr = [EvLog MsgRedirect;
                  EvCall (CWaitForXPath searchButtonXPath 5000) (RThrew e);
                  EvLog MsgNoSearchButton]
        | (Ok search, wa) =>
            match cursor_click H search 2500 25 wa with
            | (Throw e, wb) =>
                w5 = wb /\
                tr = [EvLog MsgRedirect;
                      EvCall (CWaitForXPath searchButtonXPath 5000) RDone;
                      EvCall (CClick 2500 25) (RThrew e);
                      EvLog MsgNoSearchButton]
            | (Ok _, wb) =>
                match waitForTimeout H 5000 wb with
                | (Ok _, wc) =>
                    w5 = wc /\
                    tr = [EvLog MsgRedirect;
                          EvCall (CWaitForXPath searchButtonXPath 5000) RDone;
                          EvCall (CClick 2500 25) RDone;
                          EvCall (CWaitForTimeout 5000) RDone]
                | (Throw e, wc) =>
                    w5 = wc /\
                    tr = [EvLog MsgRedirect;
                          EvCall (CWaitForXPath searchButtonXPath 5000) RDone;
                          EvCall (CClick 2500 25) RDone;
                          EvCall (CWaitForTimeout 5000) (RThrew e);
                          EvLog MsgNoSearchButton]
                end
            end
        end)
    /\ level MsgNoSearchButton = LvlWarn.
Proof.
  intros run Hin. unfold run.
  apply run_redirect in Hin
    as (w0 & w1 & w2 & w3 & w4 & w5 & tr & t2
        & H0 & Enp & Erp & Emh & Egoto & Hred & Ht).
  exists w0, w1, w2, w3, w4, w5, tr, t2.
  repeat (split; [eassumption|]).
  apply handleRedirect_branches in Hred as [Heq Hne].
  split; [exact Heq|]. split; [exact Hne | reflexivity].
Qed.

(** *** A row on a page that stays as it is *)

Section StaticPage.

(** The page in the world [w] answers every query with [nodes] and every
    text read with [text], and is not changed by either. *)
Variable nodes : string -> list Elem.
Variable text : Elem -> string.
Variable w : W.
Hypothesis Hnodes : forall x, xpath H x w = (Ok (nodes x), w).
Hypothesis Htext : forall el, textContent H el w = (Ok (text el), w).

Lemma static_query sel els w' t :
  query H sel w = (Ok els, w', t) -> els = nodes (xpath_of sel) /\ w' = w.
Proof.
  unfold query. intros E. apply call_inv in E as [E _].
  rewrite Hnodes in E. inversion E. auto.
Qed.

Lemma static_text els v w' t :
  textOf H (firstMatch els) w = (Ok v, w', t) ->
  firstText text els = Some v /\ w' = w.
Proof.
  destruct els as [|el rest]; [discriminate|].
  cbn [firstMatch hd_error textOf firstText]. intros E.
  apply call_inv in E as [E _]. rewrite Htext in E. inversion E. auto.
Qed.

Lemma static_guarded (g : string -> Res JsVal) (d : JsVal) els v w' t :
  (if nonEmpty els
   then (txt <- textOf H (firstMatch els) ;; pure_res (g txt))
   else ret d) w = (Ok v, w', t) ->
  fieldFrom g d (firstText text els) v /\ w' = w.
Proof.
  destruct els as [|el rest] eqn:Eels;
    cbn [nonEmpty List.length Nat.ltb Nat.leb].
  - intros E. inversion E. split; reflexivity.
  - intros E.
    apply bind_ok_inv in E as (txt & w1 & t1 & t2 & Htxt & Hp & _).
    apply static_text in Htxt as [Hfirst ->].
    unfold pure_res in Hp. inversion Hp; subst.
    rewrite Hfirst. simpl. auto.
Qed.

Lemma static_price els price w' t :
  (if nonEmpty els then textOf H (firstMatch els) else ret "Unavailable") w
  = (Ok price, w', t) ->
  price = priceFrom (firstText text els) /\ w' = w.
Proof.
  destruct els as [|el rest] eqn:Eels;
    cbn [nonEmpty List.length Nat.ltb Nat.leb].
  - intros E. inversion E. split; reflexivity.
  - intros E. apply static_text in E as [Hfirst ->].
    rewrite Hfirst. auto.
Qed.

Lemma static_fareLoop i js :
  forall p0 s0 ps ss w' t,
    fareLoop H i js p0 s0 w = (Ok (ps, ss), w', t) ->
    w' = w
    /\ ps = p0 ++ map (fun j => priceFrom
                        (firstText text (nodes (xpath_of (SelPrice i j))))) js
    /\ exists sn,
         ss = s0 ++ sn
         /\ Forall2 (fun j v =>
                       fieldFrom (processSeatsLeft H) JNull
                         (firstText text (nodes (xpath_of (SelSeats i j)))) v)
                    js sn.
Proof.
  induction js as [|j js IH]; intros p0 s0 ps ss w' t Hrun.
  - inversion Hrun; subst. split; [reflexivity|].
    split; [symmetry; apply app_nil_r|].
    exists []. split; [symmetry; apply app_nil_r | constructor].
  - cbn [fareLoop] in Hrun.
    apply bind_ok_inv in Hrun as (pe & w1 & t1 & r1 & Hqp & Hrun & _).
    apply static_query in Hqp as [-> ->].
    apply bind_ok_inv in Hrun as (price & w2 & t2 & r2 & Hp & Hrun & _).
    apply static_price in Hp as [-> ->].
    apply bind_ok_inv in Hrun as (se & w3 & t3 & r3 & Hqs & Hrun & _).
    apply static_query in Hqs as [-> ->].
    apply bind_ok_inv in Hrun as (seats & w4 & t4 & r4 & Hs & Hrun & _).
    apply static_guarded in Hs as [Hseats ->].
    apply IH in Hrun as (-> & -> & sn & -> & Hall).
    split; [reflexivity|].
    split; [rewrite <- app_assoc; reflexivity|].
    exists (seats :: sn). split; [rewrite <- app_assoc; reflexivity|].
    constructor; assumption.
Qed.

Lemma static_scrapeRow dept arr dateStr i f w' t :
  scrapeRow H dept arr dateStr i w = (Ok f, w', t) ->
  w' = w
  /\ fieldFrom (processFlightNums H) (JArr [])
       (firstText text (nodes (xpath_of (SelFlightNum i))))
       (flightNums (metadata f))
  /\ fieldFrom (processNumStops H) (JStr "Nonstop")
       (firstText text (nodes (xpath_of (SelNumStops i))))
       (numStops (metadata f))
  /\ fieldFrom (processPlaneChange H) JNull
       (firstText text (nodes (xpath_of (SelPlaneChange i))))
       (planeChange (metadata f))
  /\ (exists dt da at_ aa du,
        firstText text (nodes (xpath_of (SelDeptTime i))) = Some dt
        /\ firstText text (nodes (xpath_of (SelDeptAmPm i))) = Some da
        /\ firstText text (nodes (xpath_of (SelArrTime i))) = Some at_
        /\ firstText text (nodes (xpath_of (SelArrAmPm i))) = Some aa
        /\ firstText text (nodes (xpath_of (SelDuration i))) = Some du
        /\ deptTime (metadata f) = (dt ++ " " ++ da)%string
        /\ arrTime (metadata f) = (at_ ++ " " ++ aa)%string
        /\ duration (metadata f) = du)
  /\ prices (metadata f)
     = map (fun j => priceFrom
                       (firstText text (nodes (xpath_of (SelPrice i j)))))
           [1; 2; 3]
  /\ Forall2 (fun j v =>
                fieldFrom (processSeatsLeft H) JNull
                  (firstText text (nodes (xpath_of (SelSeats i j)))) v)
             [1; 2; 3] (seatsLeft (metadata f)).
Proof.
  unfold scrapeRow. intros Hrun.
  apply bind_ok_inv in Hrun as (e1 & w1 & t1 & r1 & Hq1 & Hrun & _).
  apply static_query in Hq1 as [-> ->].
  apply bind_ok_inv in Hrun as (v2 & w2 & t2 & r2 & Hf2 & Hrun & _).
  apply static_guarded in Hf2 as [Hv2 ->].
  apply bind_ok_inv in Hrun as (e3 & w3 & t3 & r3 & Hq3 & Hrun & _).
  apply static_query in Hq3 as [-> ->].
  apply bind_ok_inv in Hrun as (v4 & w4 & t4 & r4 & Hf4 & Hrun & _).
  apply static_guarded in Hf4 as [Hv4 ->].
  apply bind_ok_inv in Hrun as (e5 & w5 & t5 & r5 & Hq5 & Hrun & _).
  apply static_query in Hq5 as [-> ->].
  apply bind_ok_inv in Hrun as (v6 & w6 & t6 & r6 & Hf6 & Hrun & _).
  apply static_guarded in Hf6 as [Hv6 ->].
  apply bind_ok_inv in Hrun as (e7 & w7 & t7 & r7 & Hq7 & Hrun & _).
  apply static_query in Hq7 as [-> ->].
  apply bind_ok_inv in Hrun as (e8 & w8 & t8 & r8 & Hq8 & Hrun & _).
  apply static_query in Hq8 as [-> ->].
  apply bind_ok_inv in Hrun as (v9 & w9 & t9 & r9 & Hf9 & Hrun & _).
  apply static_text in Hf9 as [Hv9 ->].
  apply bind_ok_inv in Hrun as (v10 & w10 & t10 & r10 & Hf10 & Hrun & _).
  apply static_text in Hf10 as [Hv10 ->].
  apply bind_ok_inv in Hrun as (e11 & w11 & t11 & r11 & Hq11 & Hrun & _).
  apply static_query in Hq11 as [-> ->].
  apply bind_ok_inv in Hrun as (e12 & w12 & t12 & r12 & Hq12 & Hrun & _).
  apply static_query in Hq12 as [-> ->].
  apply bind_ok_inv in Hrun as (v13 & w13 & t13 & r13 & Hf13 & Hrun & _).
  apply static_text in Hf13 as [Hv13 ->].
  apply bind_ok_inv in Hrun as (v14 & w14 & t14 & r14 & Hf14 & Hrun & _).
  apply static_text in Hf14 as [Hv14 ->].
  apply bind_ok_inv in Hrun as (e15 & w15 & t15 & r15 & Hq15 & Hrun & _).
  apply static_query in Hq15 as [-> ->].
  apply bind_ok_inv in Hrun as (v16 & w16 & t16 & r16 & Hf16 & Hrun & _).
  apply static_text in Hf16 as [Hv16 ->].
  apply bind_ok_inv in Hrun as ([ps ss] & w17 & t17 & r17 & Hfares & Hrun & _).
  apply static_fareLoop in Hfares as (-> & -> & sn & -> & Hall).
  inversion Hrun; subst. clear Hrun. simpl.
  split; [reflexivity|]. split; [exact Hv2|]. split; [exact Hv4|].
  split; [exact Hv6|].
  split; [exists v9, v10, v13, v14, v16; repeat split; assumption|].
  split; [reflexivity | exact Hall].
Qed.

(** X1. On a page that answers the row's queries and text reads without
    changing, the schedule fields of a row's record are read off the first
    node each query matched: flight numbers, stops and plane change are
    what their processing function makes of that node's text (their default
    when nothing matched); departure and arrival time are the text of the
    first time node, one space, the text of the first meridiem node; the
    duration is the raw text of the first duration node.  A row resolves
    only if those five queries matched something. *)
Theorem row_schedule_from_first_matches dept arr dateStr i f w' t :
  scrapeRow H dept arr dateStr i w = (Ok f, w', t) ->
  fieldFrom (processFlightNums H) (JArr [])
    (firstText text (nodes (xpath_of (SelFlightNum i))))
    (flightNums (metadata f))
  /\ fieldFrom (processNumStops H) (JStr "Nonstop")
       (firstText text (nodes (xpath_of (SelNumStops i))))
       (numStops (metadata f))
  /\ fieldFrom (processPlaneChange H) JNull
       (firstText text (nodes (xpath_of (SelPlaneChange i))))
       (planeChange (metadata f))
  /\ exists dt da at_ aa du,
        firstText text (nodes (xpath_of (SelDeptTime i))) = Some dt
        /\ firstText text (nodes (xpath_of (SelDeptAmPm i))) = Some da
        /\ firstText text (nodes (xpath_of (SelArrTime i))) = Some at_
        /\ firstText text (nodes (xpath_of (SelArrAmPm i))) = Some aa
        /\ firstText text (nodes (xpath_of (SelDuration i))) = Some du
        /\ deptTime (metadata f) = (dt ++ " " ++ da)%string
        /\ arrTime (metadata f) = (at_ ++ " " ++ aa)%string
        /\ duration (metadata f) = du.
Proof.
  intros Hrow.
  apply static_scrapeRow in Hrow as (_ & Hfn & Hst & Hpc & Htimes & _).
  repeat split; assumption.
Qed.

(** X2. On a page that answers the row's queries and text reads without
    changing, the fare slots of a row's record are read off the first node
    each tier's queries matched, tier 1 to 3: a price is the raw text of the
    first price node, unprocessed, a seats entry is what [processSeatsLeft]
    makes of the text of the first seats node, and a tier whose query
    matched nothing holds the sentinel. *)
Theorem row_fares_from_first_matches dept arr dateStr i f w' t :
  scrapeRow H dept arr dateStr i w = (Ok f, w', t) ->
  prices (metadata f)
  = map (fun j => priceFrom
                    (firstText text (nodes (xpath_of (SelPrice i j)))))
        [1; 2; 3]
  /\ Forall2 (fun j v =>
                fieldFrom (processSeatsLeft H) JNull
                  (firstText text (nodes (xpath_of (SelSeats i j)))) v)
             [1; 2; 3] (seatsLeft (metadata f)).
Proof.
  intros Hrow.
  apply static_scrapeRow in Hrow as (_ & _ & _ & _ & _ & Hp & Hs).
  split; assumption.
Qed.

End StaticPage.

End Properties.

(** ** The XPath of a query *)

Lemma append_assoc_s (a b c : string) :
  ((a ++ b) ++ c = a ++ (b ++ c))%string.
Proof. induction a as [|x a IH]; simpl; [reflexivity | rewrite IH; reflexivity]. Qed.

Lemma append_inj_l (p a b : string) : (p ++ a = p ++ b)%string -> a = b.
Proof. induction p as [|x p IH]; simpl; intros E; [exact E | inversion E; auto]. Qed.

Lemma string_of_uint_digits d :
  Forall (fun c => In c digits) (list_ascii_of_string (NilEmpty.string_of_uint d)).
Proof.
  induction d; simpl; constructor; auto; unfold digits; simpl; auto 12.
Qed.

Lemma num_digits n : Forall (fun c => In c digits) (list_ascii_of_string (num n)).
Proof. apply string_of_uint_digits. Qed.

Lemma num_inj n n' : num n = num n' -> n = n'.
Proof.
  unfold num. intros E. apply Unsigned.to_uint_inj.
  assert (E' : Some (Nat.to_uint n) = Some (Nat.to_uint n')).
  { rewrite <- !NilEmpty.usu. rewrite E. reflexivity. }
  inversion E'. reflexivity.
Qed.

(** Two strings of digits, each followed by a character that is no digit. *)
Lemma digits_then_sep (a a' r r' : string) (c : ascii) :
  ~ In c digits ->
  Forall (fun x => In x digits) (list_ascii_of_string a) ->
  Forall (fun x => In x digits) (list_ascii_of_string a') ->
  (a ++ String c r = a' ++ String c r')%string ->
  a = a' /\ r = r'.
Proof.
  intros Hc. revert a'. induction a as [|x a IH]; intros [|x' a'] Ha Ha' E;
    simpl in *.
  - inversion E. auto.
  - inversion E; subst. inversion Ha'; subst. contradiction.
  - inversion E; subst. inversion Ha; subst. contradiction.
  - inversion E; subst. inversion Ha; inversion Ha'; subst.
    destruct (IH a') as [-> ->]; auto.
Qed.

Lemma num_then_sep n n' r r' c :
  ~ In c digits ->
  (num n ++ String c r = num n' ++ String c r')%string -> n = n' /\ r = r'.
Proof.
  intros Hc E.
  apply digits_then_sep in E as [E ->]; auto using num_digits.
  split; [apply num_inj, E | reflexivity].
Qed.

Lemma bracket_no_digit : ~ In "]"%char digits.
Proof. unfold digits. simpl. intuition discriminate. Qed.

Lemma quote_no_digit : ~ In (ascii_of_nat 34) digits.
Proof. unfold digits. simpl. intuition discriminate. Qed.

Lemma rowPath_form i suf :
  (rowPath i ++ suf
   = "//*[@id=" ++ dq ++ "air-booking-product-0" ++ dq
     ++ "]/div[6]/span/span/ul/li[" ++ (num i ++ String "]" suf))%string.
Proof. unfold rowPath. rewrite !append_assoc_s. reflexivity. Qed.

Lemma farePath_form i j suf :
  (farePath i j ++ suf
   = "//*[@id=" ++ dq ++ "air-booking-fares-0-"
     ++ (num i ++ String (ascii_of_nat 34)
           ("]/div[" ++ (num j ++ String "]" ("/button/span/span/span" ++ suf)))))%string.
Proof. unfold farePath. rewrite !append_assoc_s. reflexivity. Qed.

Lemma rowPath_inj i i' suf suf' :
  (rowPath i ++ suf = rowPath i' ++ suf')%string -> i = i' /\ suf = suf'.
Proof.
  rewrite !rowPath_form. intros E.
  do 5 apply append_inj_l in E.
  apply num_then_sep in E; [exact E | apply bracket_no_digit].
Qed.

Lemma farePath_inj i j i' j' suf suf' :
  (farePath i j ++ suf = farePath i' j' ++ suf')%string ->
  i = i' /\ j = j' /\ suf = suf'.
Proof.
  rewrite !farePath_form. intros E.
  do 3 apply append_inj_l in E.
  apply num_then_sep in E as [-> E]; [|apply quote_no_digit].
  apply append_inj_l in E.
  apply num_then_sep in E as [-> E]; [|apply bracket_no_digit].
  apply append_inj_l in E. auto.
Qed.

Lemma rowPath_farePath i i' j' suf suf' :
  (rowPath i ++ suf <> farePath i' j' ++ suf')%string.
Proof.
  rewrite rowPath_form, farePath_form. intros E.
  do 2 apply append_inj_l in E. simpl in E. discriminate E.
Qed.

(** X12. Every field of every row and tier is looked up by a path of its
    own: two different queries never have the same XPath text, whatever the
    row and tier numbers. *)
Theorem xpath_of_injective s1 s2 : s1 <> s2 -> xpath_of s1 <> xpath_of s2.
Proof.
  intros Hne E. apply Hne. clear Hne.
  destruct s1, s2; cbn [xpath_of] in E;
    match type of E with
    | (rowPath _ ++ _)%string = (rowPath _ ++ _)%string =>
        apply rowPath_inj in E as [-> E]; try discriminate E; reflexivity
    | (farePath _ _ ++ _)%string = (farePath _ _ ++ _)%string =>
        apply farePath_inj in E as (-> & -> & E);
        try discriminate E; reflexivity
    | (rowPath _ ++ _)%string = (farePath _ _ ++ _)%string =>
        apply rowPath_farePath in E; contradiction
    | (farePath _ _ ++ _)%string = (rowPath _ ++ _)%string =>
        symmetry in E; apply rowPath_farePath in E; contradiction
    end.
Qed.

(** ** The theorems on fixture pages *)

Ltac in_list := simpl; repeat first [left; reflexivity | right].

(** C2 on a page whose first row has no duration cell: the duration query
    of row 1 matches nothing, reading [textContent] off [undefined] throws,
    the row's [catch] logs it, and the only record returned is row 2's. *)
Lemma duration_miss_drops_row :
  In (EvCall (CQuery (SelDuration 1)) (RCount 0)) (events (runOn noDurationPage))
  /\ In (EvLog (MsgRowError 1 TypeErrorUndefined)) (events (runOn noDurationPage))
  /\ fst (fst failedFirstRow) = Throw TypeErrorUndefined
  /\ failedRows (events (runOn noDurationPage)) = [1]
  /\ map (fun f => duration (metadata f)) (flightsOf (runOn noDurationPage))
     = ["4h 10m"].
Proof.
  split; [vm_compute; in_list|].
  split; [vm_compute; in_list|].
  repeat split; vm_compute; reflexivity.
Qed.

(** On the two-row page: both records have three slots, and row 2, whose
    fares are not rendered, holds the sentinels. *)
Lemma fare_slots_always_three_witness :
  outcome (runOn twoRowPage) = Returned (Some twoRowFlights)
  /\ Forall (fun f => List.length (prices (metadata f)) = 3
                      /\ List.length (seatsLeft (metadata f)) = 3)
            twoRowFlights
  /\ scrapeRow fixtureHost "DAL" "HOU" "2025-03-01" 2 twoRowPage
     = (Ok secondRowFlight, twoRowPage, snd secondRow)
  /\ In 1 [1; 2; 3]
  /\ In (EvCall (CQuery (SelPrice 2 1)) (RCount 0)) (snd secondRow)
  /\ nth_error (prices (metadata secondRowFlight)) (1 - 1) = Some "Unavailable".
Proof.
  destruct (@fare_slots_always_three _ _ fixtureHost
              "DAL" "HOU" "2025-03-01" searchUrl) as [Hall Hslot].
  assert (Hrun : outcome (runOn twoRowPage) = Returned (Some twoRowFlights))
    by (vm_compute; reflexivity).
  assert (Hrow : scrapeRow fixtureHost "DAL" "HOU" "2025-03-01" 2 twoRowPage
                 = (Ok secondRowFlight, twoRowPage, snd secondRow))
    by (vm_compute; reflexivity).
  assert (Hj : In 1 [1; 2; 3]) by in_list.
  assert (Hq : In (EvCall (CQuery (SelPrice 2 1)) (RCount 0)) (snd secondRow))
    by (vm_compute; in_list).
  split; [exact Hrun|]. split; [exact (Hall twoRowPage twoRowFlights Hrun)|].
  split; [exact Hrow|]. split; [exact Hj|]. split; [exact Hq|].
  exact (proj1 (Hslot 2 twoRowPage secondRowFlight twoRowPage (snd secondRow)
                  Hrow 1 Hj) Hq).
Defined.

(** On the page without rows. *)
Lemma zero_rows_returns_null_witness :
  In (countEvent (RCount 0)) (events (runOn emptyPage))
  /\ insertCalls (events (runOn emptyPage)) = []
  /\ forall fs, outcome (runOn emptyPage) <> Returned (Some fs).
Proof.
  assert (Hin : In (countEvent (RCount 0)) (events (runOn emptyPage)))
    by (vm_compute; in_list).
  destruct (@zero_rows_returns_null _ _ fixtureHost
              "DAL" "HOU" "2025-03-01" searchUrl emptyPage Hin)
    as (Hins & _ & Hnot & _).
  split; [exact Hin|]. split; [exact Hins | exact Hnot].
Defined.

(** C3 as stated fails on the page without rows: the count is 0 and the
    invocation resolves to null, which is not the empty flights array. *)
Lemma zero_rows_not_empty_array :
  ~ (In (countEvent (RCount 0)) (events (runOn emptyPage)) ->
     outcome (runOn emptyPage) = Returned (Some [])).
Proof.
  intros Hclaim.
  assert (Hin : In (countEvent (RCount 0)) (events (runOn emptyPage)))
    by (vm_compute; in_list).
  apply Hclaim in Hin. vm_compute in Hin. discriminate Hin.
Qed.

(** On the page whose first row throws: row 2 is still extracted and
    inserted. *)
Lemma row_failure_isolated_witness :
  scrapeRow fixtureHost "DAL" "HOU" "2025-03-01" 1 noDurationPage
  = (Throw TypeErrorUndefined, noDurationPage, snd failedFirstRow)
  /\ rowLoop fixtureHost "DAL" "HOU" "2025-03-01" 2 1 [] noDurationPage
     = (let '(r, w2, t2) :=
          rowLoop fixtureHost "DAL" "HOU" "2025-03-01" 1 2 [] noDurationPage in
        (r, w2,
         (snd failedFirstRow ++ [EvLog (MsgRowError 1 TypeErrorUndefined)])
         ++ t2))
  /\ In (countEvent (RCount 2)) (events (runOn noDurationPage))
  /\ 0 < 2
  /\ List.length (insertCalls (events (runOn noDurationPage)))
     = 2 - List.length (failedRows (events (runOn noDurationPage))).
Proof.
  destruct (@row_failure_isolated _ _ fixtureHost
              "DAL" "HOU" "2025-03-01" searchUrl) as (Hstep & _ & Hrun).
  assert (Hrow : scrapeRow fixtureHost "DAL" "HOU" "2025-03-01" 1 noDurationPage
                 = (Throw TypeErrorUndefined, noDurationPage,
                    snd failedFirstRow))
    by (vm_compute; reflexivity).
  assert (Hin : In (countEvent (RCount 2)) (events (runOn noDurationPage)))
    by (vm_compute; in_list).
  assert (Hpos : 0 < 2) by lia.
  split; [exact Hrow|].
  split; [exact (Hstep 1 1 [] noDurationPage TypeErrorUndefined noDurationPage
                   (snd failedFirstRow) Hrow)|].
  split; [exact Hin|]. split; [exact Hpos|].
  destruct (Hrun noDurationPage 2 Hin Hpos) as (_ & _ & _ & Hlen & _).
  exact Hlen.
Defined.


(** On the page whose load times out: the handler's close resolves and
    the result is null. *)
Lemma navigation_failure_is_fatal_witness :
  In (EvCall (CGoto searchUrl 90000) (RThrew timeoutError))
     (events (runOn stalledPage))
  /\ insertCalls (events (runOn stalledPage)) = []
  /\ only (fun ev => negb (isCount ev || isQuery ev)) (events (runOn stalledPage))
  /\ closeReplies (events (runOn stalledPage)) = [RDone]
  /\ outcome (runOn stalledPage) = Returned None.
Proof.
  assert (Hin : In (EvCall (CGoto searchUrl 90000) (RThrew timeoutError))
                   (events (runOn stalledPage)))
    by (vm_compute; in_list).
  destruct (@navigation_failure_is_fatal _ _ fixtureHost
              "DAL" "HOU" "2025-03-01" searchUrl stalledPage timeoutError Hin)
    as (Hins & Hq & [(_ & Hc & Ho)|(e2 & Hev & _)]).
  - split; [exact Hin|]. split; [exact Hins|]. split; [exact Hq|].
    split; [exact Hc | exact Ho].
  - exfalso. vm_compute in Hev. discriminate Hev.
Defined.

(** C7 as stated fails on the page whose load times out in a session whose
    close rejects: the fatal handler's [browser.close()] rejects, so the
    session is not released and the invocation rejects instead of returning
    null. *)
Lemma navigation_failure_can_reject :
  ~ (In (EvCall (CGoto searchUrl 90000) (RThrew timeoutError))
        (events (runOn stalledClosePage)) ->
     outcome (runOn stalledClosePage) = Returned None).
Proof.
  intros Hclaim.
  assert (Hin : In (EvCall (CGoto searchUrl 90000) (RThrew timeoutError))
                   (events (runOn stalledClosePage)))
    by (vm_compute; in_list).
  apply Hclaim in Hin. vm_compute in Hin. discriminate Hin.
Qed.

(** C6 as stated fails on the page without rows in a session whose close
    rejects: the run is past the launch, [browser.close()] is called twice
    (in the zero-row branch and in the fatal handler) and neither call
    resolves, so the invocation ends with the session open. *)
Lemma session_release_can_fail :
  ~ (In (EvCall CLaunch RDone) (events (runOn closeTwicePage)) ->
     In RDone (closeReplies (events (runOn closeTwicePage)))).
Proof.
  intros Hclaim.
  assert (Hin : In (EvCall CLaunch RDone) (events (runOn closeTwicePage)))
    by (vm_compute; in_list).
  apply Hclaim in Hin. vm_compute in Hin.
  repeat (destruct Hin as [Hin|Hin]; [discriminate Hin|]). exact Hin.
Qed.

(** On the search form, with and without its submit control: the address
    differs from the requested one; with the control, it is found and
    clicked and the delay is waited; without it, the wait times out and the
    warning is logged.  On a page at the requested address nothing comes
    between the load and the scroll.  The scroll follows in all three
    runs. *)
Lemma redirect_handling_witness :
  (In (EvCall (CGoto searchUrl 90000) RDone) (events (runOn searchFormPage))
   /\ page_url fixtureHost searchFormPage <> searchUrl
   /\ exists t2,
        events (runOn searchFormPage)
        = [EvLog (MsgStart "DAL" "HOU" "2025-03-01"); EvCall CLaunch RDone;
           EvCall CNewPage RDone; EvCall CRandomPagePoint RDone;
           EvCall CInstallMouseHelper RDone;
           EvCall (CGoto searchUrl 90000) RDone]
          ++ [EvLog MsgRedirect;
              EvCall (CWaitForXPath searchButtonXPath 5000) RDone;
              EvCall (CClick 2500 25) RDone;
              EvCall (CWaitForTimeout 5000) RDone]
          ++ EvCall (CScrollBy 0 450) RDone :: t2)
  /\ (In (EvCall (CGoto searchUrl 90000) RDone) (events (runOn redirectedPage))
      /\ page_url fixtureHost redirectedPage <> searchUrl
      /\ exists t2,
           events (runOn redirectedPage)
           = [EvLog (MsgStart "DAL" "HOU" "2025-03-01"); EvCall CLaunch RDone;
              EvCall CNewPage RDone; EvCall CRandomPagePoint RDone;
              EvCall CInstallMouseHelper RDone;
              EvCall (CGoto searchUrl 90000) RDone]
             ++ [EvLog MsgRedirect;
                 EvCall (CWaitForXPath searchButtonXPath 5000)
                   (RThrew timeoutError);
                 EvLog MsgNoSearchButton]
             ++ EvCall (CScrollBy 0 450) RDone :: t2)
  /\ (In (EvCall (CGoto searchUrl 90000) RDone) (events (runOn emptyPage))
      /\ page_url fixtureHost emptyPage = searchUrl
      /\ exists t2,
           events (runOn emptyPage)
           = [EvLog (MsgStart "DAL" "HOU" "2025-03-01"); EvCall CLaunch RDone;
              EvCall CNewPage RDone; EvCall CRandomPagePoint RDone;
              EvCall CInstallMouseHelper RDone;
              EvCall (CGoto searchUrl 90000) RDone]
             ++ EvCall (CScrollBy 0 450) RDone :: t2).
Proof.
  split; [|split].
  - assert (Hin : In (EvCall (CGoto searchUrl 90000) RDone)
                     (events (runOn searchFormPage)))
      by (vm_compute; in_list).
    assert (Hurl : page_url fixtureHost searchFormPage <> searchUrl)
      by (vm_compute; discriminate).
    split; [exact Hin|]. split; [exact Hurl|].
    destruct (@redirect_handling _ _ fixtureHost
                "DAL" "HOU" "2025-03-01" searchUrl searchFormPage Hin)
      as (w0 & w1 & w2 & w3 & w4 & w5 & tr & t2
          & E0 & E1 & E2 & E3 & E4 & Hev & _ & Hne & _).
    injection E0 as <-. injection E1 as <-. injection E2 as <-.
    injection E3 as <-. injection E4 as <-.
    destruct (Hne Hurl) as [-> ->].
    exists t2. exact Hev.
  - assert (Hin : In (EvCall (CGoto searchUrl 90000) RDone)
                     (events (runOn redirectedPage)))
      by (vm_compute; in_list).
    assert (Hurl : page_url fixtureHost redirectedPage <> searchUrl)
      by (vm_compute; discriminate).
    split; [exact Hin|]. split; [exact Hurl|].
    destruct (@redirect_handling _ _ fixtureHost
                "DAL" "HOU" "2025-03-01" searchUrl redirectedPage Hin)
      as (w0 & w1 & w2 & w3 & w4 & w5 & tr & t2
          & E0 & E1 & E2 & E3 & E4 & Hev & _ & Hne & _).
    injection E0 as <-. injection E1 as <-. injection E2 as <-.
    injection E3 as <-. injection E4 as <-.
    destruct (Hne Hurl) as [-> ->].
    exists t2. exact Hev.
  - assert (Hin : In (EvCall (CGoto searchUrl 90000) RDone)
                     (events (runOn emptyPage)))
      by (vm_compute; in_list).
    assert (Hurl : page_url fixtureHost emptyPage = searchUrl) by reflexivity.
    split; [exact Hin|]. split; [exact Hurl|].
    destruct (@redirect_handling _ _ fixtureHost
                "DAL" "HOU" "2025-03-01" searchUrl emptyPage Hin)
      as (w0 & w1 & w2 & w3 & w4 & w5 & tr & t2
          & E0 & E1 & E2 & E3 & E4 & Hev & Heq & _ & _).
    injection E0 as <-. injection E1 as <-. injection E2 as <-.
    injection E3 as <-. injection E4 as <-.
    destruct (Heq Hurl) as [-> ->].
    exists t2. exact Hev.
Defined.

(** On the page whose three rows all throw. *)
Lemma all_rows_failed_returns_empty_array_witness :
  closeReplies (events (runOn brokenRowsPage)) = [RDone]
  /\ In (countEvent (RCount 3)) (events (runOn brokenRowsPage))
  /\ (forall k, 1 <= k <= 3 -> In k (failedRows (events (runOn brokenRowsPage))))
  /\ outcome (runOn brokenRowsPage) = Returned (Some []).
Proof.
  assert (Hclose : closeReplies (events (runOn brokenRowsPage)) = [RDone])
    by (vm_compute; reflexivity).
  assert (Hin : In (countEvent (RCount 3)) (events (runOn brokenRowsPage)))
    by (vm_compute; in_list).
  assert (Hf : failedRows (events (runOn brokenRowsPage)) = [1; 2; 3])
    by (vm_compute; reflexivity).
  assert (Hall : forall k, 1 <= k <= 3 ->
                           In k (failedRows (events (runOn brokenRowsPage)))).
  { intros k Hk. rewrite Hf. simpl. lia. }
  assert (Hpos : 0 < 3) by lia.
  split; [exact Hclose|]. split; [exact Hin|]. split; [exact Hall|].
  exact (proj1 (@all_rows_failed_returns_empty_array _ _ fixtureHost
                  "DAL" "HOU" "2025-03-01" searchUrl brokenRowsPage Hclose)
           3 Hin Hpos Hall).
Defined.

(** C9 as stated fails on the page whose three rows all throw in a session
    whose first close rejects: the count is 3, every row failed, and the
    invocation resolves to null, not to the empty array. *)
Lemma all_rows_failed_can_return_null :
  ~ (In (countEvent (RCount 3)) (events (runOn brokenRowsClosePage)) ->
     (forall k, 1 <= k <= 3 ->
                In k (failedRows (events (runOn brokenRowsClosePage)))) ->
     outcome (runOn brokenRowsClosePage) = Returned (Some [])).
Proof.
  intros Hclaim.
  assert (Hin : In (countEvent (RCount 3)) (events (runOn brokenRowsClosePage)))
    by (vm_compute; in_list).
  assert (Hf : failedRows (events (runOn brokenRowsClosePage)) = [1; 2; 3])
    by (vm_compute; reflexivity).
  assert (Hall : forall k, 1 <= k <= 3 ->
                   In k (failedRows (events (runOn brokenRowsClosePage)))).
  { intros k Hk. rewrite Hf. simpl. lia. }
  specialize (Hclaim Hin Hall). vm_compute in Hclaim. discriminate Hclaim.
Qed.

(** On the two-row page. *)
Lemma records_carry_arguments_witness :
  outcome (runOn twoRowPage) = Returned (Some twoRowFlights)
  /\ Forall (fun f => departurePort f = "DAL" /\ arrivalPort f = "HOU"
                      /\ date f = "2025-03-01") twoRowFlights.
Proof.
  assert (Ho : outcome (runOn twoRowPage) = Returned (Some twoRowFlights))
    by (vm_compute; reflexivity).
  split; [exact Ho|].
  exact (@records_carry_arguments _ _ fixtureHost
           "DAL" "HOU" "2025-03-01" searchUrl twoRowPage twoRowFlights Ho).
Defined.

(** ** More on fixture pages *)

(** Row 1 of the page without its duration cell throws, row 2 is entered
    all the same. *)
Lemma rows_entered_in_order_witness :
  In (countEvent (RCount 2)) (events (runOn noDurationPage))
  /\ rowsEntered (events (runOn noDurationPage)) = seq 1 2.
Proof.
  assert (Hin : In (countEvent (RCount 2)) (events (runOn noDurationPage)))
    by (vm_compute; in_list).
  split; [exact Hin|].
  exact (@rows_entered_in_order _ _ fixtureHost
           "DAL" "HOU" "2025-03-01" searchUrl noDurationPage 2 Hin).
Defined.

Lemma count_follows_scroll_and_settle_witness :
  In (countEvent (RCount 2)) (events (runOn twoRowPage))
  /\ exists t1 t2,
       events (runOn twoRowPage)
       = t1 ++ EvCall (CScrollBy 0 450) RDone
            :: EvCall (CWaitForTimeout 3000) RDone
            :: countEvent (RCount 2) :: t2.
Proof.
  assert (Hin : In (countEvent (RCount 2)) (events (runOn twoRowPage)))
    by (vm_compute; in_list).
  split; [exact Hin|].
  exact (@count_follows_scroll_and_settle _ _ fixtureHost
           "DAL" "HOU" "2025-03-01" searchUrl twoRowPage 2 Hin).
Defined.

(** On the two-row page the first insert is event 58 of the run. *)
Lemma no_query_after_insert_witness :
  events (runOn twoRowPage)
  = firstn 58 (events (runOn twoRowPage))
    ++ nth 58 (events (runOn twoRowPage)) (EvLog MsgRedirect)
    :: skipn 59 (events (runOn twoRowPage))
  /\ isInsert (nth 58 (events (runOn twoRowPage)) (EvLog MsgRedirect)) = true
  /\ only (fun e => negb (isQuery e || isCount e))
          (skipn 59 (events (runOn twoRowPage))).
Proof.
  assert (Hsplit : events (runOn twoRowPage)
                   = firstn 58 (events (runOn twoRowPage))
                     ++ nth 58 (events (runOn twoRowPage)) (EvLog MsgRedirect)
                     :: skipn 59 (events (runOn twoRowPage)))
    by (vm_compute; reflexivity).
  assert (Hev : isInsert (nth 58 (events (runOn twoRowPage))
                            (EvLog MsgRedirect)) = true)
    by (vm_compute; reflexivity).
  split; [exact Hsplit|]. split; [exact Hev|].
  exact (@no_query_after_insert _ _ fixtureHost
           "DAL" "HOU" "2025-03-01" searchUrl twoRowPage _ _ _ Hsplit Hev).
Defined.

(** With a browser that does not start. *)
Lemma launch_failure_exits_witness :
  In (EvCall CLaunch (RThrew (HostError "Failed to launch the browser process")))
     (events (pageScrape deadBrowserHost "DAL" "HOU" "2025-03-01" searchUrl
                twoRowPage))
  /\ outcome (pageScrape deadBrowserHost "DAL" "HOU" "2025-03-01" searchUrl
                twoRowPage) = ProcessExit 1
  /\ exists e,
       events (pageScrape deadBrowserHost "DAL" "HOU" "2025-03-01" searchUrl
                 twoRowPage)
       = [EvLog (MsgStart "DAL" "HOU" "2025-03-01"); EvCall CLaunch (RThrew e);
          EvLog (MsgLaunchError e)].
Proof.
  destruct (@launch_failure_exits _ _ deadBrowserHost
              "DAL" "HOU" "2025-03-01" searchUrl twoRowPage) as [Hthrew Hexit].
  assert (Hin : In (EvCall CLaunch
                      (RThrew (HostError "Failed to launch the browser process")))
                   (events (pageScrape deadBrowserHost "DAL" "HOU" "2025-03-01"
                              searchUrl twoRowPage)))
    by (vm_compute; in_list).
  split; [exact Hin|].
  destruct (Hthrew _ Hin) as [Ho _].
  split; [exact Ho|]. exact (proj2 (Hexit 1%Z Ho)).
Defined.

(** On the page whose load times out. *)
Lemma failure_before_count_is_fatal_witness :
  In (EvCall CLaunch RDone) (events (runOn stalledPage))
  /\ (forall n, ~ In (countEvent (RCount n)) (events (runOn stalledPage)))
  /\ queriesOf (events (runOn stalledPage)) = []
  /\ insertCalls (events (runOn stalledPage)) = [].
Proof.
  assert (Hlaunch : In (EvCall CLaunch RDone) (events (runOn stalledPage)))
    by (vm_compute; in_list).
  assert (Hnocount : forall n,
             ~ In (countEvent (RCount n)) (events (runOn stalledPage))).
  { intros n Hin. vm_compute in Hin.
    repeat (destruct Hin as [Hin|Hin]; [discriminate Hin|]). exact Hin. }
  split; [exact Hlaunch|]. split; [exact Hnocount|].
  destruct (@failure_before_count_is_fatal _ _ fixtureHost
              "DAL" "HOU" "2025-03-01" searchUrl stalledPage Hlaunch Hnocount)
    as (Hq & Hi & _).
  split; [exact Hq | exact Hi].
Defined.

(** Both rows extracted and inserted, the first close rejected: null. *)
Lemma close_rejection_loses_flights_witness :
  In (EvCall CClose (RThrew (HostError "Target closed")))
     (events (runOn lateClosePage))
  /\ List.length (insertCalls (events (runOn lateClosePage))) = 2
  /\ forall fs, outcome (runOn lateClosePage) <> Returned (Some fs).
Proof.
  assert (Hin : In (EvCall CClose (RThrew (HostError "Target closed")))
                   (events (runOn lateClosePage)))
    by (vm_compute; in_list).
  split; [exact Hin|]. split; [vm_compute; reflexivity|].
  exact (@close_rejection_loses_flights _ _ fixtureHost
           "DAL" "HOU" "2025-03-01" searchUrl lateClosePage _ Hin).
Defined.

(** A flights array on the two-row page, null on the page without rows. *)
Lemma outcome_decoding_witness :
  (outcome (runOn twoRowPage) = Returned (Some twoRowFlights)
   /\ exists n,
        0 < n /\ In (countEvent (RCount n)) (events (runOn twoRowPage))
        /\ In (EvLog (MsgFlights twoRowFlights)) (events (runOn twoRowPage))
        /\ List.length twoRowFlights <= n
        /\ filter isFatal (events (runOn twoRowPage)) = []
        /\ closeReplies (events (runOn twoRowPage)) = [RDone])
  /\ (outcome (runOn emptyPage) = Returned None
      /\ (In (countEvent (RCount 0)) (events (runOn emptyPage))
          \/ exists e, In (EvLog (MsgFatal e)) (events (runOn emptyPage)))).
Proof.
  assert (Hsome : outcome (runOn twoRowPage) = Returned (Some twoRowFlights))
    by (vm_compute; reflexivity).
  assert (Hnone : outcome (runOn emptyPage) = Returned None)
    by (vm_compute; reflexivity).
  split.
  - split; [exact Hsome|].
    exact (proj1 (@outcome_decoding _ _ fixtureHost
                    "DAL" "HOU" "2025-03-01" searchUrl twoRowPage)
             twoRowFlights Hsome).
  - split; [exact Hnone|].
    exact (proj2 (@outcome_decoding _ _ fixtureHost
                    "DAL" "HOU" "2025-03-01" searchUrl emptyPage) Hnone).
Defined.

Lemma xpath_of_injective_witness :
  SelPrice 1 12 <> SelPrice 11 2
  /\ xpath_of (SelPrice 1 12) <> xpath_of (SelPrice 11 2).
Proof.
  assert (Hne : SelPrice 1 12 <> SelPrice 11 2) by discriminate.
  split; [exact Hne|].
  exact (@xpath_of_injective (SelPrice 1 12) (SelPrice 11 2) Hne).
Defined.

(** On the search form with its submit control: the button is clicked and
    the scroll follows. *)
Lemma scroll_follows_page_load_witness :
  In (EvCall (CGoto searchUrl 90000) RDone)
     (events (runOn searchFormPage))
  /\ exists rs,
       In (EvCall (CScrollBy 0 450) rs) (events (runOn searchFormPage)).
Proof.
  assert (Hin : In (EvCall (CGoto searchUrl 90000) RDone)
                   (events (runOn searchFormPage)))
    by (vm_compute; in_list).
  split; [exact Hin|].
  exact (@scroll_follows_page_load _ _ fixtureHost
           "DAL" "HOU" "2025-03-01" searchUrl searchFormPage _ _ Hin).
Defined.

(** On the page whose queries match two nodes each: every field of the
    record is read off the first node, the time before its meridiem. *)
Lemma row_schedule_from_first_matches_witness :
  (forall x, xpath fixtureHost x crowdedPage = (Ok (crowdedNodes x), crowdedPage))
  /\ (forall el, textContent fixtureHost el crowdedPage = (Ok el, crowdedPage))
  /\ scrapeRow fixtureHost "DAL" "HOU" "2025-03-01" 1 crowdedPage
     = (Ok crowdedFlight, crowdedPage, snd crowdedRow)
  /\ crowdedNodes (xpath_of (SelDeptTime 1)) = ["6:00"; "7:15"]
  /\ crowdedNodes (xpath_of (SelDeptAmPm 1)) = ["AM"; "PM"]
  /\ fieldFrom (processFlightNums fixtureHost) (JArr [])
       (firstText (fun el => el) (crowdedNodes (xpath_of (SelFlightNum 1))))
       (flightNums (metadata crowdedFlight))
  /\ fieldFrom (processNumStops fixtureHost) (JStr "Nonstop")
       (firstText (fun el => el) (crowdedNodes (xpath_of (SelNumStops 1))))
       (numStops (metadata crowdedFlight))
  /\ fieldFrom (processPlaneChange fixtureHost) JNull
       (firstText (fun el => el) (crowdedNodes (xpath_of (SelPlaneChange 1))))
       (planeChange (metadata crowdedFlight))
  /\ exists dt da at_ aa du,
        firstText (fun el => el) (crowdedNodes (xpath_of (SelDeptTime 1)))
        = Some dt
        /\ firstText (fun el => el) (crowdedNodes (xpath_of (SelDeptAmPm 1)))
           = Some da
        /\ firstText (fun el => el) (crowdedNodes (xpath_of (SelArrTime 1)))
           = Some at_
        /\ firstText (fun el => el) (crowdedNodes (xpath_of (SelArrAmPm 1)))
           = Some aa
        /\ firstText (fun el => el) (crowdedNodes (xpath_of (SelDuration 1)))
           = Some du
        /\ deptTime (metadata crowdedFlight) = (dt ++ " " ++ da)%string
        /\ arrTime (metadata crowdedFlight) = (at_ ++ " " ++ aa)%string
        /\ duration (metadata crowdedFlight) = du.
Proof.
  assert (Hn : forall x, xpath fixtureHost x crowdedPage
                         = (Ok (crowdedNodes x), crowdedPage))
    by (intros x; reflexivity).
  assert (Ht : forall el, textContent fixtureHost el crowdedPage
                          = (Ok el, crowdedPage))
    by (intros el; reflexivity).
  assert (Hrow : scrapeRow fixtureHost "DAL" "HOU" "2025-03-01" 1 crowdedPage
                 = (Ok crowdedFlight, crowdedPage, snd crowdedRow))
    by (vm_compute; reflexivity).
  split; [exact Hn|]. split; [exact Ht|]. split; [exact Hrow|].
  split; [vm_compute; reflexivity|]. split; [vm_compute; reflexivity|].
  exact (@row_schedule_from_first_matches _ _ fixtureHost
           crowdedNodes (fun el => el) crowdedPage Hn Ht
           "DAL" "HOU" "2025-03-01" 1 crowdedFlight crowdedPage
           (snd crowdedRow) Hrow).
Defined.

(** On the same page: tier 1 holds the text of its first price and seats
    nodes, tier 2 matched nothing, tier 3 has a price and no seats note. *)
Lemma row_fares_from_first_matches_witness :
  (forall x, xpath fixtureHost x crowdedPage = (Ok (crowdedNodes x), crowdedPage))
  /\ (forall el, textContent fixtureHost el crowdedPage = (Ok el, crowdedPage))
  /\ scrapeRow fixtureHost "DAL" "HOU" "2025-03-01" 1 crowdedPage
     = (Ok crowdedFlight, crowdedPage, snd crowdedRow)
  /\ crowdedNodes (xpath_of (SelPrice 1 1)) = ["129"; "999"]
  /\ prices (metadata crowdedFlight)
     = map (fun j => priceFrom
                       (firstText (fun el => el)
                          (crowdedNodes (xpath_of (SelPrice 1 j)))))
           [1; 2; 3]
  /\ Forall2 (fun j v =>
                fieldFrom (processSeatsLeft fixtureHost) JNull
                  (firstText (fun el => el)
                     (crowdedNodes (xpath_of (SelSeats 1 j)))) v)
             [1; 2; 3] (seatsLeft (metadata crowdedFlight)).
Proof.
  assert (Hn : forall x, xpath fixtureHost x crowdedPage
                         = (Ok (crowdedNodes x), crowdedPage))
    by (intros x; reflexivity).
  assert (Ht : forall el, textContent fixtureHost el crowdedPage
                          = (Ok el, crowdedPage))
    by (intros el; reflexivity).
  assert (Hrow : scrapeRow fixtureHost "DAL" "HOU" "2025-03-01" 1 crowdedPage
                 = (Ok crowdedFlight, crowdedPage, snd crowdedRow))
    by (vm_compute; reflexivity).
  split; [exact Hn|]. split; [exact Ht|]. split; [exact Hrow|].
  split; [vm_compute; reflexivity|].
  exact (@row_fares_from_first_matches _ _ fixtureHost
           crowdedNodes (fun el => el) crowdedPage Hn Ht
           "DAL" "HOU" "2025-03-01" 1 crowdedFlight crowdedPage
           (snd crowdedRow) Hrow).
Defined.
